(** * Storage-provider layer of kanister: a shallow embedding

    The elastic-block backend ([pkg/blockstorage/awsebs/awsebs.go]) and the
    managed-file-system backend ([pkg/blockstorage/awsefs/awsefs.go]) are
    clients of cloud APIs: every provider method is a short program that
    builds requests, sends them, and inspects the answers.  A method is
    embedded as an interaction tree whose events are the SDK calls it makes
    (carrying the request as it goes on the wire) and whose leaves are the
    Go return values.  Pure helpers are plain functions. *)

From stdpp Require Import gmap strings list fin_maps.
From ITree Require Import ITree.
From Stdlib Require Import ZArith Ascii String.

Local Open Scope string_scope.
Local Open Scope Z_scope.

Notation "'let*' x ':=' t 'in' k" := (ITree.bind t (fun x => k))
  (at level 10, x pattern, t at level 100, k at level 200).

(** ** Go values *)

(** [error]: the values the embedded code builds with [errors.New],
    [errors.Errorf], [errors.Wrap] and [errors.Wrapf], and the opaque
    errors handed back by the SDK ([Backend], identified by its code). *)
Module errors.
Inductive error : Type :=
  | Backend (code : string)
  | New (msg : string)
  | Wrap (cause : error) (msg : string).
End errors.
Export errors (error).

(** What a Go function of result type [(T, error)] can do when it stops:
    return [(v, nil)], return [(zero, err)], or die on a nil dereference. *)
Inductive Outcome (A : Type) : Type :=
| Ok (a : A)
| Err (e : error)
| Panic.
Arguments Ok {A} a.
Arguments Err {A} e.
Arguments Panic {A}.

(** A pointer field [*T] of an SDK structure is an [option T]: [None] is
    [nil].  The SDK helpers [aws.String], [aws.StringValue] and the like
    allocate a fresh cell or read one, giving the zero value for [nil]. *)
Module aws.
Definition String (s : string) : option string := Some s.
Definition Bool (b : bool) : option bool := Some b.
Definition Int64 (n : Z) : option Z := Some n.
Definition StringValue (p : option string) : string := default "" p.
Definition BoolValue (p : option bool) : bool := default false p.
Definition Int64Value (p : option Z) : Z := default 0 p.
End aws.

(** [time.Time] as an instant and [time.Duration] in nanoseconds. *)
Module time.
Definition Time : Type := Z.
Definition zero : Time := 0.
Definition Duration : Type := Z.
Definition Millisecond : Duration := 1000000.
Definition Second : Duration := 1000 * Millisecond.
Definition Minute : Duration := 60 * Second.
Definition Hour : Duration := 60 * Minute.
End time.

Module aws_time.
Definition TimeValue (p : option time.Time) : time.Time := default time.zero p.
End aws_time.

(** ** The provider data model ([pkg/blockstorage]): the fields the two
    backends read and write.  A [[]*KeyValue] is the list of its elements. *)
Module blockstorage.
Definition Type_ : Type := string.
Definition TypeEBS : Type_ := "EBS".
Definition TypeEFS : Type_ := "EFS".

Record KeyValue : Type := { Key : string; Value : string }.

Module Volume.
Record t : Type := mk {
      Type_ : blockstorage.Type_;
      ID : string;
      Az : string;
      Encrypted : bool;
      VolumeType : string;
      Size : Z;
      Tags : list KeyValue;
      Iops : Z;
      CreationTime : time.Time;
    }.
    (** The zero value. *)
Definition zero : t := mk "" "" "" false "" 0 [] 0 time.zero.
End Volume.

Module Snapshot.
Record t : Type := mk {
      ID : string;
      Tags : list KeyValue;
      Type_ : blockstorage.Type_;
      Encrypted : bool;
      Size : Z;
      Region : string;
      Volume : option Volume.t;
      CreationTime : time.Time;
    }.
End Snapshot.
End blockstorage.

(** ** The block-storage SDK ([aws-sdk-go/service/ec2]): the request and
    response structures the backend fills and reads, field by field. *)
Module ec2.
Definition VolumeTypeIo1 : string := "io1".
Definition VolumeStateError : string := "error".
Definition VolumeStateAvailable : string := "available".
Definition SnapshotStateError : string := "error".
Definition SnapshotStateCompleted : string := "completed".
Definition ResourceTypeSnapshot : string := "snapshot".
Definition ResourceTypeVolume : string := "volume".

Module Tag.
Record t : Type := mk { Key : option string; Value : option string }.
End Tag.

Module TagSpecification.
Record t : Type := mk { ResourceType : option string; Tags : list Tag.t }.
End TagSpecification.

  (** A filter as it is sent: the strings its pointers lead to at the time
      of the call. *)
Module Filter.
Record t : Type := mk { Name : option string; Values : list (option string) }.
End Filter.

Module Volume.
Record t : Type := mk {
      VolumeId : option string;
      AvailabilityZone : option string;
      Encrypted : option bool;
      VolumeType : option string;
      Size : option Z;
      Tags : list Tag.t;
      Iops : option Z;
      CreateTime : option time.Time;
      State : option string;
    }.
End Volume.

Module Snapshot.
Record t : Type := mk {
      SnapshotId : option string;
      Tags : list Tag.t;
      VolumeId : option string;
      Encrypted : option bool;
      VolumeSize : option Z;
      StartTime : option time.Time;
      State : option string;
      Progress : option string;
    }.
End Snapshot.

Module CreateVolumeInput.
Record t : Type := mk {
      AvailabilityZone : option string;
      VolumeType : option string;
      Encrypted : option bool;
      Size : option Z;
      Iops : option Z;
      SnapshotId : option string;
      TagSpecifications : list TagSpecification.t;
      DryRun : option bool;
    }.
End CreateVolumeInput.

Module DescribeVolumesInput.
Record t : Type := mk {
      VolumeIds : list (option string);
      Filters : list Filter.t;
    }.
End DescribeVolumesInput.

Module DescribeVolumesOutput.
Record t : Type := mk { Volumes : list Volume.t }.
End DescribeVolumesOutput.

Module DescribeSnapshotsInput.
Record t : Type := mk {
      SnapshotIds : list (option string);
      Filters : list Filter.t;
    }.
End DescribeSnapshotsInput.

Module DescribeSnapshotsOutput.
Record t : Type := mk { Snapshots : list Snapshot.t }.
End DescribeSnapshotsOutput.

Module CopySnapshotInput.
Record t : Type := mk {
      Description : option string;
      SourceSnapshotId : option string;
      SourceRegion : option string;
      DestinationRegion : option string;
      Encrypted : option bool;
      PresignedUrl : option string;
    }.
End CopySnapshotInput.

Module CopySnapshotOutput.
Record t : Type := mk { SnapshotId : option string }.
End CopySnapshotOutput.

Module CreateSnapshotInput.
Record t : Type := mk {
      VolumeId : option string;
      TagSpecifications : list TagSpecification.t;
      DryRun : option bool;
    }.
End CreateSnapshotInput.

Module DeleteSnapshotInput.
Record t : Type := mk { SnapshotId : option string; DryRun : option bool }.
End DeleteSnapshotInput.

Module DeleteVolumeInput.
Record t : Type := mk { VolumeId : option string; DryRun : option bool }.
End DeleteVolumeInput.

Module CreateTagsInput.
Record t : Type := mk { Resources : list (option string); Tags : list Tag.t }.
End CreateTagsInput.

Module AvailabilityZone.
Record t : Type := mk { RegionName : option string; ZoneName : option string }.
End AvailabilityZone.

Module DescribeAvailabilityZonesInput.
Record t : Type := mk { ZoneNames : list (option string) }.
End DescribeAvailabilityZonesInput.

Module DescribeAvailabilityZonesOutput.
Record t : Type := mk { AvailabilityZones : list AvailabilityZone.t }.
End DescribeAvailabilityZonesOutput.
End ec2.

(** ** Programs that talk to a backend

    A run of a program is the finite sequence of calls it has made, each
    with the answer it got, together with the value it returned if it has
    returned.  [Run t tr None] holds of every prefix of an execution, so a
    property of all runs also covers executions that never return. *)
Section Runs.
Context {E : Type -> Type}.

Inductive call : Type :=
| Call {X : Type} (e : E X) (x : X).

Inductive Run {R : Type} : itree E R -> list call -> option R -> Prop :=
| RunStop t : Run t [] None
| RunRet t r : observe t = RetF r -> Run t [] (Some r)
| RunTau t u tr o : observe t = TauF u -> Run u tr o -> Run t tr o
| RunVis {X} (e : E X) k x t tr o :
    observe t = VisF e k -> Run (k x) tr o -> Run t (Call e x :: tr) o.

(** [t] only makes calls that satisfy [P], in all its runs. *)
Definition calls_satisfy {R} (P : call -> Prop) (t : itree E R) : Prop :=
  forall tr o, Run t tr o -> Forall P tr.
End Runs.
Arguments call : clear implicits.

(** A run of a loop [ITree.iter body i], iteration by iteration: it stops
    inside an iteration, or an iteration ends the loop with a result, or an
    iteration hands over to the next one. *)
Section Loops.
Context {E : Type -> Type} {I R : Type}.
Variable body : I -> itree E (I + R).

Inductive IterRun : I -> list (call E) -> option R -> Prop :=
| IterStop i tr : Run (body i) tr None -> IterRun i tr None
| IterDone i tr r : Run (body i) tr (Some (inr r)) -> IterRun i tr (Some r)
| IterStep i j tr1 tr2 o :
    Run (body i) tr1 (Some (inl j)) -> IterRun j tr2 o ->
    IterRun i (tr1 ++ tr2)%list o.
End Loops.

(** ** What awsebs.go uses and does not define

    The error classifiers of the package, declared in a sibling file, the
    bookkeeping tags of [pkg/blockstorage/tags], and the order in which the
    runtime walks a map in a [range] loop (any enumeration of its entries). *)
Class Environment : Type := {
  isDryRunErr : option error -> bool;
  isSnapNotFoundErr : option error -> bool;
  isVolNotFoundErr : option error -> bool;
  GetTags : gmap string string -> gmap string string;
  rangeOrder : gmap string string -> list (string * string);
  rangeOrder_perm : forall m, rangeOrder m ≡ₚ map_to_list m;
}.

(** [github.com/jpillora/backoff]: the n-th interval is [Min * Factor^n],
    capped at [Max]; with a minimum of 1s, a maximum of 10s and a factor of
    2 the intervals are 1s, 2s, 4s, 8s, 10s, 10s, ...  No jitter is used. *)
Module backoff.
Record Backoff : Type := {
  Factor : Z;
  Jitter : bool;
  Min : time.Duration;
  Max : time.Duration;
}.
Definition ForAttempt (b : Backoff) (attempt : nat) : time.Duration :=
  Z.min (Max b) (Min b * Factor b ^ Z.of_nat attempt).
End backoff.

(** ** The elastic-block backend (awsebs.go) *)
Module awsebs.

(** [EC2], the wrapper around the SDK client: the region the client is
    bound to ([Config.Region]) and the dry-run switch. *)
Module EC2.
Record t : Type := mk { Region : option string; DryRun : bool }.
End EC2.

Record ebsStorage : Type := { ec2Cli : EC2.t }.

(** The calls the backend makes, each on a client and with the request as
    sent; an SDK call answers with its output and its error.  Log lines are
    left out. *)
Variant ec2E : Type -> Type :=
| NewSession : ec2E (option error)
| Presign (cli : EC2.t) (si : ec2.CopySnapshotInput.t) (expire : time.Duration)
  : ec2E (string * option error)
| CopySnapshotWithContext (cli : EC2.t) (csi : ec2.CopySnapshotInput.t)
  : ec2E (ec2.CopySnapshotOutput.t * option error)
| CreateTags (cli : EC2.t) (cti : ec2.CreateTagsInput.t) : ec2E (option error)
| DescribeSnapshotsWithContext (cli : EC2.t) (dsi : ec2.DescribeSnapshotsInput.t)
  : ec2E (ec2.DescribeSnapshotsOutput.t * option error)
| DescribeVolumesWithContext (cli : EC2.t) (dvi : ec2.DescribeVolumesInput.t)
  : ec2E (ec2.DescribeVolumesOutput.t * option error)
| CreateVolumeWithContext (cli : EC2.t) (cvi : ec2.CreateVolumeInput.t)
  : ec2E (ec2.Volume.t * option error)
| CreateSnapshotWithContext (cli : EC2.t) (csi : ec2.CreateSnapshotInput.t)
  : ec2E (ec2.Snapshot.t * option error)
| DeleteSnapshotWithContext (cli : EC2.t) (rmsi : ec2.DeleteSnapshotInput.t)
  : ec2E (option error)
| DeleteVolumeWithContext (cli : EC2.t) (rmvi : ec2.DeleteVolumeInput.t)
  : ec2E (option error)
| DescribeAvailabilityZonesWithContext (cli : EC2.t)
    (azi : ec2.DescribeAvailabilityZonesInput.t)
  : ec2E (ec2.DescribeAvailabilityZonesOutput.t * option error)
| Sleep (d : time.Duration) : ec2E unit
| WaitTimer (d : time.Duration) : ec2E (option error).

Definition prog (A : Type) : Type := itree ec2E (Outcome A).

(** [|x, err := f(); if err != nil { return nil, wrap(err) }|] *)
Definition try {A B : Type} (t : prog A) (wrap : error -> error)
    (k : A -> prog B) : prog B :=
  let* r := t in
  match r with
  | Ok a => k a
  | Err e => Ret (Err (wrap e))
  | Panic => Ret Panic
  end.

(** Modelled from the spec: [poll.WaitWithBackoff] of [pkg/poll], the
    backoff poller.  It invokes the unit of work repeatedly,
    sleeping for an interval that starts at the minimum and multiplies by
    the growth factor on each iteration, capped at the maximum, until the
    unit reports done, reports an error, which aborts at once, or the
    context is cancelled during the wait, which aborts with the
    cancellation error. *)
Definition WaitWithBackoff (b : backoff.Backoff) (f : prog bool) : prog unit :=
  ITree.iter (fun attempt : nat =>
    let* r := f in
    match r with
    | Err e => Ret (inr (Err e))
    | Panic => Ret (inr Panic)
    | Ok true => Ret (inr (Ok tt))
    | Ok false =>
        let* cancelled := ITree.trigger (WaitTimer (backoff.ForAttempt b attempt)) in
        match cancelled with
        | Some e => Ret (inr (Err e))
        | None => Ret (inl (S attempt))
        end
    end) 0%nat.

Section Provider.
Context `{Env : Environment}.

Definition Type_ (s : ebsStorage) : blockstorage.Type_ := blockstorage.TypeEBS.

(** awsebs.go, 84-92. *)
Definition newEC2Client (awsRegion : string) : prog EC2.t :=
  let* err := ITree.trigger NewSession in
  match err with
  | Some e => Ret (Err e)
  | None => Ret (Ok {| EC2.Region := aws.String awsRegion; EC2.DryRun := false |})
  end.

(** awsebs.go, 504-511. *)
Definition mapToEC2Tags (tags : gmap string string) : list ec2.Tag.t :=
  (fun kv => {| ec2.Tag.Key := aws.String kv.1; ec2.Tag.Value := aws.String kv.2 |})
    <$> rangeOrder tags.

(** [|for _, tag := range kvs { tags[tag.Key] = tag.Value }|] *)
Definition tagsToMap (kvs : list blockstorage.KeyValue) : gmap string string :=
  foldl (fun m tag => <[blockstorage.Key tag := blockstorage.Value tag]> m) ∅ kvs.

(** awsebs.go, 513-543. *)
Definition waitOnVolume (ec2Cli : EC2.t) (vol : ec2.Volume.t) : prog unit :=
  let volWaitBackoff :=
    {| backoff.Factor := 2; backoff.Jitter := false;
       backoff.Min := 10 * time.Millisecond; backoff.Max := 10 * time.Second |} in
  let dvi :=
    {| ec2.DescribeVolumesInput.VolumeIds := [ec2.Volume.VolumeId vol];
       ec2.DescribeVolumesInput.Filters := [] |} in
  ITree.iter (fun attempt : nat =>
    let* (dvo, err) := ITree.trigger (DescribeVolumesWithContext ec2Cli dvi) in
    match err with
    | Some e => Ret (inr (Err e))
    | None =>
        match ec2.DescribeVolumesOutput.Volumes dvo with
        | [s] =>
            match ec2.Volume.State s, ec2.Volume.VolumeId vol with
            | None, _ => Ret (inr Panic)
            | Some state, volumeId =>
                if String.eqb state ec2.VolumeStateError then
                  Ret (inr (Err (errors.New "Creating EBS volume failed")))
                else
                  (* both log lines below dereference [vol.VolumeId] *)
                  match volumeId with
                  | None => Ret (inr Panic)
                  | Some _ =>
                      if String.eqb state ec2.VolumeStateAvailable then
                        Ret (inr (Ok tt))
                      else
                        let* _ := ITree.trigger
                                    (Sleep (backoff.ForAttempt volWaitBackoff attempt)) in
                        Ret (inl (S attempt))
                  end
            end
        | _ => Ret (inr (Err (errors.New "Object not found")))
        end
    end) 0%nat.

(** awsebs.go, 447-468. *)
Definition createVolume (ec2Cli : EC2.t) (cvi : ec2.CreateVolumeInput.t)
    (tags : gmap string string) : prog string :=
  let awsTags := mapToEC2Tags tags in
  let ts := [ {| ec2.TagSpecification.ResourceType := aws.String ec2.ResourceTypeVolume;
                 ec2.TagSpecification.Tags := awsTags |} ] in
  let cvi :=
    {| ec2.CreateVolumeInput.AvailabilityZone := ec2.CreateVolumeInput.AvailabilityZone cvi;
       ec2.CreateVolumeInput.VolumeType := ec2.CreateVolumeInput.VolumeType cvi;
       ec2.CreateVolumeInput.Encrypted := ec2.CreateVolumeInput.Encrypted cvi;
       ec2.CreateVolumeInput.Size := ec2.CreateVolumeInput.Size cvi;
       ec2.CreateVolumeInput.Iops := ec2.CreateVolumeInput.Iops cvi;
       ec2.CreateVolumeInput.SnapshotId := ec2.CreateVolumeInput.SnapshotId cvi;
       ec2.CreateVolumeInput.TagSpecifications := ts;
       ec2.CreateVolumeInput.DryRun := aws.Bool (EC2.DryRun ec2Cli) |} in
  let* (vol, err) := ITree.trigger (CreateVolumeWithContext ec2Cli cvi) in
  if isDryRunErr err then Ret (Ok "")
  else
    match err with
    | Some e => Ret (Err e)
    | None =>
        try (waitOnVolume ec2Cli vol) id (fun _ =>
        Ret (Ok (aws.StringValue (ec2.Volume.VolumeId vol))))
    end.

(** awsebs.go, 142-159. *)
Definition volumeParse (s : ebsStorage) (vol : ec2.Volume.t) : blockstorage.Volume.t :=
  let tags :=
    (fun tag => {| blockstorage.Key := aws.StringValue (ec2.Tag.Key tag);
                   blockstorage.Value := aws.StringValue (ec2.Tag.Value tag) |})
      <$> ec2.Volume.Tags vol in
  {| blockstorage.Volume.Type_ := Type_ s;
     blockstorage.Volume.ID := aws.StringValue (ec2.Volume.VolumeId vol);
     blockstorage.Volume.Az := aws.StringValue (ec2.Volume.AvailabilityZone vol);
     blockstorage.Volume.Encrypted := aws.BoolValue (ec2.Volume.Encrypted vol);
     blockstorage.Volume.VolumeType := aws.StringValue (ec2.Volume.VolumeType vol);
     blockstorage.Volume.Size := aws.Int64Value (ec2.Volume.Size vol);
     blockstorage.Volume.Tags := tags;
     blockstorage.Volume.Iops := aws.Int64Value (ec2.Volume.Iops vol);
     blockstorage.Volume.CreationTime := aws_time.TimeValue (ec2.Volume.CreateTime vol) |}.

(** awsebs.go, 119-140. *)
Definition VolumeGet (s : ebsStorage) (id : string) (zone : string)
  : prog blockstorage.Volume.t :=
  let volIDs := [aws.String id] in
  let dvi := {| ec2.DescribeVolumesInput.VolumeIds := volIDs;
                ec2.DescribeVolumesInput.Filters := [] |} in
  let* (dvo, err) := ITree.trigger (DescribeVolumesWithContext (ec2Cli s) dvi) in
  match err with
  | Some e => Ret (Err e)
  | None =>
      let vols := ec2.DescribeVolumesOutput.Volumes dvo in
      if negb (List.length vols =? List.length volIDs)%nat then
        Ret (Err (errors.New "Object not found"))
      else
        match vols with
        | [] => Ret (Err (errors.New ("Volume with volume_id: " ++ id ++ " not found")))
        | [vol] => Ret (Ok (volumeParse s vol))
        | _ => Ret (Err (errors.New
                  "Found an unexpected number of volumes: volume_id=%s result_count=%d"))
        end
  end.

(** awsebs.go, 94-117. *)
Definition VolumeCreate (s : ebsStorage) (volume : blockstorage.Volume.t)
  : prog blockstorage.Volume.t :=
  let cvi :=
    {| ec2.CreateVolumeInput.AvailabilityZone := aws.String (blockstorage.Volume.Az volume);
       ec2.CreateVolumeInput.VolumeType := aws.String (blockstorage.Volume.VolumeType volume);
       ec2.CreateVolumeInput.Encrypted := aws.Bool (blockstorage.Volume.Encrypted volume);
       ec2.CreateVolumeInput.Size := aws.Int64 (blockstorage.Volume.Size volume);
       (* io1 type *requires* IOPS. Others *cannot* specify them. *)
       ec2.CreateVolumeInput.Iops :=
         if String.eqb (blockstorage.Volume.VolumeType volume) ec2.VolumeTypeIo1
         then aws.Int64 (blockstorage.Volume.Iops volume)
         else None;
       ec2.CreateVolumeInput.SnapshotId := None;
       ec2.CreateVolumeInput.TagSpecifications := [];
       ec2.CreateVolumeInput.DryRun := None |} in
  let tags := tagsToMap (blockstorage.Volume.Tags volume) in
  try (createVolume (ec2Cli s) cvi (GetTags tags)) id (fun volID =>
  VolumeGet s volID (blockstorage.Volume.Az volume)).

(** The loop variables [k] and [v] of a [range] loop are one pair of
    cells for the whole loop (the module is built with go 1.12), and a
    filter built in the loop body keeps their addresses, not their
    contents.  [Cells] is the content of the two cells; a filter in memory
    says which cell each of its pointers leads to. *)
Variant cell : Type := cell_k | cell_v.

Record Cells : Type := { at_k : string; at_v : string }.

Definition load (h : Cells) (c : cell) : string :=
  match c with cell_k => at_k h | cell_v => at_v h end.

Record FilterRef : Type := { Name : cell; Values : list cell }.

(** What the SDK reads when it marshals the filter. *)
Definition marshalFilter (h : Cells) (f : FilterRef) : ec2.Filter.t :=
  {| ec2.Filter.Name := Some (load h (Name f));
     ec2.Filter.Values := (fun c => Some (load h c)) <$> Values f |}.

(** [|for k, v := range tags { fltr := ec2.Filter{Name: &k, Values:
    []*string{&v}}; fltrs = append(fltrs, &fltr) }|]: each iteration stores
    the entry in the two cells, then appends a filter pointing at them. *)
Fixpoint rangeFilters (kvs : list (string * string)) (h : Cells)
    (fltrs : list FilterRef) : Cells * list FilterRef :=
  match kvs with
  | [] => (h, fltrs)
  | (key, val) :: rest =>
      let h := {| at_k := key; at_v := val |} in
      let fltr := {| Name := cell_k; Values := [cell_v] |} in
      rangeFilters rest h (fltrs ++ [fltr])
  end.

(** The filters of the request, as marshalled when the call is made. *)
Definition tagFilters (tags : gmap string string) : list ec2.Filter.t :=
  let (h, fltrs) := rangeFilters (rangeOrder tags) {| at_k := ""; at_v := "" |} [] in
  marshalFilter h <$> fltrs.

(** awsebs.go, 161-179. *)
Definition VolumesList (s : ebsStorage) (tags : gmap string string) (zone : string)
  : prog (list blockstorage.Volume.t) :=
  let dvi := {| ec2.DescribeVolumesInput.VolumeIds := [];
                ec2.DescribeVolumesInput.Filters := tagFilters tags |} in
  let* (dvo, err) := ITree.trigger (DescribeVolumesWithContext (ec2Cli s) dvi) in
  match err with
  | Some e => Ret (Err e)
  | None => Ret (Ok (volumeParse s <$> ec2.DescribeVolumesOutput.Volumes dvo))
  end.

(** [|&blockstorage.KeyValue{Key: *tag.Key, Value: *tag.Value}|]: [None]
    when a pointer is nil and the dereference panics. *)
Definition derefTag (tag : ec2.Tag.t) : option blockstorage.KeyValue :=
  match ec2.Tag.Key tag, ec2.Tag.Value tag with
  | Some k, Some v => Some {| blockstorage.Key := k; blockstorage.Value := v |}
  | _, _ => None
  end.

(** [|&blockstorage.KeyValue{Key: aws.StringValue(tag.Key), Value:
    aws.StringValue(tag.Value)}|] *)
Definition valueTag (tag : ec2.Tag.t) : blockstorage.KeyValue :=
  {| blockstorage.Key := aws.StringValue (ec2.Tag.Key tag);
     blockstorage.Value := aws.StringValue (ec2.Tag.Value tag) |}.

(** awsebs.go, 181-201. *)
Definition snapshotParse (s : ebsStorage) (snap : ec2.Snapshot.t)
  : Outcome blockstorage.Snapshot.t :=
  match mapM derefTag (ec2.Snapshot.Tags snap) with
  | None => Panic
  | Some tags =>
      let vol :=
        {| blockstorage.Volume.Type_ := Type_ s;
           blockstorage.Volume.ID := aws.StringValue (ec2.Snapshot.VolumeId snap);
           blockstorage.Volume.Az := "";
           blockstorage.Volume.Encrypted := false;
           blockstorage.Volume.VolumeType := "";
           blockstorage.Volume.Size := 0;
           blockstorage.Volume.Tags := [];
           blockstorage.Volume.Iops := 0;
           blockstorage.Volume.CreationTime := time.zero |} in
      Ok {| blockstorage.Snapshot.ID := aws.StringValue (ec2.Snapshot.SnapshotId snap);
            blockstorage.Snapshot.Tags := tags;
            blockstorage.Snapshot.Type_ := Type_ s;
            blockstorage.Snapshot.Encrypted := aws.BoolValue (ec2.Snapshot.Encrypted snap);
            blockstorage.Snapshot.Size := aws.Int64Value (ec2.Snapshot.VolumeSize snap);
            blockstorage.Snapshot.Region := aws.StringValue (EC2.Region (ec2Cli s));
            blockstorage.Snapshot.Volume := Some vol;
            blockstorage.Snapshot.CreationTime :=
              aws_time.TimeValue (ec2.Snapshot.StartTime snap) |}
  end.

(** [|for _, snap := range snaps { out = append(out, s.snapshotParse(ctx,
    snap)) }|] *)
Fixpoint snapshotsParse (s : ebsStorage) (snaps : list ec2.Snapshot.t)
  : Outcome (list blockstorage.Snapshot.t) :=
  match snaps with
  | [] => Ok []
  | snap :: rest =>
      match snapshotParse s snap with
      | Ok ms =>
          match snapshotsParse s rest with
          | Ok out => Ok (ms :: out)
          | Err e => Err e
          | Panic => Panic
          end
      | Err e => Err e
      | Panic => Panic
      end
  end.

(** awsebs.go, 203-221. *)
Definition SnapshotsList (s : ebsStorage) (tags : gmap string string)
  : prog (list blockstorage.Snapshot.t) :=
  let dsi := {| ec2.DescribeSnapshotsInput.SnapshotIds := [];
                ec2.DescribeSnapshotsInput.Filters := tagFilters tags |} in
  let* (dso, err) := ITree.trigger (DescribeSnapshotsWithContext (ec2Cli s) dsi) in
  match err with
  | Some e => Ret (Err e)
  | None => Ret (snapshotsParse s (ec2.DescribeSnapshotsOutput.Snapshots dso))
  end.

(** awsebs.go, 400-407. *)
Definition setResourceTags (ec2Cli : EC2.t) (resourceID : string)
    (tags : gmap string string) : prog unit :=
  let cti := {| ec2.CreateTagsInput.Resources := [Some resourceID];
                ec2.CreateTagsInput.Tags := mapToEC2Tags tags |} in
  let* err := ITree.trigger (CreateTags ec2Cli cti) in
  match err with
  | Some e => Ret (Err (errors.Wrap e "Failed to set tags, resource_id:%s"))
  | None => Ret (Ok tt)
  end.

(** awsebs.go, 470-484. *)
Definition getSnapshots (ec2Cli : EC2.t) (snapIDs : list (option string))
  : prog (list ec2.Snapshot.t) :=
  let dsi := {| ec2.DescribeSnapshotsInput.SnapshotIds := snapIDs;
                ec2.DescribeSnapshotsInput.Filters := [] |} in
  let* (dso, err) := ITree.trigger (DescribeSnapshotsWithContext ec2Cli dsi) in
  match err with
  | Some e => Ret (Err (errors.Wrap e "Failed to get snapshot, snapshot_ids: %p"))
  | None =>
      let snaps := ec2.DescribeSnapshotsOutput.Snapshots dso in
      if negb (List.length snaps =? List.length snapIDs)%nat then
        Ret (Err (errors.New "Object not found"))
      else Ret (Ok snaps)
  end.

(** awsebs.go, 486-502. *)
Definition availabilityZoneToRegion (awsCli : EC2.t) (az : string) : prog string :=
  let azi := {| ec2.DescribeAvailabilityZonesInput.ZoneNames := [Some az] |} in
  let* (azo, err) := ITree.trigger (DescribeAvailabilityZonesWithContext awsCli azi) in
  match err with
  | Some e =>
      Ret (Err (errors.Wrap e
                  "Could not determine region for availability zone (AZ) %s"))
  | None =>
      match ec2.DescribeAvailabilityZonesOutput.AvailabilityZones azo with
      | [] => Ret (Err (errors.New ("Region unavailable for availability zone" ++ az)))
      | zone0 :: _ => Ret (Ok (aws.StringValue (ec2.AvailabilityZone.RegionName zone0)))
      end
  end.

(** awsebs.go, 550-578. *)
Definition waitOnSnapshotID (ec2Cli : EC2.t) (snapID : string) : prog unit :=
  let snapWaitBackoff :=
    {| backoff.Factor := 2; backoff.Jitter := false;
       backoff.Min := 1 * time.Second; backoff.Max := 10 * time.Second |} in
  let dsi := {| ec2.DescribeSnapshotsInput.SnapshotIds := [Some snapID];
                ec2.DescribeSnapshotsInput.Filters := [] |} in
  WaitWithBackoff snapWaitBackoff (
    let* (dso, err) := ITree.trigger (DescribeSnapshotsWithContext ec2Cli dsi) in
    match err with
    | Some e =>
        Ret (Err (errors.Wrap e "Failed to describe snapshot, snapshot_id: %s"))
    | None =>
        match ec2.DescribeSnapshotsOutput.Snapshots dso with
        | [s] =>
            match ec2.Snapshot.State s with
            | None => Ret Panic
            | Some state =>
                if String.eqb state ec2.SnapshotStateError then
                  Ret (Err (errors.New "Snapshot EBS volume failed"))
                else if String.eqb state ec2.SnapshotStateCompleted then
                  Ret (Ok true)
                else
                  (* the progress log line dereferences [s.Progress] *)
                  match ec2.Snapshot.Progress s with
                  | None => Ret Panic
                  | Some _ => Ret (Ok false)
                  end
            end
        | _ => Ret (Err (errors.New "Object not found"))
        end
    end).

(** The presigning step of [SnapshotCopy] (awsebs.go, 237-256): the URL
    to attach, if any. *)
Definition presignCopy (ec2Cli : EC2.t) (from to : blockstorage.Snapshot.t)
  : prog (option string) :=
  if negb (String.eqb (blockstorage.Snapshot.Region to)
                      (blockstorage.Snapshot.Region from)) then
    try (newEC2Client (blockstorage.Snapshot.Region from))
        (fun err2 => errors.Wrap err2
           "Could not create client to presign URL for snapshot copy request")
        (fun fromCli =>
    let si :=
      {| ec2.CopySnapshotInput.Description := None;
         ec2.CopySnapshotInput.SourceSnapshotId :=
           aws.String (blockstorage.Snapshot.ID from);
         ec2.CopySnapshotInput.SourceRegion :=
           aws.String (blockstorage.Snapshot.Region from);
         ec2.CopySnapshotInput.DestinationRegion := EC2.Region ec2Cli;
         ec2.CopySnapshotInput.Encrypted := None;
         ec2.CopySnapshotInput.PresignedUrl := None |} in
    let* (su, err2) := ITree.trigger (Presign fromCli si (120 * time.Minute)) in
    match err2 with
    | Some e =>
        Ret (Err (errors.Wrap e "Could not presign URL for snapshot copy request"))
    | None => Ret (Ok (Some su))
    end)
  else Ret (Ok None).

(** The copy request of [SnapshotCopy] (awsebs.go, 263-276). *)
Definition copySnapshotInput (from : blockstorage.Snapshot.t) (ec2Cli : EC2.t)
    (presignedURL : option string) : ec2.CopySnapshotInput.t :=
  (* encrypted can not be set to false.
     Only unspecified or `true` are supported in `CopySnapshotInput` *)
  let encrypted :=
    if blockstorage.Snapshot.Encrypted from
    then Some (blockstorage.Snapshot.Encrypted from)
    else None in
  {| ec2.CopySnapshotInput.Description :=
       aws.String ("Copy of " ++ blockstorage.Snapshot.ID from);
     ec2.CopySnapshotInput.SourceSnapshotId :=
       aws.String (blockstorage.Snapshot.ID from);
     ec2.CopySnapshotInput.SourceRegion :=
       aws.String (blockstorage.Snapshot.Region from);
     ec2.CopySnapshotInput.DestinationRegion := EC2.Region ec2Cli;
     ec2.CopySnapshotInput.Encrypted := encrypted;
     ec2.CopySnapshotInput.PresignedUrl := presignedURL |}.

(** The end of [SnapshotCopy] (awsebs.go, 288-299), once the copy has
    completed: fetch it and fill the result. *)
Definition fetchCopy (s : ebsStorage) (from to : blockstorage.Snapshot.t)
    (ec2Cli : EC2.t) (snapID : string) : prog blockstorage.Snapshot.t :=
  try (getSnapshots ec2Cli [aws.String snapID]) id (fun snaps =>
  (* aws: Snapshots created by the CopySnapshot action have an arbitrary
     volume ID that should not be used for any purpose. *)
  match snaps with
  | [] => Ret Panic
  | snap0 :: _ =>
      match snapshotParse s snap0, blockstorage.Snapshot.Volume from with
      | Ok rs, Some fromVolume =>
          Ret (Ok
            {| blockstorage.Snapshot.ID := blockstorage.Snapshot.ID rs;
               blockstorage.Snapshot.Tags := blockstorage.Snapshot.Tags rs;
               blockstorage.Snapshot.Type_ := blockstorage.Snapshot.Type_ rs;
               blockstorage.Snapshot.Encrypted := blockstorage.Snapshot.Encrypted rs;
               blockstorage.Snapshot.Size := blockstorage.Snapshot.Size from;
               blockstorage.Snapshot.Region := blockstorage.Snapshot.Region to;
               blockstorage.Snapshot.Volume := Some fromVolume;
               blockstorage.Snapshot.CreationTime :=
                 blockstorage.Snapshot.CreationTime rs |})
      | Ok _, None => Ret Panic
      | Err e, _ => Ret (Err e)
      | Panic, _ => Ret Panic
      end
  end).

(** The middle of [SnapshotCopy] (awsebs.go, 257-287): copy, tag, wait. *)
Definition copyWith (s : ebsStorage) (from to : blockstorage.Snapshot.t)
    (ec2Cli : EC2.t) (presignedURL : option string)
  : prog blockstorage.Snapshot.t :=
  (* Copy tags from source snap to dest. *)
  let tags := tagsToMap (blockstorage.Snapshot.Tags from) in
  let csi := copySnapshotInput from ec2Cli presignedURL in
  let* (cso, err) := ITree.trigger (CopySnapshotWithContext ec2Cli csi) in
  match err with
  | Some e => Ret (Err (errors.Wrap e "Failed to copy snapshot %v"))
  | None =>
      let snapID := aws.StringValue (ec2.CopySnapshotOutput.SnapshotId cso) in
      try (setResourceTags ec2Cli snapID (GetTags tags)) id (fun _ =>
      try (waitOnSnapshotID ec2Cli snapID)
          (fun err => errors.Wrap err "Snapshot %s did not complete") (fun _ =>
      fetchCopy s from to ec2Cli snapID))
  end.

(** awsebs.go, 223-300. *)
Definition SnapshotCopy (s : ebsStorage) (from to : blockstorage.Snapshot.t)
  : prog blockstorage.Snapshot.t :=
  if String.eqb (blockstorage.Snapshot.Region to) "" then
    Ret (Err (errors.New "Destination snapshot AvailabilityZone must be specified"))
  else if negb (String.eqb (blockstorage.Snapshot.ID to) "") then
    Ret (Err (errors.New "Snapshot %v destination ID must be empty"))
  else
  (* Copy operation must be initiated from the destination region. *)
  try (newEC2Client (blockstorage.Snapshot.Region to))
      (fun err => errors.Wrap err "Could not get EC2 client") (fun ec2Cli =>
  (* Include a presigned URL when the regions are different. Include it
     independent of whether or not the snapshot is encrypted. *)
  try (presignCopy ec2Cli from to) id (fun presignedURL =>
  copyWith s from to ec2Cli presignedURL)).

(** awsebs.go, 302-330. *)
Definition SnapshotCreate (s : ebsStorage) (volume : blockstorage.Volume.t)
    (tags : gmap string string) : prog blockstorage.Snapshot.t :=
  let csi :=
    {| ec2.CreateSnapshotInput.VolumeId := Some (blockstorage.Volume.ID volume);
       ec2.CreateSnapshotInput.TagSpecifications :=
         [ {| ec2.TagSpecification.ResourceType := aws.String ec2.ResourceTypeSnapshot;
              ec2.TagSpecification.Tags := mapToEC2Tags (GetTags tags) |} ];
       ec2.CreateSnapshotInput.DryRun := Some (EC2.DryRun (ec2Cli s)) |} in
  let* (snap, err) := ITree.trigger (CreateSnapshotWithContext (ec2Cli s) csi) in
  (* [|err != nil && !isDryRunErr(err)|] *)
  let failed :=
    match err with
    | Some e => if negb (isDryRunErr err) then Some e else None
    | None => None
    end in
  match failed with
  | Some e => Ret (Err (errors.Wrap e "Failed to create snapshot, volume_id: %s"))
  | None =>
      try (availabilityZoneToRegion (ec2Cli s) (blockstorage.Volume.Az volume)) id
          (fun region =>
      match snapshotParse s snap with
      | Ok ms =>
          Ret (Ok
            {| blockstorage.Snapshot.ID := blockstorage.Snapshot.ID ms;
               blockstorage.Snapshot.Tags :=
                 blockstorage.Snapshot.Tags ms ++ (valueTag <$> ec2.Snapshot.Tags snap);
               blockstorage.Snapshot.Type_ := blockstorage.Snapshot.Type_ ms;
               blockstorage.Snapshot.Encrypted := blockstorage.Snapshot.Encrypted ms;
               blockstorage.Snapshot.Size := blockstorage.Snapshot.Size ms;
               blockstorage.Snapshot.Region := region;
               blockstorage.Snapshot.Volume := Some volume;
               blockstorage.Snapshot.CreationTime :=
                 blockstorage.Snapshot.CreationTime ms |})
      | Err e => Ret (Err e)
      | Panic => Ret Panic
      end)
  end.

(** awsebs.go, 342-357. *)
Definition SnapshotDelete (s : ebsStorage) (snapshot : blockstorage.Snapshot.t)
  : prog unit :=
  let rmsi :=
    {| ec2.DeleteSnapshotInput.SnapshotId := Some (blockstorage.Snapshot.ID snapshot);
       ec2.DeleteSnapshotInput.DryRun := Some (EC2.DryRun (ec2Cli s)) |} in
  let* err := ITree.trigger (DeleteSnapshotWithContext (ec2Cli s) rmsi) in
  if isSnapNotFoundErr err then
    (* If the snapshot is already deleted, we log, but don't return an error. *)
    Ret (Ok tt)
  else
    match err with
    | Some e =>
        if negb (isDryRunErr err)
        then Ret (Err (errors.Wrap e "Failed to delete snapshot"))
        else Ret (Ok tt)
    | None => Ret (Ok tt)
    end.

(** awsebs.go, 359-371. *)
Definition SnapshotGet (s : ebsStorage) (id : string) : prog blockstorage.Snapshot.t :=
  try (getSnapshots (ec2Cli s) [Some id]) (fun err => err) (fun snaps =>
  match snaps with
  | [] => Ret Panic
  | snap :: _ =>
      match snapshotParse s snap with
      | Ok ms =>
          Ret (Ok
            {| blockstorage.Snapshot.ID := blockstorage.Snapshot.ID ms;
               blockstorage.Snapshot.Tags :=
                 blockstorage.Snapshot.Tags ms ++ (valueTag <$> ec2.Snapshot.Tags snap);
               blockstorage.Snapshot.Type_ := blockstorage.Snapshot.Type_ ms;
               blockstorage.Snapshot.Encrypted := blockstorage.Snapshot.Encrypted ms;
               blockstorage.Snapshot.Size := blockstorage.Snapshot.Size ms;
               blockstorage.Snapshot.Region := blockstorage.Snapshot.Region ms;
               blockstorage.Snapshot.Volume := blockstorage.Snapshot.Volume ms;
               blockstorage.Snapshot.CreationTime := blockstorage.Snapshot.CreationTime ms |})
      | Err e => Ret (Err e)
      | Panic => Ret Panic
      end
  end).

(** awsebs.go, 373-387. *)
Definition VolumeDelete (s : ebsStorage) (volume : blockstorage.Volume.t) : prog unit :=
  let rmvi :=
    {| ec2.DeleteVolumeInput.VolumeId := Some (blockstorage.Volume.ID volume);
       ec2.DeleteVolumeInput.DryRun := Some (EC2.DryRun (ec2Cli s)) |} in
  let* err := ITree.trigger (DeleteVolumeWithContext (ec2Cli s) rmvi) in
  if isVolNotFoundErr err then
    (* If the volume is already deleted, we log, but don't return an error. *)
    Ret (Ok tt)
  else
    match err with
    | Some e =>
        if negb (isDryRunErr err)
        then Ret (Err (errors.Wrap e "Failed to delete volume volID: %s"))
        else Ret (Ok tt)
    | None => Ret (Ok tt)
    end.

End Provider.

(** awsebs.go, 637-735.  The [switch] compares [region] with each case
    label in turn. *)
Definition staticRegionToZones (region : string) : Outcome (list string) :=
  if String.eqb region "ap-south-1" then
    Ok ["ap-south-1a"; "ap-south-1b"]
  else if String.eqb region "eu-west-3" then
    Ok ["eu-west-3a"; "eu-west-3b"; "eu-west-3c"]
  else if String.eqb region "eu-north-1" then
    Ok ["eu-north-1a"; "eu-north-1b"; "eu-north-1c"]
  else if String.eqb region "eu-west-2" then
    Ok ["eu-west-2a"; "eu-west-2b"; "eu-west-2c"]
  else if String.eqb region "eu-west-1" then
    Ok ["eu-west-1a"; "eu-west-1b"; "eu-west-1c"]
  else if String.eqb region "ap-northeast-2" then
    Ok ["ap-northeast-2a"; "ap-northeast-2c"]
  else if String.eqb region "ap-northeast-1" then
    Ok ["ap-northeast-1a"; "ap-northeast-1c"; "ap-northeast-1d"]
  else if String.eqb region "sa-east-1" then
    Ok ["sa-east-1a"; "sa-east-1c"]
  else if String.eqb region "ca-central-1" then
    Ok ["ca-central-1a"; "ca-central-1b"]
  else if String.eqb region "ap-southeast-1" then
    Ok ["ap-southeast-1a"; "ap-southeast-1b"; "ap-southeast-1c"]
  else if String.eqb region "ap-southeast-2" then
    Ok ["ap-southeast-2a"; "ap-southeast-2b"; "ap-southeast-2c"]
  else if String.eqb region "eu-central-1" then
    Ok ["eu-central-1a"; "eu-central-1b"; "eu-central-1c"]
  else if String.eqb region "us-east-1" then
    Ok ["us-east-1a"; "us-east-1b"; "us-east-1c"; "us-east-1d"; "us-east-1e";
        "us-east-1f"]
  else if String.eqb region "us-east-2" then
    Ok ["us-east-2a"; "us-east-2b"; "us-east-2c"]
  else if String.eqb region "us-west-1" then
    Ok ["us-west-1a"; "us-west-1b"]
  else if String.eqb region "us-west-2" then
    Ok ["us-west-2a"; "us-west-2b"; "us-west-2c"]
  else
    Err (errors.New "cannot get availability zones for region").

(** The case labels of the switch. *)
Definition staticRegions : list string :=
  ["ap-south-1"; "eu-west-3"; "eu-north-1"; "eu-west-2"; "eu-west-1";
   "ap-northeast-2"; "ap-northeast-1"; "sa-east-1"; "ca-central-1";
   "ap-southeast-1"; "ap-southeast-2"; "eu-central-1"; "us-east-1";
   "us-east-2"; "us-west-1"; "us-west-2"].

(** *** The rest of the provider *)

Definition ConfigRegion : string := "region".
Definition AccessKeyID : string := "AWS_ACCESS_KEY_ID".
Definition SecretAccessKey : string := "AWS_SECRET_ACCESS_KEY".

(** [aws.Config] as [GetConfig] fills it: static credentials made of an
    access key, a secret and a session token. *)
Module Config.
Record t : Type := mk {
  AccessKey : string;
  Secret : string;
  Token : string;
}.
End Config.

(** awsebs.go, 66-81. *)
Definition GetConfig (config : gmap string string) : Outcome (Config.t * string) :=
  match config !! ConfigRegion with
  | None => Err (errors.New "region required for storage type EBS")
  | Some region =>
      match config !! AccessKeyID with
      | None => Err (errors.New "AWS_ACCESS_KEY_ID required for storage type EBS")
      | Some accessKey =>
          match config !! SecretAccessKey with
          | None =>
              Err (errors.New "AWS_SECRET_ACCESS_KEY required for storage type EBS")
          | Some secretAccessKey =>
              Ok ({| Config.AccessKey := accessKey;
                     Config.Secret := secretAccessKey;
                     Config.Token := "" |}, region)
          end
      end
  end.

(** awsebs.go, 597-600. *)
Definition FromRegion (s : ebsStorage) (region : string) : Outcome (list string) :=
  staticRegionToZones region.

(** [errors.Wrapf] of [github.com/pkg/errors]: nil for a nil error. *)
Definition Wrapf (err : option error) (msg : string) : option error :=
  match err with
  | Some e => Some (errors.Wrap e msg)
  | None => None
  end.

(** The [resource interface{}] of [SetTags]: a pointer to a volume or to a
    snapshot, nil or not, or a value of any other type. *)
Variant resource : Type :=
| ResVolume (res : option blockstorage.Volume.t)
| ResSnapshot (res : option blockstorage.Snapshot.t)
| ResOther.

(** The loop of [VolumeCreateFromSnapshot] that incorporates the tags of
    the source volume (awsebs.go, 433-438). *)
Definition incorporateTags (tags : gmap string string)
    (volumeTags : list blockstorage.KeyValue) : gmap string string :=
  foldl (fun tags tag =>
           match tags !! blockstorage.Key tag with
           | Some _ => tags
           | None => <[blockstorage.Key tag := blockstorage.Value tag]> tags
           end) tags volumeTags.

(** [zone.FromSourceRegionZone] of [pkg/blockstorage/zone], which picks the
    zones to restore into: what it answers for a provider, a region and a
    source zone. *)
Class ZoneEnvironment : Type := {
  FromSourceRegionZone : ebsStorage -> string -> string -> Outcome (list string);
}.

Section Rest.
Context `{Env : Environment} `{ZEnv : ZoneEnvironment}.

(** awsebs.go, 332-340. *)
Definition SnapshotCreateWaitForCompletion (s : ebsStorage)
    (snap : blockstorage.Snapshot.t) : prog unit :=
  if EC2.DryRun (ec2Cli s) then Ret (Ok tt)
  else
    try (waitOnSnapshotID (ec2Cli s) (blockstorage.Snapshot.ID snap))
        (fun err => errors.Wrap err "Waiting on snapshot %v") (fun _ =>
    Ret (Ok tt)).

(** awsebs.go, 389-398. *)
Definition SetTags (s : ebsStorage) (resource : resource)
    (tags : gmap string string) : prog unit :=
  match resource with
  | ResVolume (Some res) => setResourceTags (ec2Cli s) (blockstorage.Volume.ID res) tags
  | ResVolume None => Ret Panic
  | ResSnapshot (Some res) =>
      setResourceTags (ec2Cli s) (blockstorage.Snapshot.ID res) tags
  | ResSnapshot None => Ret Panic
  | ResOther =>
      match Wrapf None "Unknown resource type: %v" with
      | Some e => Ret (Err e)
      | None => Ret (Ok tt)
      end
  end.

(** The two checks that open [VolumeCreateFromSnapshot] and
    [SnapshotRestoreTargets] (awsebs.go, 410-415 and 623-628).
    [volumeTagsNil] says whether [snapshot.Volume.Tags] is the nil slice,
    which the list of its elements does not tell. *)
Definition checkSnapshotVolume (snapshot : blockstorage.Snapshot.t)
    (volumeTagsNil : bool) : Outcome blockstorage.Volume.t :=
  match blockstorage.Snapshot.Volume snapshot with
  | None => Err (errors.New "Snapshot volume information not available")
  | Some volume =>
      if String.eqb (blockstorage.Volume.VolumeType volume) ""
         || String.eqb (blockstorage.Volume.Az volume) ""
         || volumeTagsNil
      then Err (errors.New
             "Required volume fields not available, volumeType: %s, Az: %s, VolumeTags: %v")
      else Ok volume
  end.

(** awsebs.go, 409-445. *)
Definition VolumeCreateFromSnapshot (s : ebsStorage)
    (snapshot : blockstorage.Snapshot.t) (volumeTagsNil : bool)
    (tags : gmap string string) : prog blockstorage.Volume.t :=
  match checkSnapshotVolume snapshot volumeTagsNil with
  | Err e => Ret (Err e)
  | Panic => Ret Panic
  | Ok volume =>
      match FromSourceRegionZone s (blockstorage.Snapshot.Region snapshot)
              (blockstorage.Volume.Az volume) with
      | Err e => Ret (Err e)
      | Panic => Ret Panic
      | Ok zones =>
          match zones with
          | [zone0] =>
              let cvi :=
                {| ec2.CreateVolumeInput.AvailabilityZone := aws.String zone0;
                   ec2.CreateVolumeInput.VolumeType :=
                     aws.String (blockstorage.Volume.VolumeType volume);
                   ec2.CreateVolumeInput.Encrypted := None;
                   ec2.CreateVolumeInput.Size := None;
                   (* io1 type *requires* IOPS. Others *cannot* specify them. *)
                   ec2.CreateVolumeInput.Iops :=
                     if String.eqb (blockstorage.Volume.VolumeType volume)
                          ec2.VolumeTypeIo1
                     then aws.Int64 (blockstorage.Volume.Iops volume)
                     else None;
                   ec2.CreateVolumeInput.SnapshotId :=
                     aws.String (blockstorage.Snapshot.ID snapshot);
                   ec2.CreateVolumeInput.TagSpecifications := [];
                   ec2.CreateVolumeInput.DryRun := None |} in
              (* Incorporate pre-existing tags. *)
              let tags := incorporateTags tags (blockstorage.Volume.Tags volume) in
              try (createVolume (ec2Cli s) cvi (GetTags tags)) id (fun volID =>
              VolumeGet s volID (blockstorage.Volume.Az volume))
          | _ =>
              Ret (Err (errors.New "Length of zone slice should be 1, got %d"))
          end
      end
  end.

(** awsebs.go, 621-635: the global flag and the zones by region. *)
Definition SnapshotRestoreTargets (s : ebsStorage)
    (snapshot : blockstorage.Snapshot.t) (volumeTagsNil : bool)
  : Outcome (bool * gmap string (list string)) :=
  match checkSnapshotVolume snapshot volumeTagsNil with
  | Err e => Err e
  | Panic => Panic
  | Ok _ =>
      (* EBS snapshots can only be restored in their region *)
      match staticRegionToZones (blockstorage.Snapshot.Region snapshot) with
      | Err e => Err e
      | Panic => Panic
      | Ok zl => Ok (false, {[ blockstorage.Snapshot.Region snapshot := zl ]})
      end
  end.
End Rest.

End awsebs.


(** [strings.HasPrefix s p]. *)
Definition HasPrefix (s p : string) : bool := String.prefix p s.

(** ** String helpers of the standard library *)

(** [strings.Split s sep] for a non-empty separator: the pieces of [s]
    between the successive, non-overlapping, leftmost occurrences of [sep].
    [skip] counts the bytes of a separator still to be passed over and
    [cur] is the piece being read. *)
Fixpoint splitFrom (sep : string) (skip : nat) (cur s : string) : list string :=
  match s with
  | EmptyString => [cur]
  | String c s' =>
      match skip with
      | S n => splitFrom sep n cur s'
      | O =>
          if String.prefix sep s
          then cur :: splitFrom sep (Nat.pred (String.length sep)) "" s'
          else splitFrom sep 0 (cur ++ String c "") s'
      end
  end.

(** With an empty separator Go cuts after every character; bytes stand for
    characters here. *)
Definition Split (s sep : string) : list string :=
  match sep with
  | EmptyString => (fun c => String c "") <$> list_ascii_of_string s
  | _ => splitFrom sep 0 "" s
  end.

(** [s[n:]]. *)
Fixpoint dropString (n : nat) (s : string) : string :=
  match n, s with
  | S n', String _ s' => dropString n' s'
  | _, _ => s
  end.

(** [strings.Contains s sub]. *)
Fixpoint Contains (s sub : string) : bool :=
  String.prefix sub s ||
  match s with
  | EmptyString => false
  | String _ s' => Contains s' sub
  end.

(** [strings.Join elems sep]. *)
Fixpoint Join (elems : list string) (sep : string) : string :=
  match elems with
  | [] => ""
  | [a] => a
  | a :: rest => a ++ sep ++ Join rest sep
  end.


(** ** The file-system SDK and the backup SDK: the structures used *)
Module efs.
Definition PerformanceModeGeneralPurpose : string := "generalPurpose".
Definition ThroughputModeBursting : string := "bursting".

Module Tag.
Record t : Type := mk { Key : option string; Value : option string }.
End Tag.

Module CreateFileSystemInput.
Record t : Type := mk {
  CreationToken : option string;
  PerformanceMode : option string;
  ThroughputMode : option string;
  Tags : list Tag.t;
}.
End CreateFileSystemInput.

Module FileSystemDescription.
Record t : Type := mk {
  FileSystemId : option string;
  LifeCycleState : option string;
  OwnerId : option string;
  SizeInBytes : option Z;
  CreationTime : option time.Time;
  Tags : list Tag.t;
}.
End FileSystemDescription.

Module DescribeFileSystemsInput.
Record t : Type := mk { FileSystemId : option string; Marker : option string }.
End DescribeFileSystemsInput.

Module DescribeFileSystemsOutput.
Record t : Type := mk {
  FileSystems : list FileSystemDescription.t;
  NextMarker : option string;
}.
End DescribeFileSystemsOutput.

Module DeleteFileSystemInput.
Record t : Type := mk { FileSystemId : option string }.
End DeleteFileSystemInput.

Module CreateMountTargetInput.
Record t : Type := mk {
  FileSystemId : option string;
  SubnetId : option string;
  SecurityGroups : list (option string);
}.
End CreateMountTargetInput.

Module MountTargetDescription.
Record t : Type := mk { MountTargetId : option string }.
End MountTargetDescription.
End efs.

Module backup.
Module DeleteRecoveryPointInput.
Record t : Type := mk {
  BackupVaultName : option string;
  RecoveryPointArn : option string;
}.
End DeleteRecoveryPointInput.
End backup.

(** ** The managed-file-system backend (awsefs.go) *)
Module awsefs.

Definition generalPurposePerformanceMode : string := efs.PerformanceModeGeneralPurpose.
Definition defaultPerformanceMode : string := generalPurposePerformanceMode.
Definition burstingThroughputMode : string := efs.ThroughputModeBursting.
Definition defaultThroughputMode : string := burstingThroughputMode.
Definition efsType : string := "EFS".
Definition k10BackupVaultName : string := "k10vault".

(** The provider: the account and region next to the two SDK clients. *)
Record efs : Type := { accountID : string; region : string }.

(** The calls this backend makes. *)
Variant efsE : Type -> Type :=
| NewV4 : efsE string
| CreateFileSystemWithContext (req : efs.CreateFileSystemInput.t)
  : efsE (efs.FileSystemDescription.t * option error)
| DescribeFileSystemsWithContext (req : efs.DescribeFileSystemsInput.t)
  : efsE (efs.DescribeFileSystemsOutput.t * option error)
| DeleteFileSystemWithContext (req : efs.DeleteFileSystemInput.t)
  : efsE (option error)
| DeleteRecoveryPointWithContext (req : backup.DeleteRecoveryPointInput.t)
  : efsE (option error).

Definition prog (A : Type) : Type := itree efsE (Outcome A).

(** [|x, err := f(); if err != nil { return nil, wrap(err) }|] *)
Definition try {A B : Type} (t : prog A) (wrap : error -> error)
    (k : A -> prog B) : prog B :=
  let* r := t in
  match r with
  | Ok a => k a
  | Err e => Ret (Err (wrap e))
  | Panic => Ret Panic
  end.

(** Helpers of the package declared in sibling files, and
    [blockstorage.KeyValueToMap]. *)
Class Helpers : Type := {
  isVolumeNotFound : option error -> bool;
  waitUntilFileSystemAvailable : efs -> string -> prog unit;
  filterAvailable : list efs.FileSystemDescription.t -> list efs.FileSystemDescription.t;
  volumeFromEFSDescription : efs.FileSystemDescription.t -> string -> blockstorage.Volume.t;
  convertToEFSTags : gmap string string -> list efs.Tag.t;
  KeyValueToMap : list blockstorage.KeyValue -> gmap string string;
}.

Section Provider.
Context `{H : Helpers}.

(** awsefs.go, 454-471. *)
Definition getFileSystemDescriptionWithID (e : efs) (id : string)
  : prog efs.FileSystemDescription.t :=
  let req := {| efs.DescribeFileSystemsInput.FileSystemId := Some id;
                efs.DescribeFileSystemsInput.Marker := None |} in
  let* (descs, err) := ITree.trigger (DescribeFileSystemsWithContext req) in
  match err with
  | Some err => Ret (Err (errors.Wrap err "Failed to get filesystem description"))
  | None =>
      let availables := filterAvailable (efs.DescribeFileSystemsOutput.FileSystems descs) in
      match List.length availables with
      | 0%nat => Ret (Err (errors.New "Failed to find volume"))
      | 1%nat =>
          match efs.DescribeFileSystemsOutput.FileSystems descs with
          | desc :: _ => Ret (Ok desc)
          | [] => Ret Panic
          end
      | _ => Ret (Err (errors.New
                 "Unexpected condition, multiple filesystems with same ID"))
      end
  end.

(** awsefs.go, 278-284. *)
Definition VolumeGet (e : efs) (id : string) (zone : string)
  : prog blockstorage.Volume.t :=
  try (getFileSystemDescriptionWithID e id)
      (fun err => errors.Wrap err "Failed to get EFS volume") (fun desc =>
  Ret (Ok (volumeFromEFSDescription desc zone))).

(** awsefs.go, 82-104. *)
Definition VolumeCreate (e : efs) (volume : blockstorage.Volume.t)
  : prog blockstorage.Volume.t :=
  let* token := ITree.trigger NewV4 in
  let req :=
    {| efs.CreateFileSystemInput.CreationToken := Some token;
       efs.CreateFileSystemInput.PerformanceMode := Some defaultPerformanceMode;
       efs.CreateFileSystemInput.ThroughputMode := Some defaultThroughputMode;
       efs.CreateFileSystemInput.Tags :=
         convertToEFSTags (KeyValueToMap (blockstorage.Volume.Tags volume)) |} in
  let* (fd, err) := ITree.trigger (CreateFileSystemWithContext req) in
  match err with
  | Some err => Ret (Err (errors.Wrap err "Failed to create EFS instance"))
  | None =>
      match efs.FileSystemDescription.FileSystemId fd with
      | None => Ret Panic
      | Some fileSystemId =>
          try (waitUntilFileSystemAvailable e fileSystemId)
              (fun err => errors.Wrap err "EFS instance is not available") (fun _ =>
          try (VolumeGet e (blockstorage.Volume.ID volume) (blockstorage.Volume.Az volume))
              (fun err => errors.Wrap err "Failed to get recently create EFS instance")
              (fun vol =>
          Ret (Ok vol)))
      end
  end.

(** awsefs.go, 267-276. *)
Definition VolumeDelete (e : efs) (volume : blockstorage.Volume.t) : prog unit :=
  let req := {| efs.DeleteFileSystemInput.FileSystemId :=
                  Some (blockstorage.Volume.ID volume) |} in
  let* err := ITree.trigger (DeleteFileSystemWithContext req) in
  if isVolumeNotFound err then Ret (Ok tt)
  else
    match err with
    | Some err => Ret (Err err)
    | None => Ret (Ok tt)
    end.

(** awsefs.go, 349-356. *)
Definition SnapshotDelete (e : efs) (snapshot : blockstorage.Snapshot.t) : prog unit :=
  let req :=
    {| backup.DeleteRecoveryPointInput.BackupVaultName := Some k10BackupVaultName;
       backup.DeleteRecoveryPointInput.RecoveryPointArn :=
         Some (blockstorage.Snapshot.ID snapshot) |} in
  let* err := ITree.trigger (DeleteRecoveryPointWithContext req) in
  match err with
  | Some err => Ret (Err err)
  | None => Ret (Ok tt)
  end.
End Provider.

(** *** Mount-target tags *)

(** Modelled from the spec: the constant [securityGroupSeperator], declared
    in a sibling file of the package.  The spec has a fixed
    single-character separator, as in subnet-123+sg-1+sg-2, and the comment
    in [parseMountTargetValue] says the same: the string until the first
    plus sign is the subnet, and after it plus signs separate the security
    groups. *)
Definition securityGroupSeperator : string := "+".

Record mountTarget : Type := {
  subnetID : string;
  securityGroups : list string;
}.

(** awsefs.go, 209-228. *)
Definition parseMountTargetValue (value : string) : Outcome mountTarget :=
  let tokens := Split value securityGroupSeperator in
  if (List.length tokens <=? 1)%nat then
    Err (errors.New "Malformed string for mount target values")
  else
    match tokens with
    | subnet :: tok1 :: rest =>
        let sgs := if (String.length tok1 =? 0)%nat then [] else tok1 :: rest in
        Ok {| subnetID := subnet; securityGroups := sgs |}
    | _ => Panic
    end.

Section Prefix.
(** The reserved key prefix, declared in a sibling file of the package. *)
Variable mountTargetKeyPrefix : string.

(** awsefs.go, 202-207. *)
Definition parseMountTargetKey (key : string) : Outcome string :=
  if negb (HasPrefix key mountTargetKeyPrefix) then
    Err (errors.New "Malformed string for mount target key")
  else Ok (dropString (String.length mountTargetKeyPrefix) key).

(** The body of the [range] loop of [filterAndGetMountTargetsFromTags],
    run over the entries in the order the runtime yields them. *)
Fixpoint filterRange (kvs : list (string * string))
    (filteredTags : gmap string string) (mts : gmap string mountTarget)
  : Outcome (gmap string string * gmap string mountTarget) :=
  match kvs with
  | [] => Ok (filteredTags, mts)
  | (k, v) :: rest =>
      if HasPrefix k mountTargetKeyPrefix then
        match parseMountTargetKey k with
        | Ok id =>
            match parseMountTargetValue v with
            | Ok mt => filterRange rest filteredTags (<[id := mt]> mts)
            | Err e => Err e
            | Panic => Panic
            end
        | Err e => Err e
        | Panic => Panic
        end
      else
        (* It is not a mount target tag, so pass it *)
        filterRange rest (<[k := v]> filteredTags) mts
  end.

(** awsefs.go, 230-250.  [order] is the sequence in which [range]
    visits the entries of [tags]. *)
Definition filterAndGetMountTargetsFromTags
    (order : list (string * string))
  : Outcome (gmap string string * gmap string mountTarget) :=
  filterRange order ∅ ∅.
End Prefix.

(** *** Listing *)

Definition dummyMarker : string := "".

(** Two more helpers of the package declared in sibling files. *)
Class ListHelpers : Type := {
  filterWithTags :
    list efs.FileSystemDescription.t -> gmap string string ->
    list efs.FileSystemDescription.t;
  volumesFromEFSDescriptions :
    list efs.FileSystemDescription.t -> string -> list blockstorage.Volume.t;
}.

Section Listing.
Context `{H : Helpers} `{L : ListHelpers}.

(** awsefs.go, 410-422.  The state of the loop is the marker of the
    request and the volumes gathered so far.  The response the loop starts
    from carries a pointer to [dummyMarker], so the body runs at least
    once, with a request that has no marker; after the body the request
    takes the marker of the response, and the loop goes on while that
    marker is not nil. *)
Definition VolumesList (e : efs) (tags : gmap string string) (zone : string)
  : prog (list blockstorage.Volume.t) :=
  ITree.iter (fun st : option string * list blockstorage.Volume.t =>
    let req := {| efs.DescribeFileSystemsInput.FileSystemId := None;
                  efs.DescribeFileSystemsInput.Marker := st.1 |} in
    let* (resp, err) := ITree.trigger (DescribeFileSystemsWithContext req) in
    match err with
    | Some err => Ret (inr (Err err))
    | None =>
        let availables :=
          filterAvailable
            (filterWithTags (efs.DescribeFileSystemsOutput.FileSystems resp) tags) in
        let result := (st.2 ++ volumesFromEFSDescriptions availables zone)%list in
        match efs.DescribeFileSystemsOutput.NextMarker resp with
        | Some _ =>
            Ret (inl (efs.DescribeFileSystemsOutput.NextMarker resp, result))
        | None => Ret (inr (Ok result))
        end
    end) (None, []).
End Listing.

(** *** Mount targets of a restored file system *)

(** The calls of [createMountTargets]: the creation request of the SDK and
    the wait of the package, declared in a sibling file, which this code
    only calls. *)
Variant mountE : Type -> Type :=
| CreateMountTargetWithContext (req : efs.CreateMountTargetInput.t)
  : mountE (efs.MountTargetDescription.t * option error)
| waitUntilMountTargetReady (mountTargetID : string) : mountE (option error).

(** [convertListOfStrings], declared in a sibling file. *)
Class MountHelpers : Type := {
  convertListOfStrings : list string -> list (option string);
}.

Section Mounts.
Context `{M : MountHelpers}.

(** The first loop of [createMountTargets] (awsefs.go, 181-193), over the
    mount targets in the order the runtime yields them. *)
Fixpoint createAll (fsID : string) (mts : list mountTarget)
    (created : list efs.MountTargetDescription.t)
  : itree mountE (Outcome (list efs.MountTargetDescription.t)) :=
  match mts with
  | [] => Ret (Ok created)
  | v :: mts =>
      let req :=
        {| efs.CreateMountTargetInput.FileSystemId := Some fsID;
           efs.CreateMountTargetInput.SubnetId := Some (subnetID v);
           efs.CreateMountTargetInput.SecurityGroups :=
             convertListOfStrings (securityGroups v) |} in
      let* (mtd, err) := ITree.trigger (CreateMountTargetWithContext req) in
      match err with
      | Some err => Ret (Err (errors.Wrap err "Failed to create mount target"))
      | None => createAll fsID mts (created ++ [mtd])%list
      end
  end.

(** The second loop (awsefs.go, 195-199). *)
Fixpoint waitAll (created : list efs.MountTargetDescription.t)
  : itree mountE (Outcome unit) :=
  match created with
  | [] => Ret (Ok tt)
  | desc :: created =>
      match efs.MountTargetDescription.MountTargetId desc with
      | None => Ret Panic
      | Some mountTargetId =>
          let* err := ITree.trigger (waitUntilMountTargetReady mountTargetId) in
          match err with
          | Some err =>
              Ret (Err (errors.Wrap err
                          "Failed while waiting for Mount target to be ready"))
          | None => waitAll created
          end
      end
  end.

(** awsefs.go, 179-200.  [order] is the sequence in which [range] visits
    the entries of [mts]. *)
Definition createMountTargets (e : efs) (fsID : string)
    (order : list (string * mountTarget)) : itree mountE (Outcome unit) :=
  let* r := createAll fsID order.*2 [] in
  match r with
  | Ok created => waitAll created
  | Err e => Ret (Err e)
  | Panic => Ret Panic
  end.
End Mounts.

End awsefs.

(** ** Vocabulary of the statements *)

(** A property of the copy requests among the calls. *)
Definition onCopy (Q : awsebs.EC2.t -> ec2.CopySnapshotInput.t -> Prop)
    (c : call awsebs.ec2E) : Prop :=
  match c with
  | Call e _ =>
      match e with
      | awsebs.CopySnapshotWithContext cli csi => Q cli csi
      | _ => True
      end
  end.

(** A property of the create-volume requests among the calls. *)
Definition onCreateVolume (Q : awsebs.EC2.t -> ec2.CreateVolumeInput.t -> Prop)
    (c : call awsebs.ec2E) : Prop :=
  match c with
  | Call e _ =>
      match e with
      | awsebs.CreateVolumeWithContext cli cvi => Q cli cvi
      | _ => True
      end
  end.

(** The filter every iteration of the tag loop appends: both pointers lead
    to the loop variables. *)
Definition sharedFilter : awsebs.FilterRef :=
  {| awsebs.Name := awsebs.cell_k; awsebs.Values := [awsebs.cell_v] |}.

(** The letters that end a zone name. *)
Definition zoneLetters : list ascii :=
  ["a"; "b"; "c"; "d"; "e"; "f"]%char.

(** The calls of the unfinished polls of [waitOnVolume] from one attempt
    on: for each answer still pending, the description that got it and the
    sleep of the interval of that attempt. *)
Fixpoint volumePolls (cli : awsebs.EC2.t) (dvi : ec2.DescribeVolumesInput.t)
    (b : backoff.Backoff) (attempt : nat)
    (pending : list ec2.DescribeVolumesOutput.t) : list (call awsebs.ec2E) :=
  match pending with
  | [] => []
  | dvo :: pending =>
      Call (awsebs.DescribeVolumesWithContext cli dvi) (dvo, None)
      :: Call (awsebs.Sleep (backoff.ForAttempt b attempt)) tt
      :: volumePolls cli dvi b (S attempt) pending
  end.

(** The calls that fetch the pages of a listing of file systems one after
    the other: each request carries the marker the page before it gave. *)
Fixpoint pageCalls (marker : option string)
    (pages : list efs.DescribeFileSystemsOutput.t) : list (call awsefs.efsE) :=
  match pages with
  | [] => []
  | page :: pages =>
      Call (awsefs.DescribeFileSystemsWithContext
              {| efs.DescribeFileSystemsInput.FileSystemId := None;
                 efs.DescribeFileSystemsInput.Marker := marker |})
           (page, None)
      :: pageCalls (efs.DescribeFileSystemsOutput.NextMarker page) pages
  end.

(** The creation calls of [createMountTargets] for some mount targets and
    the descriptions the backend answered with. *)
Definition createCalls `{M : awsefs.MountHelpers} (fsID : string)
    (mts : list awsefs.mountTarget) (descs : list efs.MountTargetDescription.t)
  : list (call awsefs.mountE) :=
  zip_with (fun v desc =>
              Call (awsefs.CreateMountTargetWithContext
                      {| efs.CreateMountTargetInput.FileSystemId := Some fsID;
                         efs.CreateMountTargetInput.SubnetId :=
                           Some (awsefs.subnetID v);
                         efs.CreateMountTargetInput.SecurityGroups :=
                           awsefs.convertListOfStrings (awsefs.securityGroups v) |})
                   (desc, None)) mts descs.

(** The waits for the mount targets of some descriptions, all answered
    without error. *)
Definition waitCalls (descs : list efs.MountTargetDescription.t)
  : list (call awsefs.mountE) :=
  (fun desc =>
     Call (awsefs.waitUntilMountTargetReady
             (aws.StringValue (efs.MountTargetDescription.MountTargetId desc)))
          None) <$> descs.

(** A call that creates a mount target. *)
Definition isCreateMountTarget (c : call awsefs.mountE) : Prop :=
  match c with
  | Call e _ =>
      match e with
      | awsefs.CreateMountTargetWithContext _ => True
      | _ => False
      end
  end.

(** ** Sample values

    An environment, a provider and two snapshots to run the programs on:
    errors are recognised by the code the backend gives them, no bookkeeping
    tag is added, and a map is walked in the order of its entry list. *)
Definition hasCode (code : string) (err : option error) : bool :=
  match err with
  | Some (errors.Backend c) => String.eqb c code
  | _ => false
  end.

Definition sampleEnvironment : Environment :=
  {| isDryRunErr := hasCode "DryRunOperation";
     isSnapNotFoundErr := hasCode "InvalidSnapshot.NotFound";
     isVolNotFoundErr := hasCode "InvalidVolume.NotFound";
     GetTags := fun tags => tags;
     rangeOrder := map_to_list;
     rangeOrder_perm := fun m => Permutation_refl (map_to_list m) |}.

Definition sampleClient (region : string) : awsebs.EC2.t :=
  {| awsebs.EC2.Region := Some region; awsebs.EC2.DryRun := false |}.

Definition sampleStorage : awsebs.ebsStorage :=
  {| awsebs.ec2Cli := sampleClient "us-west-2" |}.

Definition sampleVolume : blockstorage.Volume.t :=
  {| blockstorage.Volume.Type_ := blockstorage.TypeEBS;
     blockstorage.Volume.ID := "vol-1";
     blockstorage.Volume.Az := "us-west-2a";
     blockstorage.Volume.Encrypted := true;
     blockstorage.Volume.VolumeType := "gp2";
     blockstorage.Volume.Size := 8;
     blockstorage.Volume.Tags := [];
     blockstorage.Volume.Iops := 100;
     blockstorage.Volume.CreationTime := 1 |}.

(** An encrypted snapshot of [sampleVolume] in us-west-2. *)
Definition sampleSource : blockstorage.Snapshot.t :=
  {| blockstorage.Snapshot.ID := "snap-1";
     blockstorage.Snapshot.Tags := [];
     blockstorage.Snapshot.Type_ := blockstorage.TypeEBS;
     blockstorage.Snapshot.Encrypted := true;
     blockstorage.Snapshot.Size := 8;
     blockstorage.Snapshot.Region := "us-west-2";
     blockstorage.Snapshot.Volume := Some sampleVolume;
     blockstorage.Snapshot.CreationTime := 2 |}.

(** A destination: a region and nothing else. *)
Definition sampleDestination (region : string) : blockstorage.Snapshot.t :=
  {| blockstorage.Snapshot.ID := "";
     blockstorage.Snapshot.Tags := [];
     blockstorage.Snapshot.Type_ := "";
     blockstorage.Snapshot.Encrypted := false;
     blockstorage.Snapshot.Size := 0;
     blockstorage.Snapshot.Region := region;
     blockstorage.Snapshot.Volume := None;
     blockstorage.Snapshot.CreationTime := time.zero |}.

(** What the backend says of the copy: its own volume identity, size and
    time. *)
Definition sampleCopy : ec2.Snapshot.t :=
  {| ec2.Snapshot.SnapshotId := Some "snap-2";
     ec2.Snapshot.Tags := [];
     ec2.Snapshot.VolumeId := Some "vol-ffffffff";
     ec2.Snapshot.Encrypted := Some true;
     ec2.Snapshot.VolumeSize := Some 9;
     ec2.Snapshot.StartTime := Some 3;
     ec2.Snapshot.State := Some "completed";
     ec2.Snapshot.Progress := Some "100%" |}.

(** What the backend says of a volume created from [sampleVolume]. *)
Definition sampleCreated : ec2.Volume.t :=
  {| ec2.Volume.VolumeId := Some "vol-2";
     ec2.Volume.AvailabilityZone := Some "us-west-2a";
     ec2.Volume.Encrypted := Some true;
     ec2.Volume.VolumeType := Some "gp2";
     ec2.Volume.Size := Some 8;
     ec2.Volume.Tags := [];
     ec2.Volume.Iops := Some 100;
     ec2.Volume.CreateTime := Some 4;
     ec2.Volume.State := Some "available" |}.

(** Stand-ins for the helpers of the file-system backend: the wait asks
    once for the file system and is satisfied with any answer, a file
    system is kept when its state is available, and a volume takes its
    identity from the description. *)
Definition sampleHelpers : awsefs.Helpers :=
  {| awsefs.isVolumeNotFound := hasCode "FileSystemNotFound";
     awsefs.waitUntilFileSystemAvailable := fun _ id =>
       let* (_, err) :=
         ITree.trigger (awsefs.DescribeFileSystemsWithContext
           {| efs.DescribeFileSystemsInput.FileSystemId := Some id;
              efs.DescribeFileSystemsInput.Marker := None |}) in
       match err with
       | Some e => Ret (Err e)
       | None => Ret (Ok tt)
       end;
     awsefs.filterAvailable :=
       List.filter (fun d =>
         String.eqb (aws.StringValue (efs.FileSystemDescription.LifeCycleState d))
                    "available");
     awsefs.volumeFromEFSDescription := fun d zone =>
       {| blockstorage.Volume.Type_ := blockstorage.TypeEFS;
          blockstorage.Volume.ID :=
            aws.StringValue (efs.FileSystemDescription.FileSystemId d);
          blockstorage.Volume.Az := zone;
          blockstorage.Volume.Encrypted := false;
          blockstorage.Volume.VolumeType := "";
          blockstorage.Volume.Size :=
            aws.Int64Value (efs.FileSystemDescription.SizeInBytes d);
          blockstorage.Volume.Tags := [];
          blockstorage.Volume.Iops := 0;
          blockstorage.Volume.CreationTime :=
            aws_time.TimeValue (efs.FileSystemDescription.CreationTime d) |};
     awsefs.convertToEFSTags := fun m =>
       (fun kv => {| efs.Tag.Key := Some kv.1; efs.Tag.Value := Some kv.2 |})
         <$> map_to_list m;
     awsefs.KeyValueToMap :=
       foldl (fun m tag => <[blockstorage.Key tag := blockstorage.Value tag]> m) ∅ |}.

Definition sampleFileSystem (id : string) : efs.FileSystemDescription.t :=
  {| efs.FileSystemDescription.FileSystemId := Some id;
     efs.FileSystemDescription.LifeCycleState := Some "available";
     efs.FileSystemDescription.OwnerId := Some "123456789012";
     efs.FileSystemDescription.SizeInBytes := Some 0;
     efs.FileSystemDescription.CreationTime := Some 5;
     efs.FileSystemDescription.Tags := [] |}.

(** Stand-ins for the helpers of the listing: every file system passes
    the tag filter, and each description gives one volume. *)
Definition sampleListHelpers : awsefs.ListHelpers :=
  {| awsefs.filterWithTags := fun fss _ => fss;
     awsefs.volumesFromEFSDescriptions := fun fss zone =>
       (fun d => awsefs.volumeFromEFSDescription (Helpers := sampleHelpers) d zone)
         <$> fss |}.

(** A stand-in for the conversion of the security groups: a pointer to
    each. *)
Definition sampleMountHelpers : awsefs.MountHelpers :=
  {| awsefs.convertListOfStrings := fun l => Some <$> l |}.

(** Zones for the restore: the source zone itself. *)
Definition sampleZones : awsebs.ZoneEnvironment :=
  {| awsebs.FromSourceRegionZone := fun _ _ az => Ok [az] |}.

(** The answer to a zone description: us-west-2a in us-west-2. *)
Definition sampleZone : ec2.DescribeAvailabilityZonesOutput.t :=
  {| ec2.DescribeAvailabilityZonesOutput.AvailabilityZones :=
       [ {| ec2.AvailabilityZone.RegionName := Some "us-west-2";
            ec2.AvailabilityZone.ZoneName := Some "us-west-2a" |} ] |}.

(** * Properties *)

(** ** Runs *)

Section RunFacts.
Context {E : Type -> Type}.
#[local] Abbreviation call := (call E).
#[local] Abbreviation Run := (@Run E _).
#[local] Abbreviation calls_satisfy := (@calls_satisfy E _).

Lemma Run_observe {R} (t t' : itree E R) tr o :
  observe t = observe t' -> Run t tr o -> Run t' tr o.
Proof.
  intros Heq H. destruct H.
  - constructor.
  - apply RunRet. congruence.
  - eapply RunTau; [ | eassumption ]. congruence.
  - eapply RunVis; [ | eassumption ]. congruence.
Qed.

Lemma Run_inv {R} (t : itree E R) tr o :
  Run t tr o ->
  match observe t with
  | RetF r => tr = [] /\ (o = None \/ o = Some r)
  | TauF u => (tr = [] /\ o = None) \/ Run u tr o
  | VisF e k =>
      (tr = [] /\ o = None) \/
      exists x tr', tr = Call e x :: tr' /\ Run (k x) tr' o
  end.
Proof.
  intros H. destruct H as [t | t r Hobs | t u tr o Hobs H | X e k x t tr o Hobs H].
  - destruct (observe t); auto.
  - rewrite Hobs. auto.
  - rewrite Hobs. auto.
  - rewrite Hobs. right. eauto.
Qed.

Lemma Run_Ret_inv {R} (r : R) tr o :
  Run (Ret r) tr o -> tr = [] /\ (o = None \/ o = Some r).
Proof. apply (Run_inv (Ret r)). Qed.

Lemma Run_Tau_inv {R} (t : itree E R) tr o :
  Run (Tau t) tr o -> (tr = [] /\ o = None) \/ Run t tr o.
Proof. apply (Run_inv (Tau t)). Qed.

Lemma Run_Vis_inv {R X} (e : E X) (k : X -> itree E R) tr o :
  Run (Vis e k) tr o ->
  (tr = [] /\ o = None) \/ exists x tr', tr = Call e x :: tr' /\ Run (k x) tr' o.
Proof. apply (Run_inv (Vis e k)). Qed.

Lemma Run_trigger_inv {X} (e : E X) tr o :
  Run (ITree.trigger e) tr o ->
  (tr = [] /\ o = None) \/
  exists x, tr = [Call e x] /\ (o = None \/ o = Some x).
Proof.
  intros H. apply Run_Vis_inv in H as [?|(x & tr' & -> & H)]; [ by left | right ].
  apply Run_Ret_inv in H as [-> Ho]. eauto.
Qed.

Lemma Run_bind_inv {R S} (t : itree E R) (k : R -> itree E S) tr o :
  Run (ITree.bind t k) tr o ->
  (o = None /\ Run t tr None) \/
  exists r tr1 tr2, tr = (tr1 ++ tr2)%list /\ Run t tr1 (Some r) /\ Run (k r) tr2 o.
Proof.
  intros H. remember (ITree.bind t k) as u eqn:Hu. revert t Hu.
  induction H as [u | u s Hobs | u u' tr o Hobs Hrun IH | X e k' x u tr o Hobs Hrun IH];
    intros t ->.
  - left. split; [ done | constructor ].
  - right. unfold observe in Hobs; cbn in Hobs.
    destruct (observe t) as [r | t' | Y e' k''] eqn:Ht; cbn in Hobs; try discriminate.
    exists r, [], []. split_and!; [ done | by apply RunRet | by apply RunRet ].
  - unfold observe in Hobs; cbn in Hobs.
    destruct (observe t) as [r | t' | Y e' k''] eqn:Ht; cbn in Hobs; try discriminate.
    + right. exists r, [], tr. split_and!; [ done | by apply RunRet | ].
      eapply RunTau; eassumption.
    + injection Hobs as <-.
      destruct (IH t' eq_refl) as [[-> Ht']|(r & tr1 & tr2 & -> & H1 & H2)].
      * left. split; [ done | eapply RunTau; eassumption ].
      * right. exists r, tr1, tr2. split_and!; [ done | eapply RunTau; eassumption | done ].
  - unfold observe in Hobs; cbn in Hobs.
    destruct (observe t) as [r | t' | Y e' k''] eqn:Ht; cbn in Hobs; try discriminate.
    + right. exists r, [], (Call e x :: tr). split_and!; [ done | by apply RunRet | ].
      eapply RunVis; eassumption.
    + revert x Hrun IH.
      refine (match Hobs in _ = u
                    return match u with
                           | VisF e0 k0 =>
                               forall x, Run (k0 x) tr o ->
                                 (forall t0, k0 x = ITree.bind t0 k -> _) -> _
                           | _ => True
                           end
              with eq_refl => _ end).
      intros x Hrun IH.
      destruct (IH (k'' x) eq_refl) as [[-> Ht']|(r & tr1 & tr2 & -> & H1 & H2)].
      * left. split; [ done | eapply RunVis; eassumption ].
      * right. exists r, (Call e' x :: tr1), tr2.
        split_and!; [ done | eapply RunVis; eassumption | done ].
Qed.

Lemma observe_bind {R S} (t : itree E R) (k : R -> itree E S) :
  observe (ITree.bind t k) =
  match observe t with
  | RetF r => observe (k r)
  | TauF u => TauF (ITree.bind u k)
  | VisF e h => VisF e (fun x => ITree.bind (h x) k)
  end.
Proof. unfold observe at 1. cbn. by destruct (observe t). Qed.

Lemma Run_bind {R S} (t : itree E R) (k : R -> itree E S) r tr1 tr2 o :
  Run t tr1 (Some r) -> Run (k r) tr2 o -> Run (ITree.bind t k) (tr1 ++ tr2)%list o.
Proof.
  intros H1 H2. remember (Some r) as o1 eqn:Ho1.
  induction H1 as [t | t r' Hobs | t u tr o' Hobs H IH | X e h x t tr o' Hobs H IH].
  - discriminate.
  - injection Ho1 as ->. eapply Run_observe; [ | exact H2 ].
    by rewrite observe_bind, Hobs.
  - eapply RunTau; [ | exact (IH Ho1) ]. by rewrite observe_bind, Hobs.
  - cbn. eapply (RunVis e (fun x => ITree.bind (h x) k)); [ | exact (IH Ho1) ].
    by rewrite observe_bind, Hobs.
Qed.

Lemma Run_iter_Forall {I R} (body : I -> itree E (I + R)) (P : call -> Prop) :
  (forall i tr o, Run (body i) tr o -> Forall P tr) ->
  forall i tr o, Run (ITree.iter body i) tr o -> Forall P tr.
Proof.
  intros Hbody.
  set (K := fun lr : I + R =>
              match lr with
              | inl l => Tau (ITree.iter body l)
              | inr r => Ret r
              end).
  enough (forall (u : itree E R) tr o, Run u tr o ->
          forall b, (forall tr' o', Run b tr' o' -> Forall P tr') ->
                    observe u = observe (ITree.bind b K) -> Forall P tr) as Hgen.
  { intros i tr o H. apply (Hgen _ _ _ H (body i)); [ apply Hbody | reflexivity ]. }
  intros u tr o H.
  induction H as [u | u r Hobs | u u' tr o Hobs H IH | X e k x u tr o Hobs H IH];
    intros b Hb Hu.
  - constructor.
  - constructor.
  - rewrite observe_bind, Hobs in Hu.
    destruct (observe b) as [[j|r] | b' | Y e' k''] eqn:Hobsb; cbn in Hu;
      try discriminate.
    + injection Hu as ->. apply (IH (body j)); [ apply Hbody | reflexivity ].
    + injection Hu as ->. apply (IH b'); [ | reflexivity ].
      intros tr' o' H'. apply (Hb tr' o'). eapply RunTau; eassumption.
  - rewrite observe_bind, Hobs in Hu.
    destruct (observe b) as [[j|r] | b' | Y e' k''] eqn:Hobsb; cbn in Hu;
      try discriminate.
    symmetry in Hu. revert x H IH.
    refine (match Hu in _ = v
                  return match v with
                         | VisF e0 k0 =>
                             forall x, Run (k0 x) tr o ->
                               (forall b0, (forall tr' o', Run b0 tr' o' -> Forall P tr') ->
                                  observe (k0 x) = observe (ITree.bind b0 K) -> Forall P tr) ->
                               Forall P (Call e0 x :: tr)
                         | _ => True
                         end
            with eq_refl => _ end).
    intros x H IH. constructor.
    + assert (Forall P [Call e' x]) as HP
        by (apply (Hb _ None); eapply RunVis; [ eassumption | constructor ]).
      by inversion HP.
    + apply (IH (k'' x)); [ | reflexivity ].
      intros tr' o' H'.
      assert (Forall P (Call e' x :: tr')) as HP
        by (apply (Hb _ o'); eapply RunVis; eassumption).
      by inversion HP.
Qed.

Lemma Run_Ret {R} (r : R) : Run (Ret r : itree E R) [] (Some r).
Proof. by apply RunRet. Qed.

Lemma Run_trigger {X} (e : E X) (x : X) :
  Run (ITree.trigger e) [Call e x] (Some x).
Proof. eapply RunVis; [ reflexivity | apply Run_Ret ]. Qed.

Lemma Run_trigger_bind {X R} (e : E X) (k : X -> itree E R) x tr o :
  Run (k x) tr o -> Run (ITree.bind (ITree.trigger e) k) (Call e x :: tr) o.
Proof. intros H. apply (Run_bind _ _ x [Call e x] tr o (Run_trigger e x) H). Qed.

Lemma Run_bind_stop {R S} (t : itree E R) (k : R -> itree E S) tr :
  Run t tr None -> Run (ITree.bind t k) tr None.
Proof.
  intros H. remember None as o eqn:Ho.
  induction H as [t | t r' Hobs | t u tr o' Hobs H IH | X e h x t tr o' Hobs H IH].
  - constructor.
  - discriminate.
  - eapply RunTau; [ | exact (IH Ho) ]. by rewrite observe_bind, Hobs.
  - eapply (RunVis e (fun x => ITree.bind (h x) k)); [ | exact (IH Ho) ].
    by rewrite observe_bind, Hobs.
Qed.

Lemma Run_bind_split {R S} (t : itree E R) (k : R -> itree E S) r tr1 tr2 tr o :
  tr = (tr1 ++ tr2)%list ->
  Run t tr1 (Some r) -> Run (k r) tr2 o -> Run (ITree.bind t k) tr o.
Proof. intros ->. apply Run_bind. Qed.

Lemma Run_iter_done {I R} (body : I -> itree E (I + R)) i r tr :
  Run (body i) tr (Some (inr r)) -> Run (ITree.iter body i) tr (Some r).
Proof.
  intros H.
  apply (Run_observe
           (ITree.bind (body i)
              (fun lr => match lr with
                         | inl l => Tau (ITree.iter body l)
                         | inr r => Ret r
                         end))); [ reflexivity | ].
  apply (Run_bind_split _ _ (inr r) tr []); [ by rewrite app_nil_r | done | ].
  apply Run_Ret.
Qed.

Lemma Run_iter_again {I R} (body : I -> itree E (I + R)) i j tr1 tr2 tr o :
  tr = (tr1 ++ tr2)%list ->
  Run (body i) tr1 (Some (inl j)) -> Run (ITree.iter body j) tr2 o ->
  Run (ITree.iter body i) tr o.
Proof.
  intros -> H1 H2.
  apply (Run_observe
           (ITree.bind (body i)
              (fun lr => match lr with
                         | inl l => Tau (ITree.iter body l)
                         | inr r => Ret r
                         end))); [ reflexivity | ].
  apply (Run_bind _ _ (inl j)); [ done | ].
  eapply RunTau; [ reflexivity | done ].
Qed.

Lemma Run_bind_trigger_inv {X R} (e : E X) (k : X -> itree E R) tr o :
  Run (ITree.bind (ITree.trigger e) k) tr o ->
  (tr = [] /\ o = None) \/
  exists x tr', tr = Call e x :: tr' /\ Run (k x) tr' o.
Proof.
  intros H. apply Run_bind_inv in H as [[-> H]|(r & tr1 & tr2 & -> & H1 & H2)].
  - apply Run_trigger_inv in H as [[-> _]|(x & -> & _)]; [ by left | right ].
    exists x, []. split; [ done | constructor ].
  - right. apply Run_trigger_inv in H1 as [[_ ?]|(x & -> & [?|[= ->]])]; try done.
    by exists x, tr2.
Qed.

Lemma calls_Ret {R} P (r : R) : calls_satisfy P (Ret r).
Proof. intros tr o H. apply Run_Ret_inv in H as [-> _]. constructor. Qed.

Lemma calls_trigger {X} (P : call -> Prop) (e : E X) :
  (forall x, P (Call e x)) -> calls_satisfy P (ITree.trigger e).
Proof.
  intros HP tr o H.
  apply Run_trigger_inv in H as [[-> _]|(x & -> & _)]; repeat constructor; auto.
Qed.

Lemma calls_bind {R S} P (t : itree E R) (k : R -> itree E S) :
  calls_satisfy P t ->
  (forall r tr, Run t tr (Some r) -> calls_satisfy P (k r)) ->
  calls_satisfy P (ITree.bind t k).
Proof.
  intros Ht Hk tr o H.
  apply Run_bind_inv in H as [[-> H]|(r & tr1 & tr2 & -> & H1 & H2)].
  - by apply (Ht _ _ H).
  - apply Forall_app. split; [ by apply (Ht _ _ H1) | by apply (Hk _ _ H1 _ _ H2) ].
Qed.

Lemma calls_iter {I R} P (body : I -> itree E (I + R)) i :
  (forall j, calls_satisfy P (body j)) -> calls_satisfy P (ITree.iter body i).
Proof. intros Hbody tr o. by apply Run_iter_Forall. Qed.

Lemma calls_weaken {R} (P Q : call -> Prop) (t : itree E R) :
  (forall c, P c -> Q c) -> calls_satisfy P t -> calls_satisfy Q t.
Proof. intros HPQ Ht tr o H. eapply Forall_impl; [ by apply (Ht _ _ H) | done ]. Qed.
End RunFacts.

(** ** Region table *)

Import awsebs (staticRegionToZones, staticRegions).

Ltac region_case region lbl :=
  destruct (String.eqb_spec region lbl) as [->|?].

(** C9. Region table closure.  Whatever the region string, the lookup
    either returns a zone list, which is then non-empty and made of names
    that start with the region name, the region being one of the case
    labels; or it returns the error saying that it cannot get the
    availability zones for the region, the region being none of the labels.
    It never succeeds with an empty list and never panics. *)
Theorem staticRegionToZones_closed (region : string) :
  match staticRegionToZones region with
  | Ok zones =>
      In region staticRegions /\ zones <> [] /\
      Forall (fun z => HasPrefix z region = true) zones
  | Err e =>
      ~ In region staticRegions /\
      e = errors.New "cannot get availability zones for region"
  | Panic => False
  end.
Proof.
  unfold staticRegionToZones.
  repeat match goal with
  | |- context [String.eqb region ?lbl] =>
      region_case region lbl;
      [ split; [ cbv [staticRegions In]; tauto
               | split; [ discriminate | repeat constructor ] ] | ]
  end.
  split; [ | reflexivity ].
  cbv [staticRegions In]. intuition congruence.
Qed.

(** ** Mount-target tags *)

Section MountTargetTags.
Import awsefs.

Example split_two : Split "subnet-123+sg-1+sg-2" "+" = ["subnet-123"; "sg-1"; "sg-2"].
Proof. reflexivity. Qed.
Example split_tail : Split "subnet-123+" "+" = ["subnet-123"; ""].
Proof. reflexivity. Qed.
Example split_none : Split "subnet-123" "+" = ["subnet-123"].
Proof. reflexivity. Qed.
Example split_long : Split "a--b-c--" "--" = ["a"; "b-c"; ""].
Proof. reflexivity. Qed.

Lemma append_cons x (a b : string) : String x a ++ b = String x (a ++ b).
Proof. reflexivity. Qed.

Lemma prefix_cons a (s1 : string) b (s2 : string) :
  String.prefix (String a s1) (String b s2)
  = if ascii_dec a b then String.prefix s1 s2 else false.
Proof. reflexivity. Qed.

Lemma append_snoc (a : string) c (b : string) :
  (a ++ String c "") ++ b = a ++ String c b.
Proof.
  induction a as [|x a IH]; [ reflexivity | ].
  by rewrite !append_cons, IH.
Qed.

Lemma append_empty_r (a : string) : a ++ "" = a.
Proof.
  induction a as [|x a IH]; [ reflexivity | ].
  by rewrite append_cons, IH.
Qed.

Lemma splitFrom_cons sep skip cur s :
  exists tok toks, splitFrom sep skip cur s = tok :: toks.
Proof.
  revert skip cur. induction s as [|c s IH]; intros skip cur; cbn [splitFrom].
  - eauto.
  - destruct skip; [ | apply IH ].
    destruct (String.prefix sep (String c s)); [ eauto | apply IH ].
Qed.

Lemma splitFrom_absent s cur :
  Contains s securityGroupSeperator = false ->
  splitFrom securityGroupSeperator 0 cur s = [cur ++ s].
Proof.
  revert cur. induction s as [|c s IH]; intros cur Hno.
  - simpl. by rewrite append_empty_r.
  - cbn [Contains] in Hno. apply orb_false_iff in Hno as [Hp Hno].
    cbn [splitFrom]. rewrite Hp, (IH _ Hno). by rewrite append_snoc.
Qed.

Lemma splitFrom_at_separator cur s :
  Contains cur securityGroupSeperator = false ->
  splitFrom securityGroupSeperator 0 "" (cur ++ securityGroupSeperator ++ s)
  = cur :: splitFrom securityGroupSeperator 0 "" s.
Proof.
  enough (forall pre, Contains cur securityGroupSeperator = false ->
    splitFrom securityGroupSeperator 0 pre (cur ++ securityGroupSeperator ++ s)
    = (pre ++ cur) :: splitFrom securityGroupSeperator 0 "" s) as H
    by (intros Hno; apply (H "" Hno)).
  induction cur as [|c cur IH]; intros pre Hno.
  - change ("" ++ securityGroupSeperator ++ s) with (String "+"%char s).
    rewrite append_empty_r. cbn [splitFrom].
    unfold securityGroupSeperator. cbn. by destruct s.
  - cbn [Contains] in Hno. apply orb_false_iff in Hno as [Hp Hno].
    rewrite append_cons.
    cbn [splitFrom].
    replace (String.prefix securityGroupSeperator
               (String c (cur ++ securityGroupSeperator ++ s))) with false.
    + rewrite (IH _ Hno). by rewrite append_snoc.
    + revert Hp. unfold securityGroupSeperator. rewrite !prefix_cons.
      destruct (ascii_dec "+" c); [ by destruct cur | reflexivity ].
Qed.

Example parse_head_empty :
  parseMountTargetValue "+sg-1" = Ok {| subnetID := ""; securityGroups := ["sg-1"] |}.
Proof. reflexivity. Qed.

(** A value without the separator is malformed. *)
Lemma parseMountTargetValue_no_separator value :
  Contains value securityGroupSeperator = false ->
  parseMountTargetValue value
  = Err (errors.New "Malformed string for mount target values").
Proof.
  intros Hno. unfold parseMountTargetValue, Split.
  change (match securityGroupSeperator with
          | "" => (fun c => String c "") <$> list_ascii_of_string value
          | String _ _ => splitFrom securityGroupSeperator 0 "" value
          end) with (splitFrom securityGroupSeperator 0 "" value).
  by rewrite (splitFrom_absent _ _ Hno).
Qed.

(** A subnet followed by the bare separator: no security group. *)
Lemma parseMountTargetValue_no_groups subnet :
  Contains subnet securityGroupSeperator = false ->
  parseMountTargetValue (subnet ++ securityGroupSeperator)
  = Ok {| subnetID := subnet; securityGroups := [] |}.
Proof.
  intros Hno. unfold parseMountTargetValue, Split.
  change (match securityGroupSeperator with
          | "" => (fun c => String c "") <$>
                  list_ascii_of_string (subnet ++ securityGroupSeperator)
          | String _ _ =>
              splitFrom securityGroupSeperator 0 "" (subnet ++ securityGroupSeperator)
          end)
    with (splitFrom securityGroupSeperator 0 ""
            (subnet ++ securityGroupSeperator ++ "")).
  by rewrite (splitFrom_at_separator _ _ Hno).
Qed.

(** An empty head segment is accepted, and the subnet it yields is the
    empty string. *)
Lemma parseMountTargetValue_empty_head rest :
  exists sgs,
    parseMountTargetValue (securityGroupSeperator ++ rest)
    = Ok {| subnetID := ""; securityGroups := sgs |}.
Proof.
  unfold parseMountTargetValue, Split.
  change (match securityGroupSeperator with
          | "" => (fun c => String c "") <$>
                  list_ascii_of_string (securityGroupSeperator ++ rest)
          | String _ _ =>
              splitFrom securityGroupSeperator 0 "" (securityGroupSeperator ++ rest)
          end)
    with (splitFrom securityGroupSeperator 0 ""
            ("" ++ securityGroupSeperator ++ rest)).
  rewrite splitFrom_at_separator by reflexivity.
  destruct (splitFrom_cons securityGroupSeperator 0 "" rest) as (tok & toks & ->).
  cbn. eauto.
Qed.

Lemma parseMountTargetValue_no_panic value :
  parseMountTargetValue value <> Panic.
Proof.
  unfold parseMountTargetValue.
  destruct (Split value securityGroupSeperator) as [|subnet [|tok1 rest]];
    cbn; discriminate.
Qed.

Variable mountTargetKeyPrefix : string.

(** What the loop leaves in [filteredTags]: every entry visited whose key
    lacks the prefix, with its value, on top of what was there.  The loop
    stops only on a prefixed key whose value does not parse. *)
Lemma filterRange_spec (order : list (string * string)) ft0 mts0 :
  NoDup order.*1 ->
  match filterRange mountTargetKeyPrefix order ft0 mts0 with
  | Ok (ft, _) =>
      forall k,
        ft !! k =
        match (list_to_map order : gmap string string) !! k with
        | Some v => if HasPrefix k mountTargetKeyPrefix then ft0 !! k else Some v
        | None => ft0 !! k
        end
  | Err e =>
      exists k v, (k, v) ∈ order /\ HasPrefix k mountTargetKeyPrefix = true /\
                  parseMountTargetValue v = Err e
  | Panic => False
  end.
Proof.
  revert ft0 mts0.
  induction order as [|[k0 v0] rest IH]; intros ft0 mts0 Hnd.
  - cbn. intros k. by rewrite lookup_empty.
  - apply NoDup_cons in Hnd as [Hk0 Hnd]. cbn [filterRange].
    assert ((list_to_map rest : gmap string string) !! k0 = None) as Hfresh
      by (by apply not_elem_of_list_to_map_1).
    destruct (HasPrefix k0 mountTargetKeyPrefix) eqn:Hpre.
    + unfold parseMountTargetKey. rewrite Hpre. cbn [negb].
      destruct (parseMountTargetValue v0) as [mt|e|] eqn:Hv.
      * specialize (IH ft0 (<[dropString (String.length mountTargetKeyPrefix) k0 := mt]> mts0) Hnd).
        destruct (filterRange _ rest _ _) as [[ft mts]|e|]; [ | | done ].
        -- intros k. rewrite IH. cbn [list_to_map foldr]. cbn.
           destruct (decide (k0 = k)) as [->|Hne].
           ++ by rewrite lookup_insert_eq, Hfresh, Hpre.
           ++ by rewrite lookup_insert_ne.
        -- destruct IH as (k & v & Hin & Hp & He).
           exists k, v. split_and!; [ apply elem_of_cons; by right | done | done ].
      * exists k0, v0. split_and!; [ apply elem_of_cons; by left | done | done ].
      * by apply parseMountTargetValue_no_panic in Hv.
    + specialize (IH (<[k0 := v0]> ft0) mts0 Hnd).
      destruct (filterRange _ rest _ _) as [[ft mts]|e|]; [ | | done ].
      * intros k. rewrite IH. cbn [list_to_map foldr]. cbn.
        destruct (decide (k0 = k)) as [->|Hne].
        -- by rewrite !lookup_insert_eq, Hfresh, Hpre.
        -- by rewrite !lookup_insert_ne.
      * destruct IH as (k & v & Hin & Hp & He).
        exists k, v. split_and!; [ apply elem_of_cons; by right | done | done ].
Qed.

(** Over a whole map: on success every key without the prefix keeps its
    value, whatever the order of the walk. *)
Lemma filterAndGetMountTargetsFromTags_pass (tags : gmap string string) order ft mts :
  order ≡ₚ map_to_list tags ->
  filterAndGetMountTargetsFromTags mountTargetKeyPrefix order = Ok (ft, mts) ->
  forall k, ft !! k =
            if HasPrefix k mountTargetKeyPrefix then None else tags !! k.
Proof.
  intros Hperm Hok k. unfold filterAndGetMountTargetsFromTags in Hok.
  assert (NoDup order.*1) as Hnd
    by (rewrite Hperm; apply NoDup_fst_map_to_list).
  pose proof (filterRange_spec order ∅ ∅ Hnd) as Hspec. rewrite Hok in Hspec.
  rewrite Hspec, lookup_empty.
  replace (list_to_map order : gmap string string) with tags.
  - destruct (tags !! k), (HasPrefix k mountTargetKeyPrefix); reflexivity.
  - rewrite (list_to_map_proper order (map_to_list tags) Hnd Hperm).
    symmetry. apply list_to_map_to_list.
Qed.

(** A map without any prefixed key is decoded with success. *)
Lemma filterAndGetMountTargetsFromTags_plain (tags : gmap string string) order :
  order ≡ₚ map_to_list tags ->
  (forall k v, tags !! k = Some v -> HasPrefix k mountTargetKeyPrefix = false) ->
  exists mts,
    filterAndGetMountTargetsFromTags mountTargetKeyPrefix order = Ok (tags, mts).
Proof.
  intros Hperm Hplain.
  assert (NoDup order.*1) as Hnd
    by (rewrite Hperm; apply NoDup_fst_map_to_list).
  pose proof (filterRange_spec order ∅ ∅ Hnd) as Hspec.
  destruct (filterAndGetMountTargetsFromTags mountTargetKeyPrefix order)
    as [[ft mts]|e|] eqn:Hres; unfold filterAndGetMountTargetsFromTags in Hres;
    rewrite Hres in Hspec.
  - exists mts. do 2 f_equal. apply map_eq. intros k.
    rewrite (filterAndGetMountTargetsFromTags_pass tags order ft mts Hperm Hres k).
    destruct (tags !! k) as [v|] eqn:Hk.
    + by rewrite (Hplain k v Hk).
    + by destruct (HasPrefix k mountTargetKeyPrefix).
  - destruct Hspec as (k & v & Hin & Hpre & _).
    rewrite Hperm in Hin. apply elem_of_map_to_list in Hin.
    rewrite (Hplain k v Hin) in Hpre. discriminate.
  - destruct Hspec.
Qed.
End MountTargetTags.

(** C6, as the code has it.  Decoding the tags of a recovery point: a key
    without the reserved prefix keeps its value in the filtered tags, and a
    map of such keys alone is decoded with success; a value without the
    separator is malformed; a subnet followed by the bare separator decodes
    to that subnet with no security group; and a value that starts with the
    separator is accepted, with the empty string for subnet. *)
Theorem efs_mount_target_tag_decoding (mountTargetKeyPrefix : string) :
  (forall (tags : gmap string string) order,
     order ≡ₚ map_to_list tags ->
     (forall ft mts k,
        awsefs.filterAndGetMountTargetsFromTags mountTargetKeyPrefix order
        = Ok (ft, mts) ->
        HasPrefix k mountTargetKeyPrefix = false -> ft !! k = tags !! k) /\
     ((forall k v, tags !! k = Some v -> HasPrefix k mountTargetKeyPrefix = false) ->
      exists mts,
        awsefs.filterAndGetMountTargetsFromTags mountTargetKeyPrefix order
        = Ok (tags, mts))) /\
  (forall value,
     Contains value awsefs.securityGroupSeperator = false ->
     awsefs.parseMountTargetValue value
     = Err (errors.New "Malformed string for mount target values")) /\
  (forall subnet,
     Contains subnet awsefs.securityGroupSeperator = false ->
     awsefs.parseMountTargetValue (subnet ++ awsefs.securityGroupSeperator)
     = Ok {| awsefs.subnetID := subnet; awsefs.securityGroups := [] |}) /\
  (forall rest, exists sgs,
     awsefs.parseMountTargetValue (awsefs.securityGroupSeperator ++ rest)
     = Ok {| awsefs.subnetID := ""; awsefs.securityGroups := sgs |}).
Proof.
  split_and!.
  - intros tags order Hperm. split.
    + intros ft mts k Hok Hpre.
      rewrite (filterAndGetMountTargetsFromTags_pass _ tags order ft mts Hperm Hok k).
      by rewrite Hpre.
    + by apply filterAndGetMountTargetsFromTags_plain.
  - apply parseMountTargetValue_no_separator.
  - apply parseMountTargetValue_no_groups.
  - apply parseMountTargetValue_empty_head.
Qed.

(** The claim as stated: a value with an empty head segment is accepted
    only with a non-empty subnet.  The value +sg-1 is accepted with the
    empty subnet. *)
Lemma efs_mount_target_tag_decoding_counterexample :
  ~ (forall value mt,
       HasPrefix value awsefs.securityGroupSeperator = true ->
       awsefs.parseMountTargetValue value = Ok mt ->
       awsefs.subnetID mt <> "").
Proof.
  intros Hclaim.
  apply (Hclaim "+sg-1" {| awsefs.subnetID := ""; awsefs.securityGroups := ["sg-1"] |});
    reflexivity.
Qed.

(** The tag env = prod under the prefix mt/, and the values subnet-123,
    subnet-123+ and +sg-1. *)
Lemma efs_mount_target_tag_decoding_witness :
  let tags : gmap string string := {[ "env" := "prod" ]} in
  let order := [("env", "prod")] in
  order ≡ₚ map_to_list tags /\
  (exists mts, awsefs.filterAndGetMountTargetsFromTags "mt/" order = Ok (tags, mts)) /\
  Contains "subnet-123" awsefs.securityGroupSeperator = false /\
  awsefs.parseMountTargetValue "subnet-123"
  = Err (errors.New "Malformed string for mount target values") /\
  awsefs.parseMountTargetValue "subnet-123+"
  = Ok {| awsefs.subnetID := "subnet-123"; awsefs.securityGroups := [] |} /\
  (exists sgs, awsefs.parseMountTargetValue "+sg-1"
               = Ok {| awsefs.subnetID := ""; awsefs.securityGroups := sgs |}).
Proof.
  intros tags order.
  destruct (efs_mount_target_tag_decoding "mt/") as (Hpass & Hnone & Hbare & Hhead).
  assert (order ≡ₚ map_to_list tags) as Hperm
    by (unfold tags; by rewrite map_to_list_singleton).
  assert (Contains "subnet-123" awsefs.securityGroupSeperator = false) as Hno
    by reflexivity.
  split_and!.
  - exact Hperm.
  - apply (proj2 (Hpass tags order Hperm)). intros k v Hk.
    unfold tags in Hk. apply lookup_singleton_Some in Hk as [<- _]. reflexivity.
  - exact Hno.
  - exact (Hnone "subnet-123" Hno).
  - exact (Hbare "subnet-123" Hno).
  - exact (Hhead "sg-1").
Defined.

(** ** Deletes *)

Ltac run_step H :=
  lazymatch type of H with
  | Run (ITree.bind (ITree.trigger _) _) _ _ =>
      let x := fresh "x" in
      let tr := fresh "tr" in
      apply Run_bind_trigger_inv in H as [[-> ?]|(x & tr & -> & H)];
      [ try discriminate | ]
  | Run (Ret _) _ _ =>
      let Ho := fresh "Ho" in
      apply Run_Ret_inv in H as [-> [Ho|Ho]]; [ try discriminate | ]
  | Run (awsebs.try _ _ _) _ _ => unfold awsebs.try in H
  | Run (awsefs.try _ _ _) _ _ => unfold awsefs.try in H
  | Run (ITree.bind _ _) _ _ =>
      let r := fresh "r" in
      let tr1 := fresh "tr" in
      let tr2 := fresh "tr" in
      let H1 := fresh "Hrun" in
      apply Run_bind_inv in H as [[? ?]|(r & tr1 & tr2 & -> & H1 & H)];
      [ try discriminate | ]
  | Run (match ?x with _ => _ end) _ _ => destruct x eqn:?
  end.

Section Deletes.
Context `{Env : Environment}.

(** The three deletes that swallow the not-found answer. *)
Lemma ebs_SnapshotDelete_not_found s snapshot tr r :
  Run (awsebs.SnapshotDelete s snapshot) tr (Some r) ->
  exists e err,
    tr = [Call e err] /\ (isSnapNotFoundErr err = true -> r = Ok tt).
Proof.
  unfold awsebs.SnapshotDelete. intros H.
  run_step H. eexists _, x. split.
  - repeat run_step H; reflexivity.
  - intros Hnf. rewrite Hnf in H. run_step H. congruence.
Qed.

Lemma ebs_VolumeDelete_not_found s volume tr r :
  Run (awsebs.VolumeDelete s volume) tr (Some r) ->
  exists e err,
    tr = [Call e err] /\ (isVolNotFoundErr err = true -> r = Ok tt).
Proof.
  unfold awsebs.VolumeDelete. intros H.
  run_step H. eexists _, x. split.
  - repeat run_step H; reflexivity.
  - intros Hnf. rewrite Hnf in H. run_step H. congruence.
Qed.

Lemma efs_VolumeDelete_not_found `{Hp : awsefs.Helpers} e volume tr r :
  Run (awsefs.VolumeDelete e volume) tr (Some r) ->
  exists ev err,
    tr = [Call ev err] /\ (awsefs.isVolumeNotFound err = true -> r = Ok tt).
Proof.
  unfold awsefs.VolumeDelete. intros H.
  run_step H. eexists _, x. split.
  - repeat run_step H; reflexivity.
  - intros Hnf. rewrite Hnf in H. run_step H. congruence.
Qed.
End Deletes.

(** On the managed file system the snapshot delete hands back whatever the
    backend answered. *)
Lemma efs_SnapshotDelete_result e snapshot tr r :
  Run (awsefs.SnapshotDelete e snapshot) tr (Some r) ->
  exists ev answer,
    tr = [Call ev answer] /\
    r = match answer with Some err => Err err | None => Ok tt end.
Proof.
  unfold awsefs.SnapshotDelete. intros H.
  run_step H. eexists _, x.
  destruct x; run_step H; (split; [ reflexivity | congruence ]).
Qed.

(** C4.  Deleting a snapshot of the managed file system whose recovery
    point is already gone: the backend answers the delete request with an
    error, whatever it is, and [SnapshotDelete] returns that very error
    instead of success. *)
Theorem efs_SnapshotDelete_returns_backend_error
    (e : awsefs.efs) (snapshot : blockstorage.Snapshot.t) (err : error) :
  let req :=
    {| backup.DeleteRecoveryPointInput.BackupVaultName := Some "k10vault";
       backup.DeleteRecoveryPointInput.RecoveryPointArn :=
         Some (blockstorage.Snapshot.ID snapshot) |} in
  Run (awsefs.SnapshotDelete e snapshot)
      [Call (awsefs.DeleteRecoveryPointWithContext req) (Some err)]
      (Some (Err err)).
Proof.
  cbn zeta. unfold awsefs.SnapshotDelete.
  apply Run_trigger_bind. apply Run_Ret.
Qed.

(** ** Tags of the snapshots returned *)

Section SnapshotTags.
Context `{Env : Environment}.

Lemma valueTag_derefTag tag kv : awsebs.derefTag tag = Some kv -> awsebs.valueTag tag = kv.
Proof.
  unfold awsebs.derefTag, awsebs.valueTag.
  destruct (ec2.Tag.Key tag), (ec2.Tag.Value tag); intros [= <-]; reflexivity.
Qed.

Lemma valueTag_mapM tags kvs :
  mapM awsebs.derefTag tags = Some kvs -> awsebs.valueTag <$> tags = kvs.
Proof.
  intros Hm. apply mapM_Some_1 in Hm.
  induction Hm as [|tag kv tags kvs Hkv _ IH]; [ reflexivity | ].
  cbn. by rewrite (valueTag_derefTag _ _ Hkv), IH.
Qed.

Lemma snapshotParse_tags s snap ms :
  awsebs.snapshotParse s snap = Ok ms ->
  awsebs.valueTag <$> ec2.Snapshot.Tags snap = blockstorage.Snapshot.Tags ms.
Proof.
  unfold awsebs.snapshotParse.
  destruct (mapM awsebs.derefTag (ec2.Snapshot.Tags snap)) as [kvs|] eqn:Hm; [ | done ].
  intros [= <-]. cbn. by apply valueTag_mapM.
Qed.

(** Every snapshot [SnapshotGet] returns carries each tag of the
    backend's answer twice. *)
Lemma SnapshotGet_tags_twice s id tr ms :
  Run (awsebs.SnapshotGet s id) tr (Some (Ok ms)) ->
  exists tags, blockstorage.Snapshot.Tags ms = (tags ++ tags)%list.
Proof.
  unfold awsebs.SnapshotGet. intros H.
  repeat run_step H; try congruence.
  injection Ho as [= ->]. cbn.
  erewrite snapshotParse_tags by eassumption. eauto.
Qed.

(** So does [SnapshotCreate]. *)
Lemma SnapshotCreate_tags_twice s volume tags tr ms :
  Run (awsebs.SnapshotCreate s volume tags) tr (Some (Ok ms)) ->
  exists kvs, blockstorage.Snapshot.Tags ms = (kvs ++ kvs)%list.
Proof.
  unfold awsebs.SnapshotCreate. intros H.
  repeat run_step H; try congruence.
  injection Ho as [= ->]. cbn.
  erewrite snapshotParse_tags by eassumption. eauto.
Qed.
End SnapshotTags.

(** C10.  A snapshot whose backend description carries the single tag
    k = v, and so has unique keys: [SnapshotGet] returns it with the tag
    twice, and so does [SnapshotCreate] when the backend answers the create
    request with that description.  The key k occurs twice in the tag list
    returned. *)
Theorem ebs_snapshot_tags_repeat_keys `{Env : Environment}
    (s : awsebs.ebsStorage) (volume : blockstorage.Volume.t) :
  let tag := {| ec2.Tag.Key := Some "k"; ec2.Tag.Value := Some "v" |} in
  let kv := {| blockstorage.Key := "k"; blockstorage.Value := "v" |} in
  let snap :=
    {| ec2.Snapshot.SnapshotId := Some "snap-1";
       ec2.Snapshot.Tags := [tag];
       ec2.Snapshot.VolumeId := Some "vol-1";
       ec2.Snapshot.Encrypted := Some false;
       ec2.Snapshot.VolumeSize := Some 1;
       ec2.Snapshot.StartTime := None;
       ec2.Snapshot.State := Some "completed";
       ec2.Snapshot.Progress := Some "100%" |} in
  let described := {| ec2.DescribeSnapshotsOutput.Snapshots := [snap] |} in
  let zones :=
    {| ec2.DescribeAvailabilityZonesOutput.AvailabilityZones :=
         [ {| ec2.AvailabilityZone.RegionName := Some "us-west-2";
              ec2.AvailabilityZone.ZoneName := Some "us-west-2a" |} ] |} in
  let describe :=
    awsebs.DescribeSnapshotsWithContext (awsebs.ec2Cli s)
      {| ec2.DescribeSnapshotsInput.SnapshotIds := [Some "snap-1"];
         ec2.DescribeSnapshotsInput.Filters := [] |} in
  let create :=
    awsebs.CreateSnapshotWithContext (awsebs.ec2Cli s)
      {| ec2.CreateSnapshotInput.VolumeId := Some (blockstorage.Volume.ID volume);
         ec2.CreateSnapshotInput.TagSpecifications :=
           [ {| ec2.TagSpecification.ResourceType := Some "snapshot";
                ec2.TagSpecification.Tags := awsebs.mapToEC2Tags (GetTags ∅) |} ];
         ec2.CreateSnapshotInput.DryRun := Some (awsebs.EC2.DryRun (awsebs.ec2Cli s)) |} in
  let locate :=
    awsebs.DescribeAvailabilityZonesWithContext (awsebs.ec2Cli s)
      {| ec2.DescribeAvailabilityZonesInput.ZoneNames :=
           [Some (blockstorage.Volume.Az volume)] |} in
  (exists ms,
     Run (awsebs.SnapshotGet s "snap-1")
         [Call describe (described, None)] (Some (Ok ms)) /\
     blockstorage.Snapshot.Tags ms = [kv; kv]) /\
  (exists ms,
     Run (awsebs.SnapshotCreate s volume ∅)
         [Call create (snap, None); Call locate (zones, None)] (Some (Ok ms)) /\
     blockstorage.Snapshot.Tags ms = [kv; kv]).
Proof.
  cbn zeta. split.
  - eexists. split.
    + unfold awsebs.SnapshotGet, awsebs.try, awsebs.getSnapshots.
      eapply (Run_bind_split _ _ _ [_] []); [ reflexivity | | ].
      * apply Run_trigger_bind. cbn. apply Run_Ret.
      * cbn. apply Run_Ret.
    + reflexivity.
  - eexists. split.
    + unfold awsebs.SnapshotCreate, awsebs.try, awsebs.availabilityZoneToRegion.
      apply Run_trigger_bind. cbn.
      eapply (Run_bind_split _ _ _ [_] []); [ reflexivity | | ].
      * apply Run_trigger_bind. cbn. apply Run_Ret.
      * cbn. apply Run_Ret.
    + reflexivity.
Qed.

(** ** Tag filters of the list requests *)

Section TagFilters.
Context `{Env : Environment}.

(** The loop appends one filter per entry, and all of them point at the
    same two cells, which hold the entry visited last. *)
Lemma rangeFilters_alias kvs h fltrs :
  awsebs.rangeFilters kvs h fltrs =
  (match last kvs with
   | Some (k, v) => {| awsebs.at_k := k; awsebs.at_v := v |}
   | None => h
   end,
   (fltrs ++ replicate (List.length kvs) sharedFilter)%list).
Proof.
  revert h fltrs. induction kvs as [|[k v] kvs IH]; intros h fltrs.
  - cbn. by rewrite app_nil_r.
  - cbn [awsebs.rangeFilters]. rewrite IH. f_equal.
    + destruct kvs as [|kv kvs]; [ reflexivity | ].
      change (last ((k, v) :: kv :: kvs)) with (last (kv :: kvs)).
      destruct (last (kv :: kvs)) as [[k' v']|] eqn:Hl; [ reflexivity | ].
      by apply last_None in Hl.
    + by rewrite <- app_assoc.
Qed.

(** Hence every filter of the request names the entry visited last. *)
Lemma tagFilters_alias (tags : gmap string string) k v :
  last (rangeOrder tags) = Some (k, v) ->
  awsebs.tagFilters tags =
  replicate (size tags)
    {| ec2.Filter.Name := Some k; ec2.Filter.Values := [Some v] |}.
Proof.
  intros Hl. unfold awsebs.tagFilters. rewrite rangeFilters_alias, Hl.
  cbn [app]. rewrite fmap_replicate.
  replace (List.length (rangeOrder tags)) with (size tags); [ reflexivity | ].
  rewrite (Permutation_length (rangeOrder_perm tags)).
  symmetry. apply length_map_to_list.
Qed.

Lemma tagFilters_empty : awsebs.tagFilters ∅ = [].
Proof.
  unfold awsebs.tagFilters. rewrite rangeFilters_alias.
  pose proof (rangeOrder_perm ∅) as Hp. rewrite map_to_list_empty in Hp.
  apply Permutation_nil_r in Hp. by rewrite Hp.
Qed.
End TagFilters.

(** C7.  Listing the volumes tagged a = 1 and b = 2: whatever the order in
    which the runtime walks the map, the describe request carries two
    identical filters, both for the entry visited last, so that the other
    entry is not filtered on. *)
Theorem ebs_VolumesList_filters_alias `{Env : Environment}
    (s : awsebs.ebsStorage) (zone : string) :
  let tags : gmap string string := {[ "a" := "1"; "b" := "2" ]} in
  exists k v,
    ((k = "a" /\ v = "1") \/ (k = "b" /\ v = "2")) /\
    let fltr := {| ec2.Filter.Name := Some k; ec2.Filter.Values := [Some v] |} in
    let dvi := {| ec2.DescribeVolumesInput.VolumeIds := [];
                  ec2.DescribeVolumesInput.Filters := [fltr; fltr] |} in
    forall answer,
      Run (awsebs.VolumesList s tags zone)
          [Call (awsebs.DescribeVolumesWithContext (awsebs.ec2Cli s) dvi) answer]
          None.
Proof.
  intros tags.
  assert (exists k v, ((k = "a" /\ v = "1") \/ (k = "b" /\ v = "2")) /\
                      last (rangeOrder tags) = Some (k, v)) as (k & v & Hkv & Hl).
  { pose proof (rangeOrder_perm tags) as Hp.
    assert (map_to_list tags ≡ₚ [("a", "1"); ("b", "2")]) as Hm.
    { unfold tags. rewrite map_to_list_insert by done.
      by rewrite map_to_list_singleton. }
    rewrite Hm in Hp. symmetry in Hp.
    apply Permutation_length_2_inv in Hp as [-> | ->]; cbn; eauto 10. }
  exists k, v. split; [ done | ]. cbn zeta. intros answer.
  unfold awsebs.VolumesList. rewrite (tagFilters_alias _ _ _ Hl).
  replace (size tags) with 2%nat.
  - apply Run_trigger_bind. constructor.
  - unfold tags. rewrite map_size_insert_None by done.
    by rewrite map_size_singleton.
Qed.

(** Calls of a program whose shape is plain: returns, single calls, binds,
    loops and case analyses, none of the calls being of the kind looked at. *)
Ltac calls_auto :=
  repeat first
    [ apply calls_Ret
    | apply calls_trigger; intros; exact I
    | apply calls_iter; intros
    | apply calls_bind; [ | intros ? ? _ ]
    | progress unfold awsebs.try
    | match goal with
      | |- calls_satisfy _ (match ?x with _ => _ end) => destruct x
      end ].

(** ** Snapshot copy *)

Section SnapshotCopy.
Context `{Env : Environment}.
Import awsebs.

Lemma newEC2Client_no_copy Q region : calls_satisfy (onCopy Q) (newEC2Client region).
Proof. unfold newEC2Client. calls_auto. Qed.

Lemma presignCopy_no_copy Q cli from to :
  calls_satisfy (onCopy Q) (presignCopy cli from to).
Proof. unfold presignCopy, newEC2Client. calls_auto. Qed.

Lemma setResourceTags_no_copy Q cli id tags :
  calls_satisfy (onCopy Q) (setResourceTags cli id tags).
Proof. unfold setResourceTags. calls_auto. Qed.

Lemma waitOnSnapshotID_no_copy Q cli id :
  calls_satisfy (onCopy Q) (waitOnSnapshotID cli id).
Proof. unfold waitOnSnapshotID, WaitWithBackoff. calls_auto. Qed.

Lemma fetchCopy_no_copy Q s from to cli id :
  calls_satisfy (onCopy Q) (fetchCopy s from to cli id).
Proof. unfold fetchCopy, getSnapshots. calls_auto. Qed.

(** The only copy request [copyWith] sends is the one it builds. *)
Lemma copyWith_copy s from to cli url :
  calls_satisfy
    (onCopy (fun cli' csi => cli' = cli /\ csi = copySnapshotInput from cli url))
    (copyWith s from to cli url).
Proof.
  unfold copyWith. apply calls_bind.
  - apply calls_trigger. intros x. cbn. done.
  - intros [cso err] tr _. destruct err; [ apply calls_Ret | ].
    unfold try. apply calls_bind; [ apply setResourceTags_no_copy | ].
    intros [| |] ? _; try apply calls_Ret.
    apply calls_bind; [ apply waitOnSnapshotID_no_copy | ].
    intros [| |] ? _; try apply calls_Ret.
    apply fetchCopy_no_copy.
Qed.

Lemma onCopy_In Q (tr : list (call ec2E)) cli csi answer :
  Forall (onCopy Q) tr ->
  In (Call (CopySnapshotWithContext cli csi) answer) tr -> Q cli csi.
Proof.
  intros HF Hin. rewrite Forall_forall in HF.
  apply (HF _ (proj2 (list_elem_of_In _ _) Hin)).
Qed.

Lemma newEC2Client_result region tr r :
  Run (newEC2Client region) tr (Some r) ->
  match r with
  | Ok cli => cli = {| EC2.Region := Some region; EC2.DryRun := false |}
  | Err _ => True
  | Panic => False
  end.
Proof.
  unfold newEC2Client. intros H. repeat run_step H; by simplify_eq.
Qed.
(** Every copy request of [SnapshotCopy] is the one built from the source
    snapshot, on a client bound to the destination region. *)
Lemma SnapshotCopy_copy_requests s from to :
  calls_satisfy
    (onCopy (fun cli csi =>
       cli = {| EC2.Region := Some (blockstorage.Snapshot.Region to);
                EC2.DryRun := false |} /\
       exists url, csi = copySnapshotInput from cli url))
    (SnapshotCopy s from to).
Proof.
  unfold SnapshotCopy.
  destruct (String.eqb _ _); [ apply calls_Ret | ].
  destruct (negb _); [ apply calls_Ret | ].
  unfold try. apply calls_bind; [ apply newEC2Client_no_copy | ].
  intros [cli|e|] tr Hcli; try apply calls_Ret.
  apply newEC2Client_result in Hcli as ->.
  apply calls_bind; [ apply presignCopy_no_copy | ].
  intros [url|e|] tr' _; try apply calls_Ret.
  eapply calls_weaken; [ | apply copyWith_copy ].
  intros [X e x]. destruct e; cbn; try done.
  intros [-> ->]. eauto.
Qed.

(** What the presigning step returns: nothing within one region, and
    across regions the URL that a client bound to the source region was
    given for a validity of two hours. *)
Lemma presignCopy_result cli from to tr url :
  Run (presignCopy cli from to) tr (Some (Ok url)) ->
  (blockstorage.Snapshot.Region to = blockstorage.Snapshot.Region from ->
   url = None) /\
  (blockstorage.Snapshot.Region to <> blockstorage.Snapshot.Region from ->
   exists fromCli si su,
     In (Call (Presign fromCli si (2 * time.Hour)) (su, None)) tr /\
     EC2.Region fromCli = Some (blockstorage.Snapshot.Region from) /\
     url = Some su).
Proof.
  unfold presignCopy. intros H.
  destruct (String.eqb_spec (blockstorage.Snapshot.Region to)
              (blockstorage.Snapshot.Region from)) as [Heq|Hne]; cbn [negb] in H.
  - run_step H. simplify_eq. split; [ done | intros Hne; by destruct Hne ].
  - split; [ by intros ? | intros _ ].
    unfold try in H. run_step H.
    destruct r as [fromCli|e|]; [ | run_step H; simplify_eq.. ].
    apply newEC2Client_result in Hrun as ->.
    run_step H. destruct x as [su [e|]]; run_step H; simplify_eq.
    eexists _, _, su.
    split; [ apply in_or_app; right; left; reflexivity | done ].
Qed.

(** What [fetchCopy] returns, and from which answer. *)
Lemma fetchCopy_result s from to cli snapID tr rs :
  Run (fetchCopy s from to cli snapID) tr (Some (Ok rs)) ->
  exists dso snap,
    tr = [Call (DescribeSnapshotsWithContext cli
                  {| ec2.DescribeSnapshotsInput.SnapshotIds := [Some snapID];
                     ec2.DescribeSnapshotsInput.Filters := [] |})
               (dso, None)] /\
    ec2.DescribeSnapshotsOutput.Snapshots dso = [snap] /\
    blockstorage.Snapshot.Volume rs = blockstorage.Snapshot.Volume from /\
    is_Some (blockstorage.Snapshot.Volume from) /\
    blockstorage.Snapshot.Size rs = blockstorage.Snapshot.Size from /\
    blockstorage.Snapshot.Region rs = blockstorage.Snapshot.Region to /\
    blockstorage.Snapshot.ID rs = aws.StringValue (ec2.Snapshot.SnapshotId snap) /\
    mapM derefTag (ec2.Snapshot.Tags snap) = Some (blockstorage.Snapshot.Tags rs) /\
    blockstorage.Snapshot.Encrypted rs = aws.BoolValue (ec2.Snapshot.Encrypted snap) /\
    blockstorage.Snapshot.CreationTime rs =
      aws_time.TimeValue (ec2.Snapshot.StartTime snap).
Proof.
  unfold fetchCopy, try, getSnapshots. intros H.
  run_step H. run_step Hrun. destruct x as [dso err].
  destruct err as [e|]; [ run_step Hrun; simplify_eq; run_step H; simplify_eq | ].
  destruct (negb _) eqn:Hlen;
    [ run_step Hrun; simplify_eq; run_step H; simplify_eq | ].
  run_step Hrun. simplify_eq.
  apply negb_false_iff, Nat.eqb_eq in Hlen.
  destruct (ec2.DescribeSnapshotsOutput.Snapshots dso) as [|snap [|? ?]] eqn:Hsnaps;
    try discriminate Hlen.
  unfold snapshotParse in H.
  destruct (mapM derefTag (ec2.Snapshot.Tags snap)) as [tags|] eqn:Htags;
    [ | run_step H; simplify_eq ].
  destruct (blockstorage.Snapshot.Volume from) as [fromVolume|] eqn:Hvol;
    [ | run_step H; simplify_eq ].
  run_step H. simplify_eq. cbn.
  exists dso, snap. rewrite Hsnaps, Htags. split_and!; eauto.
Qed.

(** What [copyWith] returns, and from which answers. *)
Lemma copyWith_result s from to cli url tr rs :
  Run (copyWith s from to cli url) tr (Some (Ok rs)) ->
  exists cso tr' dso snap,
    tr = (Call (CopySnapshotWithContext cli (copySnapshotInput from cli url))
               (cso, None) :: tr' ++
          [Call (DescribeSnapshotsWithContext cli
                   {| ec2.DescribeSnapshotsInput.SnapshotIds :=
                        [Some (aws.StringValue (ec2.CopySnapshotOutput.SnapshotId cso))];
                      ec2.DescribeSnapshotsInput.Filters := [] |})
                (dso, None)])%list /\
    ec2.DescribeSnapshotsOutput.Snapshots dso = [snap] /\
    blockstorage.Snapshot.Volume rs = blockstorage.Snapshot.Volume from /\
    is_Some (blockstorage.Snapshot.Volume from) /\
    blockstorage.Snapshot.Size rs = blockstorage.Snapshot.Size from /\
    blockstorage.Snapshot.Region rs = blockstorage.Snapshot.Region to /\
    blockstorage.Snapshot.ID rs = aws.StringValue (ec2.Snapshot.SnapshotId snap) /\
    mapM derefTag (ec2.Snapshot.Tags snap) = Some (blockstorage.Snapshot.Tags rs) /\
    blockstorage.Snapshot.Encrypted rs = aws.BoolValue (ec2.Snapshot.Encrypted snap) /\
    blockstorage.Snapshot.CreationTime rs =
      aws_time.TimeValue (ec2.Snapshot.StartTime snap).
Proof.
  unfold copyWith, try. intros H.
  run_step H. destruct x as [cso err].
  destruct err as [e|]; [ run_step H; simplify_eq | ].
  run_step H. destruct r as [[]|e|]; [ | run_step H; simplify_eq.. ].
  run_step H. destruct r as [[]|e|]; [ | run_step H; simplify_eq.. ].
  apply fetchCopy_result in H as (dso & snap & -> & Hrest).
  eexists cso, _, dso, snap. split; [ | exact Hrest ].
  rewrite app_assoc. reflexivity.
Qed.
End SnapshotCopy.

(** C2.  In every run of [SnapshotCopy], each copy request sent has its
    Encrypted flag set to true when the source snapshot is encrypted, and
    left unspecified, not false, when it is not. *)
Theorem ebs_SnapshotCopy_encrypted_flag `{Env : Environment}
    (s : awsebs.ebsStorage) (from to : blockstorage.Snapshot.t)
    (tr : list (call awsebs.ec2E)) (o : option (Outcome blockstorage.Snapshot.t))
    (cli : awsebs.EC2.t) (csi : ec2.CopySnapshotInput.t)
    (answer : ec2.CopySnapshotOutput.t * option error) :
  Run (awsebs.SnapshotCopy s from to) tr o ->
  In (Call (awsebs.CopySnapshotWithContext cli csi) answer) tr ->
  ec2.CopySnapshotInput.Encrypted csi =
  if blockstorage.Snapshot.Encrypted from then Some true else None.
Proof.
  intros Hrun Hin.
  pose proof (SnapshotCopy_copy_requests s from to tr o Hrun) as HF.
  apply (onCopy_In _ _ _ _ _ HF) in Hin as (_ & url & ->).
  cbn. by destruct (blockstorage.Snapshot.Encrypted from).
Qed.

(** The copy of an encrypted snapshot within us-west-2, up to the copy
    request. *)
Lemma ebs_SnapshotCopy_encrypted_flag_witness :
  let cli := sampleClient "us-west-2" in
  let csi := awsebs.copySnapshotInput sampleSource cli None in
  let answer : ec2.CopySnapshotOutput.t * option error :=
    ({| ec2.CopySnapshotOutput.SnapshotId := Some "snap-2" |}, None) in
  let tr := [Call awsebs.NewSession None;
             Call (awsebs.CopySnapshotWithContext cli csi) answer] in
  Run (awsebs.SnapshotCopy (Env := sampleEnvironment) sampleStorage sampleSource
         (sampleDestination "us-west-2")) tr None /\
  In (Call (awsebs.CopySnapshotWithContext cli csi) answer) tr /\
  ec2.CopySnapshotInput.Encrypted csi = Some true.
Proof.
  intros cli csi answer tr.
  assert (Run (awsebs.SnapshotCopy (Env := sampleEnvironment) sampleStorage
                 sampleSource (sampleDestination "us-west-2")) tr None) as Hrun.
  { unfold awsebs.SnapshotCopy, awsebs.try. cbn.
    eapply (Run_bind_split _ _ _ [_] [_]); [ reflexivity | | ].
    - unfold awsebs.newEC2Client. apply Run_trigger_bind. apply Run_Ret.
    - cbn. eapply (Run_bind_split _ _ _ [] [_]); [ reflexivity | | ].
      + unfold awsebs.presignCopy. cbn. apply Run_Ret.
      + cbn. unfold awsebs.copyWith. apply Run_trigger_bind. constructor. }
  assert (In (Call (awsebs.CopySnapshotWithContext cli csi) answer) tr) as Hin
    by (right; left; reflexivity).
  split; [ exact Hrun | split; [ exact Hin | ] ].
  exact (ebs_SnapshotCopy_encrypted_flag sampleStorage sampleSource
           (sampleDestination "us-west-2") tr None cli csi answer Hrun Hin).
Defined.

(** C3.  In every run of [SnapshotCopy], a copy request is sent on a client
    bound to the destination region; within one region it carries no
    presigned URL, and across regions it carries the URL that a client bound
    to the source region was given, earlier in the run, for a validity of
    two hours. *)
Theorem ebs_SnapshotCopy_presign `{Env : Environment}
    (s : awsebs.ebsStorage) (from to : blockstorage.Snapshot.t)
    (tr : list (call awsebs.ec2E)) (o : option (Outcome blockstorage.Snapshot.t))
    (cli : awsebs.EC2.t) (csi : ec2.CopySnapshotInput.t)
    (answer : ec2.CopySnapshotOutput.t * option error) :
  Run (awsebs.SnapshotCopy s from to) tr o ->
  In (Call (awsebs.CopySnapshotWithContext cli csi) answer) tr ->
  awsebs.EC2.Region cli = Some (blockstorage.Snapshot.Region to) /\
  (blockstorage.Snapshot.Region to = blockstorage.Snapshot.Region from ->
   ec2.CopySnapshotInput.PresignedUrl csi = None) /\
  (blockstorage.Snapshot.Region to <> blockstorage.Snapshot.Region from ->
   exists fromCli si su,
     In (Call (awsebs.Presign fromCli si (2 * time.Hour)) (su, None)) tr /\
     awsebs.EC2.Region fromCli = Some (blockstorage.Snapshot.Region from) /\
     ec2.CopySnapshotInput.PresignedUrl csi = Some su).
Proof.
  intros Hrun Hin.
  assert (forall (R : Type) (t : itree awsebs.ec2E R) tr' o',
            calls_satisfy (onCopy (fun _ _ => False)) t ->
            Run t tr' o' ->
            ~ In (Call (awsebs.CopySnapshotWithContext cli csi) answer) tr') as Hno.
  { intros R t tr' o' Ht Hr Hin'. exact (onCopy_In _ _ _ _ _ (Ht _ _ Hr) Hin'). }
  unfold awsebs.SnapshotCopy in Hrun.
  destruct (String.eqb _ _); [ run_step Hrun; destruct Hin | ].
  destruct (negb _); [ run_step Hrun; destruct Hin | ].
  unfold awsebs.try in Hrun.
  apply Run_bind_inv in Hrun as [[-> Hrun]|(r & tr1 & tr2 & -> & Hcli & Hrun)].
  { destruct (Hno _ _ _ _ (newEC2Client_no_copy _ _) Hrun Hin). }
  apply in_app_or in Hin as [Hin|Hin].
  { destruct (Hno _ _ _ _ (newEC2Client_no_copy _ _) Hcli Hin). }
  destruct r as [dstCli|e|]; [ | run_step Hrun; destruct Hin.. ].
  apply newEC2Client_result in Hcli as ->.
  apply Run_bind_inv in Hrun as [[-> Hrun]|(r & tr3 & tr4 & -> & Hurl & Hrun)].
  { destruct (Hno _ _ _ _ (presignCopy_no_copy _ _ _ _) Hrun Hin). }
  apply in_app_or in Hin as [Hin|Hin].
  { destruct (Hno _ _ _ _ (presignCopy_no_copy _ _ _ _) Hurl Hin). }
  destruct r as [url|e|]; [ | run_step Hrun; destruct Hin.. ].
  destruct (onCopy_In _ _ _ _ _ (copyWith_copy _ _ _ _ _ _ _ Hrun) Hin) as [-> ->].
  apply presignCopy_result in Hurl as [Hsame Hcross].
  split; [ reflexivity | split ].
  - intros Heq. cbn. by apply Hsame.
  - intros Hne. destruct (Hcross Hne) as (fromCli & si & su & Hpre & Hreg & ->).
    exists fromCli, si, su. split; [ | done ].
    apply in_or_app. right. apply in_or_app. by left.
Qed.

(** The copy of a snapshot from us-west-2 into us-east-1, up to the copy
    request. *)
Lemma ebs_SnapshotCopy_presign_witness :
  let dstCli := sampleClient "us-east-1" in
  let srcCli := sampleClient "us-west-2" in
  let si :=
    {| ec2.CopySnapshotInput.Description := None;
       ec2.CopySnapshotInput.SourceSnapshotId := Some "snap-1";
       ec2.CopySnapshotInput.SourceRegion := Some "us-west-2";
       ec2.CopySnapshotInput.DestinationRegion := Some "us-east-1";
       ec2.CopySnapshotInput.Encrypted := None;
       ec2.CopySnapshotInput.PresignedUrl := None |} in
  let csi := awsebs.copySnapshotInput sampleSource dstCli (Some "https://signed") in
  let answer : ec2.CopySnapshotOutput.t * option error :=
    ({| ec2.CopySnapshotOutput.SnapshotId := Some "snap-2" |}, None) in
  let tr := [Call awsebs.NewSession None;
             Call awsebs.NewSession None;
             Call (awsebs.Presign srcCli si (120 * time.Minute))
                  ("https://signed", @None error);
             Call (awsebs.CopySnapshotWithContext dstCli csi) answer] in
  Run (awsebs.SnapshotCopy (Env := sampleEnvironment) sampleStorage sampleSource
         (sampleDestination "us-east-1")) tr None /\
  In (Call (awsebs.CopySnapshotWithContext dstCli csi) answer) tr /\
  awsebs.EC2.Region dstCli = Some "us-east-1" /\
  ("us-east-1" = "us-west-2" -> ec2.CopySnapshotInput.PresignedUrl csi = None) /\
  ("us-east-1" <> "us-west-2" ->
   exists fromCli si su,
     In (Call (awsebs.Presign fromCli si (2 * time.Hour)) (su, None)) tr /\
     awsebs.EC2.Region fromCli = Some "us-west-2" /\
     ec2.CopySnapshotInput.PresignedUrl csi = Some su).
Proof.
  intros dstCli srcCli si csi answer tr.
  assert (Run (awsebs.SnapshotCopy (Env := sampleEnvironment) sampleStorage
                 sampleSource (sampleDestination "us-east-1")) tr None) as Hrun.
  { unfold awsebs.SnapshotCopy, awsebs.try. cbn.
    eapply (Run_bind_split _ _ _ [_] [_; _; _]); [ reflexivity | | ].
    - unfold awsebs.newEC2Client. apply Run_trigger_bind. apply Run_Ret.
    - cbn. eapply (Run_bind_split _ _ _ [_; _] [_]); [ reflexivity | | ].
      + unfold awsebs.presignCopy, awsebs.try. cbn.
        eapply (Run_bind_split _ _ _ [_] [_]); [ reflexivity | | ].
        * unfold awsebs.newEC2Client. apply Run_trigger_bind. apply Run_Ret.
        * cbn. apply Run_trigger_bind. apply Run_Ret.
      + cbn. unfold awsebs.copyWith. apply Run_trigger_bind. constructor. }
  assert (In (Call (awsebs.CopySnapshotWithContext dstCli csi) answer) tr) as Hin
    by (do 3 right; left; reflexivity).
  split; [ exact Hrun | split; [ exact Hin | ] ].
  exact (ebs_SnapshotCopy_presign sampleStorage sampleSource
           (sampleDestination "us-east-1") tr None dstCli csi answer Hrun Hin).
Defined.

(** C1.  A successful [SnapshotCopy] returns the source snapshot's Volume
    and Size and the destination region; its ID, tags, encryption flag and
    creation time are those of the snapshot described by the last call of
    the run, which asks, on the client of the copy request, for the
    snapshot that the answer to the copy request names.  The volume
    identity in that description is not returned. *)
Theorem ebs_SnapshotCopy_result `{Env : Environment}
    (s : awsebs.ebsStorage) (from to : blockstorage.Snapshot.t)
    (tr : list (call awsebs.ec2E)) (rs : blockstorage.Snapshot.t) :
  Run (awsebs.SnapshotCopy s from to) tr (Some (Ok rs)) ->
  blockstorage.Snapshot.Volume rs = blockstorage.Snapshot.Volume from /\
  is_Some (blockstorage.Snapshot.Volume from) /\
  blockstorage.Snapshot.Size rs = blockstorage.Snapshot.Size from /\
  blockstorage.Snapshot.Region rs = blockstorage.Snapshot.Region to /\
  exists cli csi cso tr0 dso snap,
    In (Call (awsebs.CopySnapshotWithContext cli csi) (cso, None)) tr /\
    tr = (tr0 ++
          [Call (awsebs.DescribeSnapshotsWithContext cli
                   {| ec2.DescribeSnapshotsInput.SnapshotIds :=
                        [Some (aws.StringValue (ec2.CopySnapshotOutput.SnapshotId cso))];
                      ec2.DescribeSnapshotsInput.Filters := [] |})
                (dso, None)])%list /\
    ec2.DescribeSnapshotsOutput.Snapshots dso = [snap] /\
    blockstorage.Snapshot.ID rs = aws.StringValue (ec2.Snapshot.SnapshotId snap) /\
    mapM awsebs.derefTag (ec2.Snapshot.Tags snap) = Some (blockstorage.Snapshot.Tags rs) /\
    blockstorage.Snapshot.Encrypted rs = aws.BoolValue (ec2.Snapshot.Encrypted snap) /\
    blockstorage.Snapshot.CreationTime rs =
      aws_time.TimeValue (ec2.Snapshot.StartTime snap).
Proof.
  unfold awsebs.SnapshotCopy, awsebs.try. intros H.
  destruct (String.eqb _ _); [ run_step H; simplify_eq | ].
  destruct (negb _); [ run_step H; simplify_eq | ].
  run_step H. destruct r as [cli|e|]; [ | run_step H; simplify_eq.. ].
  run_step H. destruct r as [url|e|]; [ | run_step H; simplify_eq.. ].
  apply copyWith_result in H
    as (cso & tr' & dso & snap & -> & Hsnaps & Hvol & Hsome & Hsize & Hreg & Hrest).
  split_and!; try done.
  exists cli, (awsebs.copySnapshotInput from cli url), cso.
  destruct Hrest as (Hid & Htags & Henc & Htime).
  eexists _, dso, snap. split_and!; try done.
  - apply in_or_app. right. apply in_or_app. right. by left.
  - rewrite app_comm_cons, !app_assoc. reflexivity.
Qed.

(** A complete copy of [sampleSource] from us-west-2 into us-east-1: two
    sessions, the presigned URL, the copy, the tags, one poll that finds
    the copy completed, and the final description. *)
Lemma ebs_SnapshotCopy_result_witness :
  let dstCli := sampleClient "us-east-1" in
  let srcCli := sampleClient "us-west-2" in
  let si :=
    {| ec2.CopySnapshotInput.Description := None;
       ec2.CopySnapshotInput.SourceSnapshotId := Some "snap-1";
       ec2.CopySnapshotInput.SourceRegion := Some "us-west-2";
       ec2.CopySnapshotInput.DestinationRegion := Some "us-east-1";
       ec2.CopySnapshotInput.Encrypted := None;
       ec2.CopySnapshotInput.PresignedUrl := None |} in
  let csi := awsebs.copySnapshotInput sampleSource dstCli (Some "https://signed") in
  let cso := {| ec2.CopySnapshotOutput.SnapshotId := Some "snap-2" |} in
  let cti := {| ec2.CreateTagsInput.Resources := [Some "snap-2"];
                ec2.CreateTagsInput.Tags := [] |} in
  let dsi := {| ec2.DescribeSnapshotsInput.SnapshotIds := [Some "snap-2"];
                ec2.DescribeSnapshotsInput.Filters := [] |} in
  let dso := {| ec2.DescribeSnapshotsOutput.Snapshots := [sampleCopy] |} in
  let tr := [Call awsebs.NewSession None;
             Call awsebs.NewSession None;
             Call (awsebs.Presign srcCli si (120 * time.Minute))
                  ("https://signed", @None error);
             Call (awsebs.CopySnapshotWithContext dstCli csi) (cso, @None error);
             Call (awsebs.CreateTags dstCli cti) None;
             Call (awsebs.DescribeSnapshotsWithContext dstCli dsi) (dso, @None error);
             Call (awsebs.DescribeSnapshotsWithContext dstCli dsi) (dso, @None error)] in
  let rs :=
    {| blockstorage.Snapshot.ID := "snap-2";
       blockstorage.Snapshot.Tags := [];
       blockstorage.Snapshot.Type_ := blockstorage.TypeEBS;
       blockstorage.Snapshot.Encrypted := true;
       blockstorage.Snapshot.Size := 8;
       blockstorage.Snapshot.Region := "us-east-1";
       blockstorage.Snapshot.Volume := Some sampleVolume;
       blockstorage.Snapshot.CreationTime := 3 |} in
  Run (awsebs.SnapshotCopy (Env := sampleEnvironment) sampleStorage sampleSource
         (sampleDestination "us-east-1")) tr (Some (Ok rs)) /\
  blockstorage.Snapshot.Volume rs = Some sampleVolume /\
  is_Some (Some sampleVolume) /\
  blockstorage.Snapshot.Size rs = 8 /\
  blockstorage.Snapshot.Region rs = "us-east-1" /\
  exists cli csi cso tr0 dso snap,
    In (Call (awsebs.CopySnapshotWithContext cli csi) (cso, None)) tr /\
    tr = (tr0 ++
          [Call (awsebs.DescribeSnapshotsWithContext cli
                   {| ec2.DescribeSnapshotsInput.SnapshotIds :=
                        [Some (aws.StringValue (ec2.CopySnapshotOutput.SnapshotId cso))];
                      ec2.DescribeSnapshotsInput.Filters := [] |})
                (dso, None)])%list /\
    ec2.DescribeSnapshotsOutput.Snapshots dso = [snap] /\
    blockstorage.Snapshot.ID rs = aws.StringValue (ec2.Snapshot.SnapshotId snap) /\
    mapM awsebs.derefTag (ec2.Snapshot.Tags snap) = Some (blockstorage.Snapshot.Tags rs) /\
    blockstorage.Snapshot.Encrypted rs = aws.BoolValue (ec2.Snapshot.Encrypted snap) /\
    blockstorage.Snapshot.CreationTime rs =
      aws_time.TimeValue (ec2.Snapshot.StartTime snap).
Proof.
  intros dstCli srcCli si csi cso cti dsi dso tr rs.
  assert (Run (awsebs.SnapshotCopy (Env := sampleEnvironment) sampleStorage
                 sampleSource (sampleDestination "us-east-1")) tr (Some (Ok rs)))
    as Hrun.
  { unfold awsebs.SnapshotCopy, awsebs.try. cbn.
    eapply (Run_bind_split _ _ _ [_] _); [ reflexivity | | ].
    { unfold awsebs.newEC2Client. apply Run_trigger_bind. apply Run_Ret. }
    cbn. eapply (Run_bind_split _ _ _ [_; _] _); [ reflexivity | | ].
    { unfold awsebs.presignCopy, awsebs.try. cbn.
      eapply (Run_bind_split _ _ _ [_] [_]); [ reflexivity | | ].
      - unfold awsebs.newEC2Client. apply Run_trigger_bind. apply Run_Ret.
      - cbn. apply Run_trigger_bind. apply Run_Ret. }
    cbn. unfold awsebs.copyWith, awsebs.try. apply Run_trigger_bind. cbn.
    eapply (Run_bind_split _ _ _ [_] _); [ reflexivity | | ].
    { unfold awsebs.setResourceTags. apply Run_trigger_bind. apply Run_Ret. }
    cbn. eapply (Run_bind_split _ _ _ [_] _); [ reflexivity | | ].
    { unfold awsebs.waitOnSnapshotID, awsebs.WaitWithBackoff.
      apply Run_iter_done.
      eapply (Run_bind_split _ _ _ [_] []); [ reflexivity | | ].
      - apply Run_trigger_bind. cbn. apply Run_Ret.
      - cbn. apply Run_Ret. }
    cbn. unfold awsebs.fetchCopy, awsebs.try, awsebs.getSnapshots.
    eapply (Run_bind_split _ _ _ [_] []); [ reflexivity | | ].
    - apply Run_trigger_bind. cbn. apply Run_Ret.
    - cbn. apply Run_Ret. }
  split; [ exact Hrun | ].
  exact (ebs_SnapshotCopy_result sampleStorage sampleSource
           (sampleDestination "us-east-1") tr rs Hrun).
Defined.

(** ** Volume creation on the elastic-block backend *)

Section VolumeCreate.
Context `{Env : Environment}.
Import awsebs.

Lemma onCreateVolume_In Q (tr : list (call ec2E)) cli cvi answer :
  Forall (onCreateVolume Q) tr ->
  In (Call (CreateVolumeWithContext cli cvi) answer) tr -> Q cli cvi.
Proof.
  intros HF Hin. rewrite Forall_forall in HF.
  apply (HF _ (proj2 (list_elem_of_In _ _) Hin)).
Qed.

Lemma waitOnVolume_no_create Q cli vol :
  calls_satisfy (onCreateVolume Q) (waitOnVolume cli vol).
Proof. unfold waitOnVolume. calls_auto. Qed.

Lemma VolumeGet_no_create Q s id zone :
  calls_satisfy (onCreateVolume Q) (VolumeGet s id zone).
Proof. unfold VolumeGet. calls_auto. Qed.

(** The create request carries the IOPS of the volume for io1 and none
    for any other type. *)
Lemma VolumeCreate_create_requests s volume :
  calls_satisfy
    (onCreateVolume (fun _ cvi =>
       ec2.CreateVolumeInput.Iops cvi =
       if String.eqb (blockstorage.Volume.VolumeType volume) ec2.VolumeTypeIo1
       then Some (blockstorage.Volume.Iops volume) else None))
    (VolumeCreate s volume).
Proof.
  unfold VolumeCreate, try, createVolume.
  apply calls_bind.
  - apply calls_bind; [ apply calls_trigger; intros; reflexivity | ].
    intros [vol err] tr _. destruct (isDryRunErr err); [ apply calls_Ret | ].
    destruct err; [ apply calls_Ret | ].
    apply calls_bind; [ apply waitOnVolume_no_create | ].
    intros [| |] ? _; apply calls_Ret.
  - intros [volID|e|] tr _; try apply calls_Ret. apply VolumeGet_no_create.
Qed.
End VolumeCreate.

(** C5, as the code has it.  In every run of [VolumeCreate], a create
    request carries the IOPS value of the volume when the subtype is io1 and
    no IOPS value otherwise; and an IOPS value supplied with another subtype
    is not rejected: the create request is the first thing the call does,
    whatever the volume. *)
Theorem ebs_VolumeCreate_iops `{Env : Environment}
    (s : awsebs.ebsStorage) (volume : blockstorage.Volume.t) :
  (forall tr o cli cvi answer,
     Run (awsebs.VolumeCreate s volume) tr o ->
     In (Call (awsebs.CreateVolumeWithContext cli cvi) answer) tr ->
     (blockstorage.Volume.VolumeType volume = ec2.VolumeTypeIo1 ->
      ec2.CreateVolumeInput.Iops cvi = Some (blockstorage.Volume.Iops volume)) /\
     (blockstorage.Volume.VolumeType volume <> ec2.VolumeTypeIo1 ->
      ec2.CreateVolumeInput.Iops cvi = None)) /\
  (exists cvi, forall answer,
     Run (awsebs.VolumeCreate s volume)
         [Call (awsebs.CreateVolumeWithContext (awsebs.ec2Cli s) cvi) answer] None).
Proof.
  split.
  - intros tr o cli cvi answer Hrun Hin.
    pose proof (VolumeCreate_create_requests s volume tr o Hrun) as HF.
    apply (onCreateVolume_In _ _ _ _ _ HF) in Hin. rewrite Hin.
    destruct (String.eqb_spec (blockstorage.Volume.VolumeType volume)
                ec2.VolumeTypeIo1); split; congruence.
  - eexists. intros answer.
    unfold awsebs.VolumeCreate, awsebs.try, awsebs.createVolume.
    apply Run_bind_stop. apply Run_trigger_bind. constructor.
Qed.

(** A volume of type gp2 with an IOPS value of 100 is created without any
    complaint. *)
Lemma sampleVolume_created :
  let cvi :=
    {| ec2.CreateVolumeInput.AvailabilityZone := Some "us-west-2a";
       ec2.CreateVolumeInput.VolumeType := Some "gp2";
       ec2.CreateVolumeInput.Encrypted := Some true;
       ec2.CreateVolumeInput.Size := Some 8;
       ec2.CreateVolumeInput.Iops := None;
       ec2.CreateVolumeInput.SnapshotId := None;
       ec2.CreateVolumeInput.TagSpecifications :=
         [ {| ec2.TagSpecification.ResourceType := Some "volume";
              ec2.TagSpecification.Tags := [] |} ];
       ec2.CreateVolumeInput.DryRun := Some false |} in
  let dvi := {| ec2.DescribeVolumesInput.VolumeIds := [Some "vol-2"];
                ec2.DescribeVolumesInput.Filters := [] |} in
  let dvo := {| ec2.DescribeVolumesOutput.Volumes := [sampleCreated] |} in
  let cli := sampleClient "us-west-2" in
  Run (awsebs.VolumeCreate (Env := sampleEnvironment) sampleStorage sampleVolume)
      [Call (awsebs.CreateVolumeWithContext cli cvi) (sampleCreated, @None error);
       Call (awsebs.DescribeVolumesWithContext cli dvi) (dvo, @None error);
       Call (awsebs.DescribeVolumesWithContext cli dvi) (dvo, @None error)]
      (Some (Ok (awsebs.volumeParse sampleStorage sampleCreated))).
Proof.
  cbn zeta. unfold awsebs.VolumeCreate, awsebs.try.
  eapply (Run_bind_split _ _ _ [_; _] [_]); [ reflexivity | | ].
  - unfold awsebs.createVolume. apply Run_trigger_bind. cbn.
    eapply (Run_bind_split _ _ _ [_] []); [ reflexivity | | ].
    + unfold awsebs.waitOnVolume. apply Run_iter_done.
      apply Run_trigger_bind. cbn. apply Run_Ret.
    + cbn. apply Run_Ret.
  - cbn. unfold awsebs.VolumeGet. apply Run_trigger_bind. cbn. apply Run_Ret.
Qed.

(** The claim as stated: an IOPS value together with a subtype other than
    io1 makes [VolumeCreate] fail.  It does not. *)
Lemma ebs_VolumeCreate_iops_counterexample :
  ~ (forall (Env : Environment) (s : awsebs.ebsStorage)
            (volume : blockstorage.Volume.t) tr r,
       blockstorage.Volume.Iops volume <> 0 ->
       blockstorage.Volume.VolumeType volume <> ec2.VolumeTypeIo1 ->
       Run (awsebs.VolumeCreate s volume) tr (Some r) ->
       exists e, r = Err e).
Proof.
  intros Hclaim.
  destruct (Hclaim sampleEnvironment sampleStorage sampleVolume _ _
              ltac:(discriminate) ltac:(discriminate) sampleVolume_created)
    as [e He].
  discriminate He.
Qed.

(** The create request for [sampleVolume], of type gp2 with an IOPS value
    of 100, carries no IOPS value. *)
Lemma ebs_VolumeCreate_iops_witness :
  let cvi :=
    {| ec2.CreateVolumeInput.AvailabilityZone := Some "us-west-2a";
       ec2.CreateVolumeInput.VolumeType := Some "gp2";
       ec2.CreateVolumeInput.Encrypted := Some true;
       ec2.CreateVolumeInput.Size := Some 8;
       ec2.CreateVolumeInput.Iops := None;
       ec2.CreateVolumeInput.SnapshotId := None;
       ec2.CreateVolumeInput.TagSpecifications :=
         [ {| ec2.TagSpecification.ResourceType := Some "volume";
              ec2.TagSpecification.Tags := [] |} ];
       ec2.CreateVolumeInput.DryRun := Some false |} in
  let cli := sampleClient "us-west-2" in
  let answer : ec2.Volume.t * option error := (sampleCreated, None) in
  let tr := [Call (awsebs.CreateVolumeWithContext cli cvi) answer] in
  Run (awsebs.VolumeCreate (Env := sampleEnvironment) sampleStorage sampleVolume)
      tr None /\
  In (Call (awsebs.CreateVolumeWithContext cli cvi) answer) tr /\
  "gp2" <> ec2.VolumeTypeIo1 /\
  ec2.CreateVolumeInput.Iops cvi = None.
Proof.
  intros cvi cli answer tr.
  assert (Run (awsebs.VolumeCreate (Env := sampleEnvironment) sampleStorage
                 sampleVolume) tr None) as Hrun.
  { unfold awsebs.VolumeCreate, awsebs.try, awsebs.createVolume.
    apply Run_bind_stop. apply Run_trigger_bind. constructor. }
  assert (In (Call (awsebs.CreateVolumeWithContext cli cvi) answer) tr) as Hin
    by (left; reflexivity).
  assert ("gp2" <> ec2.VolumeTypeIo1) as Hne by discriminate.
  split; [ exact Hrun | split; [ exact Hin | split; [ exact Hne | ] ] ].
  exact (proj2 (proj1 (ebs_VolumeCreate_iops sampleStorage sampleVolume)
                  tr None cli cvi answer Hrun Hin) Hne).
Defined.

(** ** Volume creation on the managed file system *)

(** C8.  A successful [VolumeCreate] on the managed file system creates a
    file system, waits for the one the backend named in its answer, and
    then describes the file system whose identity is the ID field of the
    volume the caller passed in: the volume returned is built from that
    description, not from the new file system's. *)
Theorem efs_VolumeCreate_describes_input_id `{Hp : awsefs.Helpers}
    (e : awsefs.efs) (volume vol : blockstorage.Volume.t)
    (tr : list (call awsefs.efsE)) :
  Run (awsefs.VolumeCreate e volume) tr (Some (Ok vol)) ->
  exists token req fd created waited dso desc rest,
    tr = (Call awsefs.NewV4 token ::
          Call (awsefs.CreateFileSystemWithContext req) (fd, None) ::
          waited ++
          [Call (awsefs.DescribeFileSystemsWithContext
                   {| efs.DescribeFileSystemsInput.FileSystemId :=
                        Some (blockstorage.Volume.ID volume);
                      efs.DescribeFileSystemsInput.Marker := None |})
                (dso, None)])%list /\
    efs.FileSystemDescription.FileSystemId fd = Some created /\
    Run (awsefs.waitUntilFileSystemAvailable e created) waited (Some (Ok tt)) /\
    efs.DescribeFileSystemsOutput.FileSystems dso = desc :: rest /\
    vol = awsefs.volumeFromEFSDescription desc (blockstorage.Volume.Az volume).
Proof.
  unfold awsefs.VolumeCreate, awsefs.try. intros H.
  run_step H. run_step H. destruct x0 as [fd err].
  destruct err as [err|]; [ run_step H; simplify_eq | ].
  destruct (efs.FileSystemDescription.FileSystemId fd) as [created|] eqn:Hfd;
    [ | run_step H; simplify_eq ].
  run_step H. destruct r as [[]|err|]; [ | run_step H; simplify_eq.. ].
  run_step H. destruct r as [got|err|]; [ | run_step H; simplify_eq.. ].
  run_step H. simplify_eq.
  unfold awsefs.VolumeGet, awsefs.try, awsefs.getFileSystemDescriptionWithID in Hrun0.
  run_step Hrun0. run_step Hrun1. destruct x0 as [dso err].
  destruct err as [err|];
    [ run_step Hrun1; simplify_eq; run_step Hrun0; simplify_eq | ].
  destruct (List.length _) as [|[|n]];
    [ run_step Hrun1; simplify_eq; run_step Hrun0; simplify_eq | |
      run_step Hrun1; simplify_eq; run_step Hrun0; simplify_eq ].
  destruct (efs.DescribeFileSystemsOutput.FileSystems dso) as [|desc rest] eqn:Hdso;
    [ run_step Hrun1; simplify_eq; run_step Hrun0; simplify_eq | ].
  run_step Hrun1. simplify_eq. run_step Hrun0. simplify_eq.
  eexists x, _, fd, created, _, dso, desc, rest.
  split_and!; [ | exact Hfd | eassumption | exact Hdso | reflexivity ].
  by rewrite !app_nil_r.
Qed.

(** The caller passes a volume whose ID field names an existing file
    system, fs-old; the backend creates fs-new; the call returns the
    description of fs-old. *)
Lemma efs_VolumeCreate_describes_input_id_witness :
  let e := {| awsefs.accountID := "123456789012"; awsefs.region := "us-west-2" |} in
  let volume :=
    {| blockstorage.Volume.Type_ := blockstorage.TypeEFS;
       blockstorage.Volume.ID := "fs-old";
       blockstorage.Volume.Az := "us-west-2a";
       blockstorage.Volume.Encrypted := false;
       blockstorage.Volume.VolumeType := "";
       blockstorage.Volume.Size := 0;
       blockstorage.Volume.Tags := [];
       blockstorage.Volume.Iops := 0;
       blockstorage.Volume.CreationTime := time.zero |} in
  let req :=
    {| efs.CreateFileSystemInput.CreationToken := Some "token-1";
       efs.CreateFileSystemInput.PerformanceMode := Some "generalPurpose";
       efs.CreateFileSystemInput.ThroughputMode := Some "bursting";
       efs.CreateFileSystemInput.Tags := [] |} in
  let describe id :=
    awsefs.DescribeFileSystemsWithContext
      {| efs.DescribeFileSystemsInput.FileSystemId := Some id;
         efs.DescribeFileSystemsInput.Marker := None |} in
  let found id :=
    {| efs.DescribeFileSystemsOutput.FileSystems := [sampleFileSystem id];
       efs.DescribeFileSystemsOutput.NextMarker := None |} in
  let tr :=
    [Call awsefs.NewV4 "token-1";
     Call (awsefs.CreateFileSystemWithContext req)
          (sampleFileSystem "fs-new", @None error);
     Call (describe "fs-new") (found "fs-new", @None error);
     Call (describe "fs-old") (found "fs-old", @None error)] in
  let vol :=
    awsefs.volumeFromEFSDescription (Helpers := sampleHelpers)
      (sampleFileSystem "fs-old") "us-west-2a" in
  Run (awsefs.VolumeCreate (H := sampleHelpers) e volume) tr (Some (Ok vol)) /\
  blockstorage.Volume.ID vol = "fs-old" /\
  exists token req fd created waited dso desc rest,
    tr = (Call awsefs.NewV4 token ::
          Call (awsefs.CreateFileSystemWithContext req) (fd, None) ::
          waited ++
          [Call (awsefs.DescribeFileSystemsWithContext
                   {| efs.DescribeFileSystemsInput.FileSystemId :=
                        Some (blockstorage.Volume.ID volume);
                      efs.DescribeFileSystemsInput.Marker := None |})
                (dso, None)])%list /\
    efs.FileSystemDescription.FileSystemId fd = Some created /\
    Run (awsefs.waitUntilFileSystemAvailable (Helpers := sampleHelpers) e created)
        waited (Some (Ok tt)) /\
    efs.DescribeFileSystemsOutput.FileSystems dso = desc :: rest /\
    vol = awsefs.volumeFromEFSDescription (Helpers := sampleHelpers) desc
            (blockstorage.Volume.Az volume).
Proof.
  intros e volume req describe found tr vol.
  assert (Run (awsefs.VolumeCreate (H := sampleHelpers) e volume) tr (Some (Ok vol)))
    as Hrun.
  { unfold awsefs.VolumeCreate, awsefs.try.
    apply Run_trigger_bind. apply Run_trigger_bind. cbn.
    eapply (Run_bind_split _ _ _ [_] [_]); [ reflexivity | | ].
    { apply Run_trigger_bind. cbn. apply Run_Ret. }
    cbn. eapply (Run_bind_split _ _ _ [_] []); [ reflexivity | | ].
    - unfold awsefs.VolumeGet, awsefs.try, awsefs.getFileSystemDescriptionWithID.
      eapply (Run_bind_split _ _ _ [_] []); [ reflexivity | | ].
      + apply Run_trigger_bind. cbn. apply Run_Ret.
      + cbn. apply Run_Ret.
    - cbn. apply Run_Ret. }
  split; [ exact Hrun | split; [ reflexivity | ] ].
  exact (efs_VolumeCreate_describes_input_id e volume vol tr Hrun).
Defined.

(** * Further properties *)

(** ** Loops *)

Section LoopFacts.
Context {E : Type -> Type} {I R : Type}.
Variable body : I -> itree E (I + R).

(** Every run of a loop is made of runs of its iterations. *)
Lemma Run_iter_inv i tr o :
  Run (ITree.iter body i) tr o -> IterRun body i tr o.
Proof.
  set (K := fun lr : I + R =>
              match lr with
              | inl l => Tau (ITree.iter body l)
              | inr r => Ret r
              end).
  enough (forall (u : itree E R) tr o, Run u tr o ->
          forall b i0 pre,
            (forall tr' o', Run b tr' o' -> Run (body i0) (pre ++ tr')%list o') ->
            observe u = observe (ITree.bind b K) ->
            IterRun body i0 (pre ++ tr)%list o) as Hgen.
  { intros H. apply (Hgen _ _ _ H (body i) i []); [ done | reflexivity ]. }
  clear i tr o. intros u tr o H.
  induction H as [u | u r Hobs | u u' tr o Hobs H IH | X e k x u tr o Hobs H IH];
    intros b i0 pre Hb Hu.
  - apply IterStop. apply Hb. constructor.
  - rewrite observe_bind, Hobs in Hu.
    destruct (observe b) as [[j|r'] | b' | Y e' k''] eqn:Hobsb; cbn in Hu;
      try discriminate.
    injection Hu as ->. apply IterDone, Hb. by apply RunRet.
  - rewrite observe_bind, Hobs in Hu.
    destruct (observe b) as [[j|r'] | b' | Y e' k''] eqn:Hobsb; cbn in Hu;
      try discriminate.
    + injection Hu as ->.
      apply IterStep with (j := j); [ rewrite <- (app_nil_r pre); apply Hb; by apply RunRet | ].
      apply (IH (body j) j []); [ done | reflexivity ].
    + injection Hu as ->. apply (IH b' i0 pre); [ | reflexivity ].
      intros tr' o' H'. apply Hb. eapply RunTau; eassumption.
  - rewrite observe_bind, Hobs in Hu.
    destruct (observe b) as [[j|r'] | b' | Y e' k''] eqn:Hobsb; cbn in Hu;
      try discriminate.
    symmetry in Hu. revert x H IH.
    refine (match Hu in _ = v
                  return match v with
                         | VisF e0 k0 =>
                             forall x, Run (k0 x) tr o ->
                               (forall b0 i1 pre0,
                                  (forall tr' o', Run b0 tr' o' ->
                                                  Run (body i1) (pre0 ++ tr')%list o') ->
                                  observe (k0 x) = observe (ITree.bind b0 K) ->
                                  IterRun body i1 (pre0 ++ tr)%list o) ->
                               IterRun body i0 (pre ++ Call e0 x :: tr)%list o
                         | _ => True
                         end
            with eq_refl => _ end).
    intros x H IH.
    replace (pre ++ Call e' x :: tr)%list with ((pre ++ [Call e' x]) ++ tr)%list
      by (by rewrite <- app_assoc).
    apply (IH (k'' x)); [ | reflexivity ].
    intros tr' o' H'. rewrite <- app_assoc. apply Hb.
    eapply RunVis; eassumption.
Qed.
End LoopFacts.

(** ** Configuration *)

(** [GetConfig] succeeds exactly when the three keys region,
    AWS_ACCESS_KEY_ID and AWS_SECRET_ACCESS_KEY are present, and then
    returns their values with an empty session token; otherwise its error
    names the first key missing, in that order. *)
Theorem GetConfig_keys (config : gmap string string) :
  match awsebs.GetConfig config with
  | Ok (c, region) =>
      config !! "region" = Some region /\
      config !! "AWS_ACCESS_KEY_ID" = Some (awsebs.Config.AccessKey c) /\
      config !! "AWS_SECRET_ACCESS_KEY" = Some (awsebs.Config.Secret c) /\
      awsebs.Config.Token c = ""
  | Err e =>
      (config !! "region" = None /\
       e = errors.New "region required for storage type EBS") \/
      (is_Some (config !! "region") /\ config !! "AWS_ACCESS_KEY_ID" = None /\
       e = errors.New "AWS_ACCESS_KEY_ID required for storage type EBS") \/
      (is_Some (config !! "region") /\ is_Some (config !! "AWS_ACCESS_KEY_ID") /\
       config !! "AWS_SECRET_ACCESS_KEY" = None /\
       e = errors.New "AWS_SECRET_ACCESS_KEY required for storage type EBS")
  | Panic => False
  end.
Proof.
  unfold awsebs.GetConfig, awsebs.ConfigRegion, awsebs.AccessKeyID,
    awsebs.SecretAccessKey.
  destruct (config !! "region") as [region|]; [ | by left ].
  destruct (config !! "AWS_ACCESS_KEY_ID") as [accessKey|];
    [ | right; left; eauto ].
  destruct (config !! "AWS_SECRET_ACCESS_KEY") as [secret|];
    [ done | right; right; eauto ].
Qed.

(** ** Tags as maps *)

Section TagMaps.
Context `{Env : Environment}.

Lemma tagsToMap_snoc kvs kv :
  awsebs.tagsToMap (kvs ++ [kv]) =
  <[blockstorage.Key kv := blockstorage.Value kv]> (awsebs.tagsToMap kvs).
Proof. unfold awsebs.tagsToMap. by rewrite foldl_app. Qed.

Lemma foldl_insert_list_to_map (l : list (string * string)) (m0 : gmap string string) k :
  NoDup l.*1 ->
  foldl (fun m kv => <[kv.1 := kv.2]> m) m0 l !! k =
  match (list_to_map l : gmap string string) !! k with
  | Some v => Some v
  | None => m0 !! k
  end.
Proof.
  revert m0. induction l as [|[k0 v0] l IH]; intros m0 Hnd.
  - cbn. by rewrite lookup_empty.
  - apply NoDup_cons in Hnd as [Hk0 Hnd]. cbn [foldl]. rewrite (IH _ Hnd).
    cbn [list_to_map foldr]. cbn.
    destruct (decide (k0 = k)) as [->|Hne].
    + rewrite !lookup_insert_eq.
      by rewrite (not_elem_of_list_to_map_1 l k Hk0).
    + by rewrite !lookup_insert_ne.
Qed.
End TagMaps.

(** X1.  Turning a tag list into a map, as [VolumeCreate] and
    [SnapshotCopy] do: a key that occurs several times takes the value of
    its last occurrence, and a key that does not occur is absent. *)
Theorem tagsToMap_last_wins (kvs : list blockstorage.KeyValue) (k : string) :
  awsebs.tagsToMap kvs !! k =
  blockstorage.Value <$>
    last (List.filter (fun kv => String.eqb (blockstorage.Key kv) k) kvs).
Proof.
  induction kvs as [|kv kvs IH] using rev_ind.
  - cbn. by rewrite lookup_empty.
  - rewrite tagsToMap_snoc, List.filter_app. cbn [List.filter].
    destruct (String.eqb_spec (blockstorage.Key kv) k) as [->|Hne].
    + by rewrite lookup_insert_eq, last_snoc.
    + by rewrite lookup_insert_ne, app_nil_r.
Qed.

(** X2.  The tags sent for a map: one tag per entry, no key twice, no nil
    pointer, and reading them back as a map gives the map again. *)
Theorem mapToEC2Tags_round_trip `{Env : Environment} (tags : gmap string string) :
  List.length (awsebs.mapToEC2Tags tags) = size tags /\
  NoDup (ec2.Tag.Key <$> awsebs.mapToEC2Tags tags) /\
  mapM awsebs.derefTag (awsebs.mapToEC2Tags tags) =
    Some (awsebs.valueTag <$> awsebs.mapToEC2Tags tags) /\
  awsebs.tagsToMap (awsebs.valueTag <$> awsebs.mapToEC2Tags tags) = tags.
Proof.
  unfold awsebs.mapToEC2Tags.
  pose proof (rangeOrder_perm tags) as Hperm.
  assert (NoDup (rangeOrder tags).*1) as Hnd
    by (rewrite Hperm; apply NoDup_fst_map_to_list).
  split_and!.
  - rewrite length_fmap, Hperm. apply length_map_to_list.
  - rewrite <- list_fmap_compose.
    change (NoDup ((Some ∘ fst) <$> rangeOrder tags)).
    rewrite list_fmap_compose. apply NoDup_fmap; [ | done ].
    intros ?? Heq. by injection Heq.
  - apply mapM_Some_2, Forall2_fmap_r, Forall_Forall2_diag, Forall_fmap,
      Forall_forall.
    by intros kv _.
  - rewrite <- list_fmap_compose. unfold awsebs.tagsToMap.
    rewrite foldl_fmap. apply map_eq. intros k.
    change (foldl (fun (m : gmap string string) kv => <[kv.1 := kv.2]> m) ∅
              (rangeOrder tags) !! k = tags !! k).
    rewrite (foldl_insert_list_to_map _ _ _ Hnd), lookup_empty.
    rewrite (list_to_map_proper _ _ Hnd Hperm), list_to_map_to_list.
    by destruct (tags !! k).
Qed.


(** ** Zones *)

Lemma append_last_inj (a b : string) (c d : ascii) :
  a ++ String c "" = b ++ String d "" -> a = b /\ c = d.
Proof.
  revert b. induction a as [|x a IH]; intros [|y b] Heq.
  - by injection Heq.
  - injection Heq as _ Heq. by destruct b.
  - injection Heq as _ Heq. by destruct a.
  - injection Heq as -> Heq. destruct (IH b Heq) as [-> ->]. done.
Qed.

(** The table, entry by entry: the labels are the regions accepted, and
    the zones of a region are that region followed by one letter. *)
Lemma staticRegionToZones_shape (region : string) :
  match awsebs.staticRegionToZones region with
  | Ok zones =>
      In region awsebs.staticRegions /\ NoDup zones /\
      (2 <= List.length zones <= 6)%nat /\
      Forall (fun z => HasPrefix z region = true /\
                       exists c, In c zoneLetters /\ z = region ++ String c "") zones
  | Err e =>
      ~ In region awsebs.staticRegions /\
      e = errors.New "cannot get availability zones for region"
  | Panic => False
  end.
Proof.
  unfold awsebs.staticRegionToZones.
  repeat match goal with
  | |- context [String.eqb region ?lbl] =>
      destruct (String.eqb_spec region lbl) as [->|?];
      [ split; [ cbv [awsebs.staticRegions In]; tauto | ];
        split; [ apply (bool_decide_unpack _); by vm_compute | ];
        split; [ cbn; lia | ];
        repeat (apply Forall_cons; split;
                [ split; [ reflexivity
                         | eexists; split;
                           [ | reflexivity ]; cbv [zoneLetters In]; tauto ] | ]);
        apply Forall_nil_2 | ]
  end.
  split; [ | reflexivity ].
  cbv [awsebs.staticRegions In]. intuition congruence.
Qed.

(** X4.  The zones of a region of the table are that region followed by
    one letter from a to f, without repetition, and there are between two
    and six of them. *)
Theorem staticRegionToZones_zone_names (region : string) (zones : list string) :
  awsebs.staticRegionToZones region = Ok zones ->
  NoDup zones /\ (2 <= List.length zones <= 6)%nat /\
  Forall (fun z => exists c, In c zoneLetters /\ z = region ++ String c "") zones.
Proof.
  intros Hok. pose proof (staticRegionToZones_shape region) as H.
  rewrite Hok in H. destruct H as (_ & Hnd & Hlen & Hall).
  split; [ done | split; [ done | ] ].
  eapply Forall_impl; [ exact Hall | ]. by intros z [_ Hz].
Qed.

Lemma staticRegionToZones_zone_names_witness :
  awsebs.staticRegionToZones "sa-east-1" = Ok ["sa-east-1a"; "sa-east-1c"] /\
  NoDup ["sa-east-1a"; "sa-east-1c"] /\
  (2 <= List.length ["sa-east-1a"; "sa-east-1c"] <= 6)%nat /\
  Forall (fun z => exists c, In c zoneLetters /\ z = "sa-east-1" ++ String c "")
    ["sa-east-1a"; "sa-east-1c"].
Proof.
  split; [ reflexivity | ].
  exact (staticRegionToZones_zone_names "sa-east-1" ["sa-east-1a"; "sa-east-1c"]
           eq_refl).
Defined.

(** X5.  A zone of the table belongs to one region only: two regions that
    share a zone are the same region. *)
Theorem staticRegionToZones_zone_region (r1 r2 z : string) (zs1 zs2 : list string) :
  awsebs.staticRegionToZones r1 = Ok zs1 ->
  awsebs.staticRegionToZones r2 = Ok zs2 ->
  In z zs1 -> In z zs2 -> r1 = r2.
Proof.
  intros H1 H2 Hz1 Hz2.
  pose proof (staticRegionToZones_shape r1) as Hs1. rewrite H1 in Hs1.
  pose proof (staticRegionToZones_shape r2) as Hs2. rewrite H2 in Hs2.
  destruct Hs1 as (_ & _ & _ & Hall1). destruct Hs2 as (_ & _ & _ & Hall2).
  rewrite Forall_forall in Hall1, Hall2.
  destruct (Hall1 z (proj2 (list_elem_of_In _ _) Hz1)) as (_ & c1 & _ & ->).
  destruct (Hall2 _ (proj2 (list_elem_of_In _ _) Hz2)) as (_ & c2 & _ & Heq).
  by apply append_last_inj in Heq as [-> _].
Qed.

Lemma staticRegionToZones_zone_region_witness :
  awsebs.staticRegionToZones "us-west-1" = Ok ["us-west-1a"; "us-west-1b"] /\
  In "us-west-1b" ["us-west-1a"; "us-west-1b"] /\
  "us-west-1" = "us-west-1".
Proof.
  assert (In "us-west-1b" ["us-west-1a"; "us-west-1b"]) as Hin
    by (right; left; reflexivity).
  split; [ reflexivity | split; [ exact Hin | ] ].
  exact (staticRegionToZones_zone_region "us-west-1" "us-west-1" "us-west-1b"
           ["us-west-1a"; "us-west-1b"] ["us-west-1a"; "us-west-1b"]
           eq_refl eq_refl Hin Hin).
Defined.

(** X6.  [SnapshotRestoreTargets] makes no call.  When it succeeds the
    snapshot is not restorable everywhere, and the targets are a single
    entry: the region of the snapshot, with the zones the table has for it,
    which are not empty and start with the region; and the snapshot carries
    a volume with a type, a zone and a tag slice.  When it fails, either
    that volume information is missing or the region is not in the table. *)
Theorem SnapshotRestoreTargets_single_region (s : awsebs.ebsStorage)
    (snapshot : blockstorage.Snapshot.t) (volumeTagsNil : bool) :
  let region := blockstorage.Snapshot.Region snapshot in
  match awsebs.SnapshotRestoreTargets s snapshot volumeTagsNil with
  | Ok (global, targets) =>
      global = false /\ size targets = 1%nat /\
      (exists zl,
         targets !! region = Some zl /\ zl <> [] /\
         Forall (fun z => HasPrefix z region = true) zl) /\
      (exists volume,
         blockstorage.Snapshot.Volume snapshot = Some volume /\
         blockstorage.Volume.VolumeType volume <> "" /\
         blockstorage.Volume.Az volume <> "" /\
         volumeTagsNil = false)
  | Err e =>
      (blockstorage.Snapshot.Volume snapshot = None /\
       e = errors.New "Snapshot volume information not available") \/
      (exists volume,
         blockstorage.Snapshot.Volume snapshot = Some volume /\
         (blockstorage.Volume.VolumeType volume = "" \/
          blockstorage.Volume.Az volume = "" \/ volumeTagsNil = true) /\
         e = errors.New
               "Required volume fields not available, volumeType: %s, Az: %s, VolumeTags: %v") \/
      (~ In region awsebs.staticRegions /\
       e = errors.New "cannot get availability zones for region")
  | Panic => False
  end.
Proof.
  cbn zeta. unfold awsebs.SnapshotRestoreTargets, awsebs.checkSnapshotVolume.
  destruct (blockstorage.Snapshot.Volume snapshot) as [volume|]; [ | by left ].
  destruct (String.eqb_spec (blockstorage.Volume.VolumeType volume) "") as [Ht|Ht];
    [ right; left; eauto 6 | ].
  destruct (String.eqb_spec (blockstorage.Volume.Az volume) "") as [Ha|Ha];
    [ right; left; eauto 6 | ].
  destruct volumeTagsNil; [ right; left; eauto 6 | ]. cbn.
  pose proof (staticRegionToZones_shape (blockstorage.Snapshot.Region snapshot)) as Hs.
  destruct (awsebs.staticRegionToZones (blockstorage.Snapshot.Region snapshot))
    as [zl|e|]; [ | by right; right | done ].
  destruct Hs as (_ & _ & Hlen & Hall).
  split_and!; [ done | apply map_size_singleton | | eauto ].
  exists zl. split_and!.
  - apply lookup_singleton_eq.
  - intros ->. cbn in Hlen. lia.
  - eapply Forall_impl; [ exact Hall | ]. by intros z [Hz _].
Qed.

(** ** Calls of the elastic-block provider *)

(** X7.  [SnapshotCopy] turns down a destination without region, or with
    an identity, before any call: such a run has no call at all, and what it
    returns is the error for that input. *)
Theorem ebs_SnapshotCopy_rejects_early `{Env : Environment}
    (s : awsebs.ebsStorage) (from to : blockstorage.Snapshot.t)
    (tr : list (call awsebs.ec2E)) (r : Outcome blockstorage.Snapshot.t) :
  blockstorage.Snapshot.Region to = "" \/ blockstorage.Snapshot.ID to <> "" ->
  Run (awsebs.SnapshotCopy s from to) tr (Some r) ->
  tr = [] /\
  r = Err (errors.New
             (if String.eqb (blockstorage.Snapshot.Region to) ""
              then "Destination snapshot AvailabilityZone must be specified"
              else "Snapshot %v destination ID must be empty")).
Proof.
  intros Hbad H. unfold awsebs.SnapshotCopy in H.
  destruct (String.eqb_spec (blockstorage.Snapshot.Region to) "") as [Hr|Hr].
  - run_step H. by simplify_eq.
  - destruct Hbad as [Hbad|Hbad]; [ done | ].
    destruct (String.eqb_spec (blockstorage.Snapshot.ID to) "") as [Hi|Hi]; [ done | ].
    cbn [negb] in H. run_step H. by simplify_eq.
Qed.

Lemma ebs_SnapshotCopy_rejects_early_witness :
  let to := sampleSource in
  (blockstorage.Snapshot.Region to = "" \/ blockstorage.Snapshot.ID to <> "") /\
  Run (awsebs.SnapshotCopy (Env := sampleEnvironment) sampleStorage sampleSource to)
      [] (Some (Err (errors.New "Snapshot %v destination ID must be empty"))) /\
  @nil (call awsebs.ec2E) = [] /\
  Err (errors.New "Snapshot %v destination ID must be empty")
  = Err (A := blockstorage.Snapshot.t)
        (errors.New "Snapshot %v destination ID must be empty").
Proof.
  intros to.
  assert (blockstorage.Snapshot.Region to = "" \/ blockstorage.Snapshot.ID to <> "")
    as Hbad by (right; discriminate).
  assert (Run (awsebs.SnapshotCopy (Env := sampleEnvironment) sampleStorage
                 sampleSource to)
              [] (Some (Err (errors.New "Snapshot %v destination ID must be empty"))))
    as Hrun by (unfold awsebs.SnapshotCopy; cbn; apply Run_Ret).
  split; [ exact Hbad | split; [ exact Hrun | ] ].
  exact (ebs_SnapshotCopy_rejects_early sampleStorage sampleSource to [] _ Hbad Hrun).
Defined.

(** X8.  The two deletes of the elastic-block provider make one call, the
    delete request for the identity given with the dry-run switch of the
    client, and succeed when the backend reports no error, a resource not
    found or a dry run; any other error is returned wrapped. *)
Theorem ebs_deletes_outcome `{Env : Environment} (s : awsebs.ebsStorage) :
  (forall snapshot tr r,
     Run (awsebs.SnapshotDelete s snapshot) tr (Some r) ->
     exists answer,
       tr = [Call (awsebs.DeleteSnapshotWithContext (awsebs.ec2Cli s)
                     {| ec2.DeleteSnapshotInput.SnapshotId :=
                          Some (blockstorage.Snapshot.ID snapshot);
                        ec2.DeleteSnapshotInput.DryRun :=
                          Some (awsebs.EC2.DryRun (awsebs.ec2Cli s)) |})
                  answer] /\
       r = match answer with
           | None => Ok tt
           | Some e =>
               if isSnapNotFoundErr answer || isDryRunErr answer then Ok tt
               else Err (errors.Wrap e "Failed to delete snapshot")
           end) /\
  (forall volume tr r,
     Run (awsebs.VolumeDelete s volume) tr (Some r) ->
     exists answer,
       tr = [Call (awsebs.DeleteVolumeWithContext (awsebs.ec2Cli s)
                     {| ec2.DeleteVolumeInput.VolumeId :=
                          Some (blockstorage.Volume.ID volume);
                        ec2.DeleteVolumeInput.DryRun :=
                          Some (awsebs.EC2.DryRun (awsebs.ec2Cli s)) |})
                  answer] /\
       r = match answer with
           | None => Ok tt
           | Some e =>
               if isVolNotFoundErr answer || isDryRunErr answer then Ok tt
               else Err (errors.Wrap e "Failed to delete volume volID: %s")
           end).
Proof.
  split.
  - intros snapshot tr r H. unfold awsebs.SnapshotDelete in H.
    run_step H. exists x.
    destruct (isSnapNotFoundErr x) eqn:Hnf; [ | destruct x as [e|] ];
      [ | destruct (isDryRunErr (Some e)) eqn:Hdry | ]; cbn in H;
      run_step H; simplify_eq; (split; [ reflexivity | ]);
      cbn; try rewrite Hdry; try reflexivity.
    by destruct x.
  - intros volume tr r H. unfold awsebs.VolumeDelete in H.
    run_step H. exists x.
    destruct (isVolNotFoundErr x) eqn:Hnf; [ | destruct x as [e|] ];
      [ | destruct (isDryRunErr (Some e)) eqn:Hdry | ]; cbn in H;
      run_step H; simplify_eq; (split; [ reflexivity | ]);
      cbn; try rewrite Hdry; try reflexivity.
    by destruct x.
Qed.

(** Deleting [sampleSource] when it is already gone, and [sampleVolume]
    when the backend refuses. *)
Lemma ebs_deletes_outcome_witness :
  let gone := Some (errors.Backend "InvalidSnapshot.NotFound") in
  let refused := Some (errors.Backend "UnauthorizedOperation") in
  let cli := awsebs.ec2Cli sampleStorage in
  let rmsi := {| ec2.DeleteSnapshotInput.SnapshotId := Some "snap-1";
                 ec2.DeleteSnapshotInput.DryRun := Some false |} in
  let rmvi := {| ec2.DeleteVolumeInput.VolumeId := Some "vol-1";
                 ec2.DeleteVolumeInput.DryRun := Some false |} in
  Run (awsebs.SnapshotDelete (Env := sampleEnvironment) sampleStorage sampleSource)
      [Call (awsebs.DeleteSnapshotWithContext cli rmsi) gone] (Some (Ok tt)) /\
  Run (awsebs.VolumeDelete (Env := sampleEnvironment) sampleStorage sampleVolume)
      [Call (awsebs.DeleteVolumeWithContext cli rmvi) refused]
      (Some (Err (errors.Wrap (errors.Backend "UnauthorizedOperation")
                    "Failed to delete volume volID: %s"))) /\
  (exists answer,
     [Call (awsebs.DeleteSnapshotWithContext cli rmsi) gone]
     = [Call (awsebs.DeleteSnapshotWithContext cli rmsi) answer] /\
     Ok tt = match answer with
             | None => Ok tt
             | Some e =>
                 if isSnapNotFoundErr (Environment := sampleEnvironment) answer
                    || isDryRunErr (Environment := sampleEnvironment) answer
                 then Ok tt
                 else Err (errors.Wrap e "Failed to delete snapshot")
             end) /\
  (exists answer,
     [Call (awsebs.DeleteVolumeWithContext cli rmvi) refused]
     = [Call (awsebs.DeleteVolumeWithContext cli rmvi) answer] /\
     Err (errors.Wrap (errors.Backend "UnauthorizedOperation")
            "Failed to delete volume volID: %s")
     = match answer with
       | None => Ok tt
       | Some e =>
           if isVolNotFoundErr (Environment := sampleEnvironment) answer
              || isDryRunErr (Environment := sampleEnvironment) answer
           then Ok tt
           else Err (errors.Wrap e "Failed to delete volume volID: %s")
       end).
Proof.
  intros gone refused cli rmsi rmvi.
  assert (Run (awsebs.SnapshotDelete (Env := sampleEnvironment) sampleStorage
                 sampleSource)
              [Call (awsebs.DeleteSnapshotWithContext cli rmsi) gone] (Some (Ok tt)))
    as Hs by (unfold awsebs.SnapshotDelete; apply Run_trigger_bind; cbn; apply Run_Ret).
  assert (Run (awsebs.VolumeDelete (Env := sampleEnvironment) sampleStorage
                 sampleVolume)
              [Call (awsebs.DeleteVolumeWithContext cli rmvi) refused]
              (Some (Err (errors.Wrap (errors.Backend "UnauthorizedOperation")
                            "Failed to delete volume volID: %s"))))
    as Hv by (unfold awsebs.VolumeDelete; apply Run_trigger_bind; cbn; apply Run_Ret).
  destruct (ebs_deletes_outcome (Env := sampleEnvironment) sampleStorage)
    as [Hsnap Hvol].
  split; [ exact Hs | split; [ exact Hv | split ] ].
  - exact (Hsnap sampleSource _ _ Hs).
  - exact (Hvol sampleVolume _ _ Hv).
Defined.

(** X9.  [SetTags] on a volume or a snapshot makes one call, which sets
    exactly the tags given on the identity of the resource; on a resource
    of any other kind it makes no call and reports success. *)
Theorem ebs_SetTags_outcome `{Env : Environment} (s : awsebs.ebsStorage)
    (res : awsebs.resource) (tags : gmap string string)
    (tr : list (call awsebs.ec2E)) (r : Outcome unit) :
  Run (awsebs.SetTags s res tags) tr (Some r) ->
  match res with
  | awsebs.ResVolume (Some {| blockstorage.Volume.ID := id |})
  | awsebs.ResSnapshot (Some {| blockstorage.Snapshot.ID := id |}) =>
      exists answer,
        tr = [Call (awsebs.CreateTags (awsebs.ec2Cli s)
                      {| ec2.CreateTagsInput.Resources := [Some id];
                         ec2.CreateTagsInput.Tags := awsebs.mapToEC2Tags tags |})
                   answer] /\
        r = match answer with
            | None => Ok tt
            | Some e => Err (errors.Wrap e "Failed to set tags, resource_id:%s")
            end
  | awsebs.ResVolume None | awsebs.ResSnapshot None => tr = [] /\ r = Panic
  | awsebs.ResOther => tr = [] /\ r = Ok tt
  end.
Proof.
  unfold awsebs.SetTags, awsebs.setResourceTags. intros H.
  destruct res as [[[]|]|[[]|]|]; cbn in H |- *.
  - run_step H. exists x. destruct x; run_step H; by simplify_eq.
  - run_step H. by simplify_eq.
  - run_step H. exists x. destruct x; run_step H; by simplify_eq.
  - run_step H. by simplify_eq.
  - run_step H. by simplify_eq.
Qed.

Lemma ebs_SetTags_outcome_witness :
  Run (awsebs.SetTags (Env := sampleEnvironment) sampleStorage awsebs.ResOther
         {[ "env" := "prod" ]}) [] (Some (Ok tt)) /\
  @nil (call awsebs.ec2E) = [] /\ Ok tt = Ok tt.
Proof.
  assert (Run (awsebs.SetTags (Env := sampleEnvironment) sampleStorage
                 awsebs.ResOther {[ "env" := "prod" ]}) [] (Some (Ok tt)))
    as Hrun by apply Run_Ret.
  split; [ exact Hrun | ].
  exact (ebs_SetTags_outcome sampleStorage awsebs.ResOther {[ "env" := "prod" ]}
           [] (Ok tt) Hrun).
Defined.

(** X10.  [VolumeGet] makes one call, the describe request for that one
    identity, whatever the zone; it returns the volume described when the
    answer holds exactly one volume, the backend's error unchanged when
    there is one, and in every other case the error Object not found: the
    two later size checks of the function are never reached. *)
Theorem ebs_VolumeGet_outcome `{Env : Environment} (s : awsebs.ebsStorage)
    (id zone : string) (tr : list (call awsebs.ec2E))
    (r : Outcome blockstorage.Volume.t) :
  Run (awsebs.VolumeGet s id zone) tr (Some r) ->
  exists dvo err,
    tr = [Call (awsebs.DescribeVolumesWithContext (awsebs.ec2Cli s)
                  {| ec2.DescribeVolumesInput.VolumeIds := [Some id];
                     ec2.DescribeVolumesInput.Filters := [] |})
               (dvo, err)] /\
    r = match err, ec2.DescribeVolumesOutput.Volumes dvo with
        | Some e, _ => Err e
        | None, [vol] => Ok (awsebs.volumeParse s vol)
        | None, _ => Err (errors.New "Object not found")
        end.
Proof.
  unfold awsebs.VolumeGet. intros H. run_step H. destruct x as [dvo err].
  exists dvo, err. destruct err as [e|]; [ run_step H; by simplify_eq | ].
  destruct (ec2.DescribeVolumesOutput.Volumes dvo) as [|vol [|vol' vols]];
    cbn in H; run_step H; by simplify_eq.
Qed.

Lemma ebs_VolumeGet_outcome_witness :
  let dvi := {| ec2.DescribeVolumesInput.VolumeIds := [Some "vol-2"];
                ec2.DescribeVolumesInput.Filters := [] |} in
  let dvo := {| ec2.DescribeVolumesOutput.Volumes := [sampleCreated; sampleCreated] |} in
  let call := Call (awsebs.DescribeVolumesWithContext (awsebs.ec2Cli sampleStorage) dvi)
                   (dvo, @None error) in
  Run (awsebs.VolumeGet sampleStorage "vol-2" "us-west-2a") [call]
      (Some (Err (errors.New "Object not found"))) /\
  exists dvo' err,
    [call] = [Call (awsebs.DescribeVolumesWithContext (awsebs.ec2Cli sampleStorage) dvi)
                   (dvo', err)] /\
    Err (errors.New "Object not found")
    = match err, ec2.DescribeVolumesOutput.Volumes dvo' with
      | Some e, _ => Err e
      | None, [vol] => Ok (awsebs.volumeParse sampleStorage vol)
      | None, _ => Err (errors.New "Object not found")
      end.
Proof.
  intros dvi dvo call.
  assert (Run (awsebs.VolumeGet sampleStorage "vol-2" "us-west-2a") [call]
              (Some (Err (errors.New "Object not found")))) as Hrun
    by (unfold awsebs.VolumeGet; apply Run_trigger_bind; cbn; apply Run_Ret).
  split; [ exact Hrun | ].
  exact (ebs_VolumeGet_outcome (Env := sampleEnvironment) sampleStorage "vol-2"
           "us-west-2a" [call] _ Hrun).
Defined.

(** X11.  The filters of a list request are as many as the tags; with no
    tag there is no filter, and with a single tag the filter is that tag's
    key and value. *)
Theorem ebs_tagFilters_small `{Env : Environment} :
  (forall tags : gmap string string,
     List.length (awsebs.tagFilters tags) = size tags) /\
  awsebs.tagFilters ∅ = [] /\
  (forall k v,
     awsebs.tagFilters {[ k := v ]}
     = [ {| ec2.Filter.Name := Some k; ec2.Filter.Values := [Some v] |} ]).
Proof.
  split_and!.
  - intros tags. unfold awsebs.tagFilters. rewrite rangeFilters_alias.
    cbn [app]. rewrite length_fmap, length_replicate.
    rewrite (Permutation_length (rangeOrder_perm tags)). apply length_map_to_list.
  - apply tagFilters_empty.
  - intros k v.
    assert (rangeOrder ({[ k := v ]} : gmap string string) = [(k, v)]) as Hone.
    { pose proof (rangeOrder_perm ({[ k := v ]} : gmap string string)) as Hp.
      rewrite map_to_list_singleton in Hp. by apply Permutation_singleton_r in Hp. }
    rewrite (tagFilters_alias _ k v) by (by rewrite Hone).
    by rewrite map_size_singleton.
Qed.

(** X12.  A successful [SnapshotCreate] has made two calls: the create
    request for the volume's identity, tagged with the caller's tags and the
    bookkeeping tags, whose error, if any, was a dry run; and the
    description of the volume's zone.  The snapshot returned refers to the
    volume passed in, lies in the region of the first zone described, and
    takes its identity, encryption, size and start time from the answer to
    the create request. *)
Theorem ebs_SnapshotCreate_result `{Env : Environment} (s : awsebs.ebsStorage)
    (volume : blockstorage.Volume.t) (tags : gmap string string)
    (tr : list (call awsebs.ec2E)) (ms : blockstorage.Snapshot.t) :
  Run (awsebs.SnapshotCreate s volume tags) tr (Some (Ok ms)) ->
  exists snap err azo zone0 zones,
    tr = [Call (awsebs.CreateSnapshotWithContext (awsebs.ec2Cli s)
                  {| ec2.CreateSnapshotInput.VolumeId :=
                       Some (blockstorage.Volume.ID volume);
                     ec2.CreateSnapshotInput.TagSpecifications :=
                       [ {| ec2.TagSpecification.ResourceType := Some "snapshot";
                            ec2.TagSpecification.Tags :=
                              awsebs.mapToEC2Tags (GetTags tags) |} ];
                     ec2.CreateSnapshotInput.DryRun :=
                       Some (awsebs.EC2.DryRun (awsebs.ec2Cli s)) |})
               (snap, err);
          Call (awsebs.DescribeAvailabilityZonesWithContext (awsebs.ec2Cli s)
                  {| ec2.DescribeAvailabilityZonesInput.ZoneNames :=
                       [Some (blockstorage.Volume.Az volume)] |})
               (azo, None)] /\
    (err = None \/ isDryRunErr err = true) /\
    ec2.DescribeAvailabilityZonesOutput.AvailabilityZones azo = zone0 :: zones /\
    blockstorage.Snapshot.Volume ms = Some volume /\
    blockstorage.Snapshot.Region ms
    = aws.StringValue (ec2.AvailabilityZone.RegionName zone0) /\
    blockstorage.Snapshot.ID ms = aws.StringValue (ec2.Snapshot.SnapshotId snap) /\
    blockstorage.Snapshot.Encrypted ms = aws.BoolValue (ec2.Snapshot.Encrypted snap) /\
    blockstorage.Snapshot.Size ms = aws.Int64Value (ec2.Snapshot.VolumeSize snap) /\
    blockstorage.Snapshot.CreationTime ms
    = aws_time.TimeValue (ec2.Snapshot.StartTime snap).
Proof.
  unfold awsebs.SnapshotCreate, awsebs.try, awsebs.availabilityZoneToRegion.
  intros H. run_step H. destruct x as [snap err].
  assert (err = None \/ isDryRunErr err = true) as Herr.
  { destruct err as [e|]; [ | by left ]. right.
    destruct (isDryRunErr (Some e)); [ done | ]. cbn in H. run_step H. simplify_eq. }
  assert (match err with
          | Some e => if negb (isDryRunErr err) then Some e else None
          | None => None
          end = None) as Hfailed.
  { destruct Herr as [->|Hdry]; [ done | ]. destruct err; [ | done ].
    by rewrite Hdry. }
  rewrite Hfailed in H. clear Hfailed.
  run_step H. run_step Hrun. destruct x as [azo aerr].
  destruct aerr as [e|];
    [ run_step Hrun; simplify_eq; run_step H; simplify_eq | ].
  destruct (ec2.DescribeAvailabilityZonesOutput.AvailabilityZones azo)
    as [|zone0 zones] eqn:Hazo;
    [ run_step Hrun; simplify_eq; run_step H; simplify_eq | ].
  run_step Hrun. simplify_eq.
  unfold awsebs.snapshotParse in H.
  destruct (mapM awsebs.derefTag (ec2.Snapshot.Tags snap)) as [kvs|];
    [ | run_step H; simplify_eq ].
  run_step H. simplify_eq. cbn.
  exists snap, err, azo, zone0, zones. by split_and!.
Qed.

Lemma ebs_SnapshotCreate_result_witness :
  let cli := awsebs.ec2Cli sampleStorage in
  let csi :=
    {| ec2.CreateSnapshotInput.VolumeId := Some "vol-1";
       ec2.CreateSnapshotInput.TagSpecifications :=
         [ {| ec2.TagSpecification.ResourceType := Some "snapshot";
              ec2.TagSpecification.Tags := [] |} ];
       ec2.CreateSnapshotInput.DryRun := Some false |} in
  let azi := {| ec2.DescribeAvailabilityZonesInput.ZoneNames := [Some "us-west-2a"] |} in
  let tr := [Call (awsebs.CreateSnapshotWithContext cli csi) (sampleCopy, @None error);
             Call (awsebs.DescribeAvailabilityZonesWithContext cli azi)
                  (sampleZone, @None error)] in
  let ms :=
    {| blockstorage.Snapshot.ID := "snap-2";
       blockstorage.Snapshot.Tags := [];
       blockstorage.Snapshot.Type_ := blockstorage.TypeEBS;
       blockstorage.Snapshot.Encrypted := true;
       blockstorage.Snapshot.Size := 9;
       blockstorage.Snapshot.Region := "us-west-2";
       blockstorage.Snapshot.Volume := Some sampleVolume;
       blockstorage.Snapshot.CreationTime := 3 |} in
  Run (awsebs.SnapshotCreate (Env := sampleEnvironment) sampleStorage sampleVolume ∅)
      tr (Some (Ok ms)) /\
  blockstorage.Snapshot.Volume ms = Some sampleVolume.
Proof.
  intros cli csi azi tr ms.
  assert (Run (awsebs.SnapshotCreate (Env := sampleEnvironment) sampleStorage
                 sampleVolume ∅) tr (Some (Ok ms))) as Hrun.
  { unfold awsebs.SnapshotCreate, awsebs.try, awsebs.availabilityZoneToRegion.
    apply Run_trigger_bind. cbn.
    eapply (Run_bind_split _ _ _ [_] []); [ reflexivity | | ].
    - apply Run_trigger_bind. cbn. apply Run_Ret.
    - cbn. apply Run_Ret. }
  split; [ exact Hrun | ].
  destruct (ebs_SnapshotCreate_result _ _ _ _ _ Hrun)
    as (snap & err & azo & zone0 & zones & _ & _ & _ & Hvol & _).
  exact Hvol.
Defined.

(** X13.  When the backend answers the create request with a dry-run
    error, [VolumeCreate] does not wait for any volume: its only other call
    describes the volume whose identity is the empty string. *)
Theorem ebs_VolumeCreate_dry_run `{Env : Environment} (s : awsebs.ebsStorage)
    (volume : blockstorage.Volume.t) (tr : list (call awsebs.ec2E))
    (r : Outcome blockstorage.Volume.t) :
  Run (awsebs.VolumeCreate s volume) tr (Some r) ->
  exists cvi vol err rest,
    tr = Call (awsebs.CreateVolumeWithContext (awsebs.ec2Cli s) cvi) (vol, err) :: rest /\
    (isDryRunErr err = true ->
     exists answer,
       rest = [Call (awsebs.DescribeVolumesWithContext (awsebs.ec2Cli s)
                       {| ec2.DescribeVolumesInput.VolumeIds := [Some ""];
                          ec2.DescribeVolumesInput.Filters := [] |})
                    answer]).
Proof.
  unfold awsebs.VolumeCreate, awsebs.try, awsebs.createVolume. intros H.
  run_step H. run_step Hrun. destruct x as [vol err].
  eexists _, vol, err, _. split; [ reflexivity | ].
  intros Hdry. rewrite Hdry in Hrun. run_step Hrun. simplify_eq.
  unfold awsebs.VolumeGet in H. run_step H. exists x.
  repeat run_step H; reflexivity.
Qed.

Lemma ebs_VolumeCreate_dry_run_witness :
  let cli := awsebs.ec2Cli sampleStorage in
  let cvi :=
    {| ec2.CreateVolumeInput.AvailabilityZone := Some "us-west-2a";
       ec2.CreateVolumeInput.VolumeType := Some "gp2";
       ec2.CreateVolumeInput.Encrypted := Some true;
       ec2.CreateVolumeInput.Size := Some 8;
       ec2.CreateVolumeInput.Iops := None;
       ec2.CreateVolumeInput.SnapshotId := None;
       ec2.CreateVolumeInput.TagSpecifications :=
         [ {| ec2.TagSpecification.ResourceType := Some "volume";
              ec2.TagSpecification.Tags := [] |} ];
       ec2.CreateVolumeInput.DryRun := Some false |} in
  let dry := Some (errors.Backend "DryRunOperation") in
  let dvi := {| ec2.DescribeVolumesInput.VolumeIds := [Some ""];
                ec2.DescribeVolumesInput.Filters := [] |} in
  let dvo := {| ec2.DescribeVolumesOutput.Volumes := [] |} in
  let tr := [Call (awsebs.CreateVolumeWithContext cli cvi) (sampleCreated, dry);
             Call (awsebs.DescribeVolumesWithContext cli dvi) (dvo, @None error)] in
  Run (awsebs.VolumeCreate (Env := sampleEnvironment) sampleStorage sampleVolume) tr
      (Some (Err (errors.New "Object not found"))) /\
  isDryRunErr (Environment := sampleEnvironment) dry = true /\
  exists cvi' vol err rest,
    tr = Call (awsebs.CreateVolumeWithContext cli cvi') (vol, err) :: rest /\
    (isDryRunErr (Environment := sampleEnvironment) err = true ->
     exists answer,
       rest = [Call (awsebs.DescribeVolumesWithContext cli dvi) answer]).
Proof.
  intros cli cvi dry dvi dvo tr.
  assert (Run (awsebs.VolumeCreate (Env := sampleEnvironment) sampleStorage
                 sampleVolume) tr (Some (Err (errors.New "Object not found"))))
    as Hrun.
  { unfold awsebs.VolumeCreate, awsebs.try.
    eapply (Run_bind_split _ _ _ [_] [_]); [ reflexivity | | ].
    - unfold awsebs.createVolume. apply Run_trigger_bind. cbn. apply Run_Ret.
    - cbn. unfold awsebs.VolumeGet. apply Run_trigger_bind. cbn. apply Run_Ret. }
  split; [ exact Hrun | split; [ reflexivity | ] ].
  exact (ebs_VolumeCreate_dry_run sampleStorage sampleVolume tr _ Hrun).
Defined.

(** ** Restoring a volume from a snapshot *)

Section Restore.
Context `{Env : Environment} `{ZEnv : awsebs.ZoneEnvironment}.
Import awsebs.

(** The create request that [createVolume] sends is the input it was
    given, tagged and with the dry-run switch of the client. *)
Lemma createVolume_requests cli cvi tags :
  calls_satisfy
    (onCreateVolume (fun cli' cvi' =>
       cli' = cli /\
       cvi' =
       {| ec2.CreateVolumeInput.AvailabilityZone :=
            ec2.CreateVolumeInput.AvailabilityZone cvi;
          ec2.CreateVolumeInput.VolumeType := ec2.CreateVolumeInput.VolumeType cvi;
          ec2.CreateVolumeInput.Encrypted := ec2.CreateVolumeInput.Encrypted cvi;
          ec2.CreateVolumeInput.Size := ec2.CreateVolumeInput.Size cvi;
          ec2.CreateVolumeInput.Iops := ec2.CreateVolumeInput.Iops cvi;
          ec2.CreateVolumeInput.SnapshotId := ec2.CreateVolumeInput.SnapshotId cvi;
          ec2.CreateVolumeInput.TagSpecifications :=
            [ {| ec2.TagSpecification.ResourceType := Some "volume";
                 ec2.TagSpecification.Tags := mapToEC2Tags tags |} ];
          ec2.CreateVolumeInput.DryRun := Some (EC2.DryRun cli) |}))
    (createVolume cli cvi tags).
Proof.
  unfold createVolume.
  apply calls_bind; [ apply calls_trigger; intros; by split | ].
  intros [vol err] tr _. destruct (isDryRunErr err); [ apply calls_Ret | ].
  destruct err; [ apply calls_Ret | ].
  unfold try. apply calls_bind; [ apply waitOnVolume_no_create | ].
  intros [| |] ? _; apply calls_Ret.
Qed.

Lemma checkSnapshotVolume_Ok snapshot volumeTagsNil volume :
  checkSnapshotVolume snapshot volumeTagsNil = Ok volume ->
  blockstorage.Snapshot.Volume snapshot = Some volume /\
  blockstorage.Volume.VolumeType volume <> "" /\
  blockstorage.Volume.Az volume <> "" /\
  volumeTagsNil = false.
Proof.
  unfold checkSnapshotVolume.
  destruct (blockstorage.Snapshot.Volume snapshot) as [v|]; [ | done ].
  destruct (String.eqb_spec (blockstorage.Volume.VolumeType v) "");
    [ done | ].
  destruct (String.eqb_spec (blockstorage.Volume.Az v) ""); [ done | ].
  destruct volumeTagsNil; [ done | ]. cbn. intros [= <-]. done.
Qed.

(** X14.  [VolumeCreateFromSnapshot] calls the backend only for a snapshot
    that carries the type, the zone and the tags of its volume and for
    which exactly one restore zone was found.  Its first call is then the
    create request: in that zone, from the snapshot, with the type of the
    source volume, with IOPS for io1 only, without size or encryption
    flag, and tagged with the caller's tags completed by those tags of the
    source volume whose key the caller did not give. *)
Theorem ebs_VolumeCreateFromSnapshot_request (s : ebsStorage)
    (snapshot : blockstorage.Snapshot.t) (volumeTagsNil : bool)
    (tags : gmap string string) (tr : list (call ec2E))
    (o : option (Outcome blockstorage.Volume.t)) :
  Run (VolumeCreateFromSnapshot s snapshot volumeTagsNil tags) tr o ->
  tr <> [] ->
  exists volume zone0 answer rest,
    blockstorage.Snapshot.Volume snapshot = Some volume /\
    blockstorage.Volume.VolumeType volume <> "" /\
    blockstorage.Volume.Az volume <> "" /\
    volumeTagsNil = false /\
    FromSourceRegionZone s (blockstorage.Snapshot.Region snapshot)
      (blockstorage.Volume.Az volume) = Ok [zone0] /\
    tr =
    Call (CreateVolumeWithContext (ec2Cli s)
            {| ec2.CreateVolumeInput.AvailabilityZone := Some zone0;
               ec2.CreateVolumeInput.VolumeType :=
                 Some (blockstorage.Volume.VolumeType volume);
               ec2.CreateVolumeInput.Encrypted := None;
               ec2.CreateVolumeInput.Size := None;
               ec2.CreateVolumeInput.Iops :=
                 if String.eqb (blockstorage.Volume.VolumeType volume) "io1"
                 then Some (blockstorage.Volume.Iops volume) else None;
               ec2.CreateVolumeInput.SnapshotId :=
                 Some (blockstorage.Snapshot.ID snapshot);
               ec2.CreateVolumeInput.TagSpecifications :=
                 [ {| ec2.TagSpecification.ResourceType := Some "volume";
                      ec2.TagSpecification.Tags :=
                        mapToEC2Tags
                          (GetTags (incorporateTags tags
                                      (blockstorage.Volume.Tags volume))) |} ];
               ec2.CreateVolumeInput.DryRun := Some (EC2.DryRun (ec2Cli s)) |})
         answer :: rest.
Proof.
  unfold VolumeCreateFromSnapshot. intros H Hne.
  destruct (checkSnapshotVolume snapshot volumeTagsNil) as [volume|e|] eqn:Hcheck;
    [ | by apply Run_Ret_inv in H as [-> _].. ].
  apply checkSnapshotVolume_Ok in Hcheck as (Hvol & Hty & Haz & Hnil).
  destruct (FromSourceRegionZone s (blockstorage.Snapshot.Region snapshot)
              (blockstorage.Volume.Az volume)) as [zones|e|] eqn:Hzones;
    [ | by apply Run_Ret_inv in H as [-> _].. ].
  destruct zones as [|zone0 [|zone1 zones]];
    [ by apply Run_Ret_inv in H as [-> _] | | by apply Run_Ret_inv in H as [-> _] ].
  exists volume, zone0.
  assert (exists answer rest, tr =
    Call (CreateVolumeWithContext (ec2Cli s)
            {| ec2.CreateVolumeInput.AvailabilityZone := Some zone0;
               ec2.CreateVolumeInput.VolumeType :=
                 Some (blockstorage.Volume.VolumeType volume);
               ec2.CreateVolumeInput.Encrypted := None;
               ec2.CreateVolumeInput.Size := None;
               ec2.CreateVolumeInput.Iops :=
                 if String.eqb (blockstorage.Volume.VolumeType volume) "io1"
                 then Some (blockstorage.Volume.Iops volume) else None;
               ec2.CreateVolumeInput.SnapshotId :=
                 Some (blockstorage.Snapshot.ID snapshot);
               ec2.CreateVolumeInput.TagSpecifications :=
                 [ {| ec2.TagSpecification.ResourceType := Some "volume";
                      ec2.TagSpecification.Tags :=
                        mapToEC2Tags
                          (GetTags (incorporateTags tags
                                      (blockstorage.Volume.Tags volume))) |} ];
               ec2.CreateVolumeInput.DryRun := Some (EC2.DryRun (ec2Cli s)) |})
         answer :: rest) as (answer & rest & ->).
  { unfold try, createVolume in H.
    apply Run_bind_inv in H as [[-> H]|(r & tr1 & tr2 & -> & H1 & H2)].
    - apply Run_bind_trigger_inv in H as [[-> _]|(x & tr' & -> & _)]; [ done | ].
      by exists x, tr'.
    - apply Run_bind_trigger_inv in H1 as [[_ ?]|(x & tr' & -> & _)]; [ done | ].
      by exists x, (tr' ++ tr2)%list. }
  by exists answer, rest.
Qed.

(** The volume of a snapshot that [SnapshotGet] returns has no type. *)
Lemma SnapshotGet_volume s id tr snap :
  Run (SnapshotGet s id) tr (Some (Ok snap)) ->
  exists volume,
    blockstorage.Snapshot.Volume snap = Some volume /\
    blockstorage.Volume.VolumeType volume = "".
Proof.
  unfold SnapshotGet, try. intros H. run_step H.
  destruct r as [snaps|e|]; [ | run_step H; simplify_eq.. ].
  destruct snaps as [|snap0 snaps]; [ run_step H; simplify_eq | ].
  unfold snapshotParse in H.
  destruct (mapM derefTag (ec2.Snapshot.Tags snap0)); run_step H; simplify_eq.
  eexists. split; reflexivity.
Qed.

(** X15.  A snapshot as [SnapshotGet] returns it cannot be restored as it
    is: its volume carries an identity but neither type nor zone, so
    [SnapshotRestoreTargets] answers with the missing-fields error, and
    [VolumeCreateFromSnapshot] does the same without calling the backend. *)
Theorem ebs_SnapshotGet_not_restorable (s : ebsStorage) (id : string)
    (tr : list (call ec2E)) (snap : blockstorage.Snapshot.t) :
  Run (SnapshotGet s id) tr (Some (Ok snap)) ->
  let missing :=
    errors.New
      "Required volume fields not available, volumeType: %s, Az: %s, VolumeTags: %v" in
  forall volumeTagsNil,
    SnapshotRestoreTargets s snap volumeTagsNil = Err missing /\
    forall tags tr' r,
      Run (VolumeCreateFromSnapshot s snap volumeTagsNil tags) tr' (Some r) ->
      tr' = [] /\ r = Err missing.
Proof.
  intros Hget missing volumeTagsNil.
  apply SnapshotGet_volume in Hget as (volume & Hvol & Hty).
  assert (checkSnapshotVolume snap volumeTagsNil = Err missing) as Hcheck.
  { unfold checkSnapshotVolume. by rewrite Hvol, Hty. }
  split.
  - unfold SnapshotRestoreTargets. by rewrite Hcheck.
  - intros tags tr' r H. unfold VolumeCreateFromSnapshot in H.
    rewrite Hcheck in H. run_step H. by simplify_eq.
Qed.
End Restore.

Lemma ebs_VolumeCreateFromSnapshot_request_witness :
  let cvi :=
    {| ec2.CreateVolumeInput.AvailabilityZone := Some "us-west-2a";
       ec2.CreateVolumeInput.VolumeType := Some "gp2";
       ec2.CreateVolumeInput.Encrypted := None;
       ec2.CreateVolumeInput.Size := None;
       ec2.CreateVolumeInput.Iops := None;
       ec2.CreateVolumeInput.SnapshotId := Some "snap-1";
       ec2.CreateVolumeInput.TagSpecifications :=
         [ {| ec2.TagSpecification.ResourceType := Some "volume";
              ec2.TagSpecification.Tags :=
                awsebs.mapToEC2Tags (Env := sampleEnvironment) {[ "team" := "db" ]} |} ];
       ec2.CreateVolumeInput.DryRun := Some false |} in
  let denied := Some (errors.Backend "UnauthorizedOperation") in
  let tr := [Call (awsebs.CreateVolumeWithContext (awsebs.ec2Cli sampleStorage) cvi)
                  (sampleCreated, denied)] in
  Run (awsebs.VolumeCreateFromSnapshot (Env := sampleEnvironment)
         (ZEnv := sampleZones) sampleStorage sampleSource false {[ "team" := "db" ]})
      tr (Some (Err (errors.Backend "UnauthorizedOperation"))) /\
  tr <> [] /\
  exists volume zone0,
    blockstorage.Snapshot.Volume sampleSource = Some volume /\
    awsebs.FromSourceRegionZone (ZoneEnvironment := sampleZones) sampleStorage
      "us-west-2" (blockstorage.Volume.Az volume) = Ok [zone0].
Proof.
  intros cvi denied tr.
  assert (Run (awsebs.VolumeCreateFromSnapshot (Env := sampleEnvironment)
                 (ZEnv := sampleZones) sampleStorage sampleSource false
                 {[ "team" := "db" ]})
              tr (Some (Err (errors.Backend "UnauthorizedOperation")))) as Hrun.
  { unfold awsebs.VolumeCreateFromSnapshot. cbn.
    unfold awsebs.try.
    eapply (Run_bind_split _ _ _ [_] []); [ reflexivity | | ].
    - unfold awsebs.createVolume. apply Run_trigger_bind. cbn. apply Run_Ret.
    - cbn. apply Run_Ret. }
  assert (tr <> []) as Hne by done.
  split; [ exact Hrun | split; [ exact Hne | ] ].
  destruct (ebs_VolumeCreateFromSnapshot_request (Env := sampleEnvironment)
              (ZEnv := sampleZones) _ _ _ _ _ _ Hrun Hne)
    as (volume & zone0 & _ & _ & Hvol & _ & _ & _ & Hzones & _).
  by exists volume, zone0.
Defined.

Lemma ebs_SnapshotGet_not_restorable_witness :
  let dsi := {| ec2.DescribeSnapshotsInput.SnapshotIds := [Some "snap-2"];
                ec2.DescribeSnapshotsInput.Filters := [] |} in
  let dso := {| ec2.DescribeSnapshotsOutput.Snapshots := [sampleCopy] |} in
  let tr := [Call (awsebs.DescribeSnapshotsWithContext (awsebs.ec2Cli sampleStorage) dsi)
                  (dso, @None error)] in
  let snap :=
    {| blockstorage.Snapshot.ID := "snap-2";
       blockstorage.Snapshot.Tags := [];
       blockstorage.Snapshot.Type_ := blockstorage.TypeEBS;
       blockstorage.Snapshot.Encrypted := true;
       blockstorage.Snapshot.Size := 9;
       blockstorage.Snapshot.Region := "us-west-2";
       blockstorage.Snapshot.Volume :=
         Some {| blockstorage.Volume.Type_ := blockstorage.TypeEBS;
                 blockstorage.Volume.ID := "vol-ffffffff";
                 blockstorage.Volume.Az := "";
                 blockstorage.Volume.Encrypted := false;
                 blockstorage.Volume.VolumeType := "";
                 blockstorage.Volume.Size := 0;
                 blockstorage.Volume.Tags := [];
                 blockstorage.Volume.Iops := 0;
                 blockstorage.Volume.CreationTime := time.zero |};
       blockstorage.Snapshot.CreationTime := 3 |} in
  Run (awsebs.SnapshotGet sampleStorage "snap-2") tr (Some (Ok snap)) /\
  awsebs.SnapshotRestoreTargets sampleStorage snap false
  = Err (errors.New
      "Required volume fields not available, volumeType: %s, Az: %s, VolumeTags: %v").
Proof.
  intros dsi dso tr snap.
  assert (Run (awsebs.SnapshotGet sampleStorage "snap-2") tr (Some (Ok snap)))
    as Hrun.
  { unfold awsebs.SnapshotGet, awsebs.try.
    eapply (Run_bind_split _ _ _ [_] []); [ reflexivity | | ].
    - unfold awsebs.getSnapshots. apply Run_trigger_bind. cbn. apply Run_Ret.
    - cbn. apply Run_Ret. }
  split; [ exact Hrun | ].
  exact (proj1 (ebs_SnapshotGet_not_restorable (Env := sampleEnvironment)
                  (ZEnv := sampleZones) sampleStorage "snap-2" tr snap Hrun false)).
Defined.

(** ** Waiting for a volume *)

(** X16.  [waitOnVolume] reports success only after a description of the
    volume that the backend answered, without error, with exactly one
    volume in state available.  Before it, every description got one volume
    in a state that is neither error nor available, and was followed by a
    sleep of 10ms doubled once per earlier poll, capped at 10s.  It makes
    no other call. *)
Theorem ebs_waitOnVolume_success (cli : awsebs.EC2.t)
    (vol : ec2.Volume.t) (tr : list (call awsebs.ec2E)) :
  Run (awsebs.waitOnVolume cli vol) tr (Some (Ok tt)) ->
  let dvi := {| ec2.DescribeVolumesInput.VolumeIds := [ec2.Volume.VolumeId vol];
                ec2.DescribeVolumesInput.Filters := [] |} in
  let b := {| backoff.Factor := 2; backoff.Jitter := false;
              backoff.Min := 10 * time.Millisecond;
              backoff.Max := 10 * time.Second |} in
  exists pending final v,
    tr = (volumePolls cli dvi b 0 pending
          ++ [Call (awsebs.DescribeVolumesWithContext cli dvi) (final, None)])%list /\
    ec2.DescribeVolumesOutput.Volumes final = [v] /\
    ec2.Volume.State v = Some "available" /\
    Forall (fun dvo =>
              exists v' state,
                ec2.DescribeVolumesOutput.Volumes dvo = [v'] /\
                ec2.Volume.State v' = Some state /\
                state <> "error" /\ state <> "available") pending.
Proof.
  unfold awsebs.waitOnVolume. intros H. apply Run_iter_inv in H.
  revert H. generalize 0%nat. intros attempt H.
  remember (Some (Ok tt)) as o eqn:Ho.
  induction H as [i tr H | i tr r H | i j tr1 tr2 o H1 H2 IH].
  - discriminate.
  - injection Ho as ->. run_step H. destruct x as [dvo err].
    destruct err as [e|]; [ run_step H; simplify_eq | ].
    destruct (ec2.DescribeVolumesOutput.Volumes dvo) as [|v [|v2 vols]] eqn:Hvols;
      [ run_step H; simplify_eq | | run_step H; simplify_eq ].
    destruct (ec2.Volume.State v) as [state|] eqn:Hstate;
      [ | run_step H; simplify_eq ].
    destruct (String.eqb state ec2.VolumeStateError);
      [ run_step H; simplify_eq | ].
    destruct (ec2.Volume.VolumeId vol) as [volumeId|] eqn:Hid;
      [ | run_step H; simplify_eq ].
    destruct (String.eqb_spec state ec2.VolumeStateAvailable) as [->|Hna].
    + run_step H. exists [], dvo, v. by repeat split.
    + run_step H. run_step H. simplify_eq.
  - specialize (IH Ho). run_step H1. destruct x as [dvo err].
    destruct err as [e|]; [ run_step H1; simplify_eq | ].
    destruct (ec2.DescribeVolumesOutput.Volumes dvo) as [|v [|v2 vols]] eqn:Hvols;
      [ run_step H1; simplify_eq | | run_step H1; simplify_eq ].
    destruct (ec2.Volume.State v) as [state|] eqn:Hstate;
      [ | run_step H1; simplify_eq ].
    destruct (String.eqb_spec state ec2.VolumeStateError) as [->|Hne];
      [ run_step H1; simplify_eq | ].
    destruct (ec2.Volume.VolumeId vol) as [volumeId|] eqn:Hid;
      [ | run_step H1; simplify_eq ].
    destruct (String.eqb_spec state ec2.VolumeStateAvailable) as [->|Hna];
      [ run_step H1; simplify_eq | ].
    run_step H1. destruct x. run_step H1. simplify_eq.
    destruct IH as (pending & final & v' & -> & Hfinal & Havail & Hpending).
    exists (dvo :: pending), final, v'. repeat split; try done.
    constructor; [ | done ]. by exists v, state.
Qed.

Lemma ebs_waitOnVolume_success_witness :
  let cli := sampleClient "us-west-2" in
  let dvi := {| ec2.DescribeVolumesInput.VolumeIds := [Some "vol-2"];
                ec2.DescribeVolumesInput.Filters := [] |} in
  let creating :=
    {| ec2.DescribeVolumesOutput.Volumes :=
         [ {| ec2.Volume.VolumeId := Some "vol-2";
              ec2.Volume.AvailabilityZone := Some "us-west-2a";
              ec2.Volume.Encrypted := Some true;
              ec2.Volume.VolumeType := Some "gp2";
              ec2.Volume.Size := Some 8;
              ec2.Volume.Tags := [];
              ec2.Volume.Iops := Some 100;
              ec2.Volume.CreateTime := Some 4;
              ec2.Volume.State := Some "creating" |} ] |} in
  let ready := {| ec2.DescribeVolumesOutput.Volumes := [sampleCreated] |} in
  let tr := [Call (awsebs.DescribeVolumesWithContext cli dvi) (creating, @None error);
             Call (awsebs.Sleep 10000000) tt;
             Call (awsebs.DescribeVolumesWithContext cli dvi) (ready, @None error)] in
  Run (awsebs.waitOnVolume cli sampleCreated) tr
      (Some (Ok tt)) /\
  exists pending final v,
    tr = (volumePolls cli dvi
            {| backoff.Factor := 2; backoff.Jitter := false;
               backoff.Min := 10 * time.Millisecond;
               backoff.Max := 10 * time.Second |} 0 pending
          ++ [Call (awsebs.DescribeVolumesWithContext cli dvi) (final, None)])%list /\
    ec2.DescribeVolumesOutput.Volumes final = [v] /\
    ec2.Volume.State v = Some "available".
Proof.
  intros cli dvi creating ready tr.
  assert (Run (awsebs.waitOnVolume cli sampleCreated) tr
              (Some (Ok tt))) as Hrun.
  { unfold awsebs.waitOnVolume.
    eapply (Run_iter_again _ _ _ [_; _] [_]); [ reflexivity | | ].
    - apply Run_trigger_bind. cbn. apply Run_trigger_bind. apply Run_Ret.
    - apply Run_iter_done. apply Run_trigger_bind. cbn. apply Run_Ret. }
  split; [ exact Hrun | ].
  destruct (ebs_waitOnVolume_success _ _ _ Hrun)
    as (pending & final & v & Htr & Hfinal & Havail & _).
  by exists pending, final, v.
Defined.

(** ** Mount targets saved in tags *)

Section MountTargets.
Import awsefs.

Lemma prefix_app (p s : string) : String.prefix p (p ++ s) = true.
Proof.
  induction p as [|c p IH]; [ by destruct s | ].
  rewrite append_cons, prefix_cons. by destruct (ascii_dec c c).
Qed.

Lemma dropString_app (p s : string) : dropString (String.length p) (p ++ s) = s.
Proof. induction p as [|c p IH]; [ by destruct s | exact IH ]. Qed.

Lemma prefix_dropString (p s : string) :
  String.prefix p s = true -> s = p ++ dropString (String.length p) s.
Proof.
  revert s. induction p as [|c p IH]; intros s Hp; [ by destruct s | ].
  destruct s as [|d s]; [ discriminate | ].
  rewrite prefix_cons in Hp. destruct (ascii_dec c d) as [->|]; [ | discriminate ].
  rewrite append_cons. cbn [String.length dropString]. f_equal. by apply IH.
Qed.

(** X17.  [parseMountTargetKey] inverts the prefixing of a mount-target
    identity: a key made of the prefix and an identity decodes to that
    identity, and a key that decodes is the prefix followed by the result.
    Any other key is malformed. *)
Theorem efs_parseMountTargetKey_round_trip (mountTargetKeyPrefix : string) :
  (forall id,
     parseMountTargetKey mountTargetKeyPrefix (mountTargetKeyPrefix ++ id) = Ok id) /\
  (forall key id,
     parseMountTargetKey mountTargetKeyPrefix key = Ok id ->
     key = mountTargetKeyPrefix ++ id) /\
  (forall key,
     (forall id, key <> mountTargetKeyPrefix ++ id) ->
     parseMountTargetKey mountTargetKeyPrefix key
     = Err (errors.New "Malformed string for mount target key")).
Proof.
  unfold parseMountTargetKey, HasPrefix. split_and!.
  - intros id. by rewrite prefix_app, dropString_app.
  - intros key id.
    destruct (String.prefix mountTargetKeyPrefix key) eqn:Hp; [ | discriminate ].
    cbn. intros [= <-]. by apply prefix_dropString.
  - intros key Hno.
    destruct (String.prefix mountTargetKeyPrefix key) eqn:Hp; [ | done ].
    destruct (Hno _ (prefix_dropString _ _ Hp)).
Qed.

Lemma efs_parseMountTargetKey_round_trip_witness :
  parseMountTargetKey "mt/" "mt/fsmt-1" = Ok "fsmt-1" /\
  "mt/fsmt-1" = "mt/" ++ "fsmt-1".
Proof.
  destruct (efs_parseMountTargetKey_round_trip "mt/") as (Hto & Hfrom & _).
  split; [ exact (Hto "fsmt-1") | exact (Hfrom _ _ (Hto "fsmt-1")) ].
Defined.

Lemma splitFrom_Join (elem : string) (elems : list string) :
  Forall (fun s => Contains s securityGroupSeperator = false) (elem :: elems) ->
  splitFrom securityGroupSeperator 0 "" (Join (elem :: elems) securityGroupSeperator)
  = elem :: elems.
Proof.
  revert elem. induction elems as [|next elems IH]; intros elem Hall.
  - apply Forall_cons in Hall as [Hno _]. cbn [Join].
    by rewrite (splitFrom_absent _ _ Hno).
  - apply Forall_cons in Hall as [Hno Hall].
    change (Join (elem :: next :: elems) securityGroupSeperator)
      with (elem ++ securityGroupSeperator ++ Join (next :: elems) securityGroupSeperator).
    by rewrite (splitFrom_at_separator _ _ Hno), (IH _ Hall).
Qed.

(** X18.  [parseMountTargetValue] decodes the format of the comment in the
    code: a subnet, then the security groups, all joined by the separator.
    When none of them contains the separator and the first group is not
    empty, the value decodes to exactly that subnet and those groups. *)
Theorem efs_parseMountTargetValue_round_trip (subnet sg : string)
    (sgs : list string) :
  Forall (fun s => Contains s securityGroupSeperator = false) (subnet :: sg :: sgs) ->
  sg <> "" ->
  parseMountTargetValue (Join (subnet :: sg :: sgs) securityGroupSeperator)
  = Ok {| subnetID := subnet; securityGroups := sg :: sgs |}.
Proof.
  intros Hall Hsg. unfold parseMountTargetValue, Split.
  change (match securityGroupSeperator with
          | "" => (fun c => String c "") <$>
                  list_ascii_of_string
                    (Join (subnet :: sg :: sgs) securityGroupSeperator)
          | String _ _ =>
              splitFrom securityGroupSeperator 0 ""
                (Join (subnet :: sg :: sgs) securityGroupSeperator)
          end)
    with (splitFrom securityGroupSeperator 0 ""
            (Join (subnet :: sg :: sgs) securityGroupSeperator)).
  rewrite (splitFrom_Join _ _ Hall). cbn.
  destruct sg; [ done | reflexivity ].
Qed.

Lemma efs_parseMountTargetValue_round_trip_witness :
  Forall (fun s => Contains s securityGroupSeperator = false)
         ["subnet-123"; "sg-1"; "sg-2"] /\
  "sg-1" <> "" /\
  parseMountTargetValue "subnet-123+sg-1+sg-2"
  = Ok {| subnetID := "subnet-123"; securityGroups := ["sg-1"; "sg-2"] |}.
Proof.
  assert (Forall (fun s => Contains s securityGroupSeperator = false)
                 ["subnet-123"; "sg-1"; "sg-2"]) as Hall
    by (repeat constructor).
  assert ("sg-1" <> "") as Hsg by discriminate.
  split; [ exact Hall | split; [ exact Hsg | ] ].
  exact (efs_parseMountTargetValue_round_trip "subnet-123" "sg-1" ["sg-2"] Hall Hsg).
Defined.
End MountTargets.

Section MountTargetMaps.
Import awsefs.
Variable mountTargetKeyPrefix : string.

Lemma parseMountTargetValue_Err value e :
  parseMountTargetValue value = Err e ->
  e = errors.New "Malformed string for mount target values".
Proof.
  unfold parseMountTargetValue.
  destruct (Split value securityGroupSeperator) as [|subnet [|tok1 rest]];
    cbn; congruence.
Qed.

(** What the loop leaves in [mts]: for every entry visited whose key has
    the prefix, the decoded value under the rest of the key, on top of what
    was there; and the loop goes through only if every such value
    decodes. *)
Lemma filterRange_mts (order : list (string * string)) ft0 mts0 :
  NoDup order.*1 ->
  match filterRange mountTargetKeyPrefix order ft0 mts0 with
  | Ok (_, mts) =>
      (forall k v, (k, v) ∈ order -> HasPrefix k mountTargetKeyPrefix = true ->
                   exists mt, parseMountTargetValue v = Ok mt) /\
      forall id,
        mts !! id =
        match (list_to_map order : gmap string string) !! (mountTargetKeyPrefix ++ id) with
        | Some v =>
            match parseMountTargetValue v with
            | Ok mt => Some mt
            | _ => None
            end
        | None => mts0 !! id
        end
  | _ => True
  end.
Proof.
  revert ft0 mts0.
  induction order as [|[k0 v0] rest IH]; intros ft0 mts0 Hnd.
  - cbn. split; [ intros k v Hin; by apply elem_of_nil in Hin | ].
    intros id. by rewrite lookup_empty.
  - apply NoDup_cons in Hnd as [Hk0 Hnd]. cbn [filterRange].
    assert ((list_to_map rest : gmap string string) !! k0 = None) as Hfresh
      by (by apply not_elem_of_list_to_map_1).
    destruct (HasPrefix k0 mountTargetKeyPrefix) eqn:Hpre.
    + unfold parseMountTargetKey. rewrite Hpre. cbn [negb].
      destruct (parseMountTargetValue v0) as [mt|e|] eqn:Hv; [ | done.. ].
      specialize (IH ft0 (<[dropString (String.length mountTargetKeyPrefix) k0 := mt]> mts0) Hnd).
      destruct (filterRange _ rest _ _) as [[ft mts]|e|]; [ | done.. ].
      destruct IH as [Hall Hmts]. split.
      * intros k v Hin Hp. apply elem_of_cons in Hin as [[= -> ->]|Hin]; eauto.
      * intros id. rewrite Hmts. cbn [list_to_map foldr]. cbn.
        destruct (decide (k0 = mountTargetKeyPrefix ++ id)) as [->|Hne].
        -- by rewrite lookup_insert_eq, Hfresh, dropString_app, lookup_insert_eq, Hv.
        -- rewrite (lookup_insert_ne _ k0) by done.
           destruct (list_to_map rest !! (mountTargetKeyPrefix ++ id)); [ done | ].
           apply lookup_insert_ne. intros <-. apply Hne.
           by apply prefix_dropString.
    + specialize (IH (<[k0 := v0]> ft0) mts0 Hnd).
      destruct (filterRange _ rest _ _) as [[ft mts]|e|]; [ | done.. ].
      destruct IH as [Hall Hmts]. split.
      * intros k v Hin Hp. apply elem_of_cons in Hin as [[= -> ->]|Hin]; [ | eauto ].
        congruence.
      * intros id. rewrite Hmts. cbn [list_to_map foldr]. cbn.
        rewrite lookup_insert_ne; [ done | ].
        intros ->. unfold HasPrefix in Hpre. by rewrite prefix_app in Hpre.
Qed.

Lemma list_to_map_order (tags : gmap string string) order :
  order ≡ₚ map_to_list tags ->
  NoDup order.*1 /\ (list_to_map order : gmap string string) = tags.
Proof.
  intros Hperm.
  assert (NoDup order.*1) as Hnd by (rewrite Hperm; apply NoDup_fst_map_to_list).
  split; [ done | ].
  rewrite (list_to_map_proper order (map_to_list tags) Hnd Hperm).
  apply list_to_map_to_list.
Qed.

(** X19.  The mount targets that [filterAndGetMountTargetsFromTags] returns
    are those saved in the tags: an identity has a mount target exactly when
    the tags hold the prefixed identity as a key, and the mount target is
    the decoded value of that key.  This holds for every order in which the
    map is walked. *)
Theorem efs_mount_targets_decoded (tags : gmap string string)
    (order : list (string * string)) (ft : gmap string string)
    (mts : gmap string mountTarget) :
  order ≡ₚ map_to_list tags ->
  filterAndGetMountTargetsFromTags mountTargetKeyPrefix order = Ok (ft, mts) ->
  forall id mt,
    mts !! id = Some mt <->
    exists v, tags !! (mountTargetKeyPrefix ++ id) = Some v /\
              parseMountTargetValue v = Ok mt.
Proof.
  intros Hperm Hok id mt.
  destruct (list_to_map_order tags order Hperm) as [Hnd Hmap].
  pose proof (filterRange_mts order ∅ ∅ Hnd) as Hspec.
  unfold filterAndGetMountTargetsFromTags in Hok. rewrite Hok in Hspec.
  destruct Hspec as [Hall Hmts]. rewrite Hmts, Hmap, lookup_empty.
  destruct (tags !! (mountTargetKeyPrefix ++ id)) as [v|] eqn:Hv.
  - destruct (Hall (mountTargetKeyPrefix ++ id) v) as [mt' Hmt'].
    + rewrite Hperm. by apply elem_of_map_to_list.
    + unfold HasPrefix. apply prefix_app.
    + rewrite Hmt'. split.
      * intros [= <-]. by exists v.
      * intros (v' & [= <-] & Hmt). congruence.
  - split; [ done | ]. by intros (v' & [=] & _).
Qed.

(** X20.  The outcome of [filterAndGetMountTargetsFromTags] does not depend
    on the order in which the runtime walks the map: two walks of the same
    tags give the same filtered tags and mount targets, or the same
    error. *)
Theorem efs_mount_targets_order_independent (tags : gmap string string)
    (order1 order2 : list (string * string)) :
  order1 ≡ₚ map_to_list tags ->
  order2 ≡ₚ map_to_list tags ->
  filterAndGetMountTargetsFromTags mountTargetKeyPrefix order1
  = filterAndGetMountTargetsFromTags mountTargetKeyPrefix order2.
Proof.
  intros Hperm1 Hperm2.
  destruct (list_to_map_order tags order1 Hperm1) as [Hnd1 Hmap1].
  destruct (list_to_map_order tags order2 Hperm2) as [Hnd2 Hmap2].
  pose proof (filterRange_spec mountTargetKeyPrefix order1 ∅ ∅ Hnd1) as Hft1.
  pose proof (filterRange_spec mountTargetKeyPrefix order2 ∅ ∅ Hnd2) as Hft2.
  pose proof (filterRange_mts order1 ∅ ∅ Hnd1) as Hmts1.
  pose proof (filterRange_mts order2 ∅ ∅ Hnd2) as Hmts2.
  unfold filterAndGetMountTargetsFromTags.
  destruct (filterRange mountTargetKeyPrefix order1 ∅ ∅) as [[ft1 mts1]|e1|];
    destruct (filterRange mountTargetKeyPrefix order2 ∅ ∅) as [[ft2 mts2]|e2|];
    try done.
  - destruct Hmts1 as [_ Hmts1]. destruct Hmts2 as [_ Hmts2].
    f_equal. f_equal; apply map_eq; intros k.
    + by rewrite Hft1, Hft2, Hmap1, Hmap2.
    + by rewrite Hmts1, Hmts2, Hmap1, Hmap2.
  - destruct Hft2 as (k & v & Hin & Hp & He). destruct Hmts1 as [Hall _].
    rewrite Hperm2, <- Hperm1 in Hin.
    destruct (Hall k v Hin Hp) as [mt Hmt]. congruence.
  - destruct Hft1 as (k & v & Hin & Hp & He). destruct Hmts2 as [Hall _].
    rewrite Hperm1, <- Hperm2 in Hin.
    destruct (Hall k v Hin Hp) as [mt Hmt]. congruence.
  - destruct Hft1 as (k1 & v1 & _ & _ & He1).
    destruct Hft2 as (k2 & v2 & _ & _ & He2).
    apply parseMountTargetValue_Err in He1, He2. congruence.
Qed.
End MountTargetMaps.

(** The tags of a recovery point with one saved mount target, walked in
    both orders. *)
Lemma sample_tag_orders :
  let tags : gmap string string :=
    <["mt/fsmt-1" := "subnet-1+sg-1"]> {[ "env" := "prod" ]} in
  [("mt/fsmt-1", "subnet-1+sg-1"); ("env", "prod")] ≡ₚ map_to_list tags /\
  [("env", "prod"); ("mt/fsmt-1", "subnet-1+sg-1")] ≡ₚ map_to_list tags.
Proof.
  intros tags.
  assert ([("mt/fsmt-1", "subnet-1+sg-1"); ("env", "prod")] ≡ₚ map_to_list tags)
    as Hperm.
  { unfold tags. rewrite map_to_list_insert by (by apply lookup_singleton_ne).
    by rewrite map_to_list_singleton. }
  split; [ exact Hperm | ]. rewrite <- Hperm. apply Permutation_swap.
Qed.

Lemma efs_mount_targets_decoded_witness :
  let tags : gmap string string :=
    <["mt/fsmt-1" := "subnet-1+sg-1"]> {[ "env" := "prod" ]} in
  let order := [("env", "prod"); ("mt/fsmt-1", "subnet-1+sg-1")] in
  let mt := {| awsefs.subnetID := "subnet-1"; awsefs.securityGroups := ["sg-1"] |} in
  order ≡ₚ map_to_list tags /\
  awsefs.filterAndGetMountTargetsFromTags "mt/" order
  = Ok ({[ "env" := "prod" ]}, {[ "fsmt-1" := mt ]}) /\
  exists v, tags !! ("mt/" ++ "fsmt-1") = Some v /\
            awsefs.parseMountTargetValue v = Ok mt.
Proof.
  intros tags order mt.
  pose proof (proj2 sample_tag_orders) as Hperm.
  assert (awsefs.filterAndGetMountTargetsFromTags "mt/" order
          = Ok ({[ "env" := "prod" ]}, {[ "fsmt-1" := mt ]})) as Hok
    by reflexivity.
  split; [ exact Hperm | split; [ exact Hok | ] ].
  apply (efs_mount_targets_decoded "mt/" tags order _ _ Hperm Hok "fsmt-1" mt).
  apply lookup_singleton_eq.
Defined.

Lemma efs_mount_targets_order_independent_witness :
  let tags : gmap string string :=
    <["mt/fsmt-1" := "subnet-1+sg-1"]> {[ "env" := "prod" ]} in
  let order1 := [("mt/fsmt-1", "subnet-1+sg-1"); ("env", "prod")] in
  let order2 := [("env", "prod"); ("mt/fsmt-1", "subnet-1+sg-1")] in
  order1 ≡ₚ map_to_list tags /\
  order2 ≡ₚ map_to_list tags /\
  awsefs.filterAndGetMountTargetsFromTags "mt/" order1
  = awsefs.filterAndGetMountTargetsFromTags "mt/" order2.
Proof.
  intros tags order1 order2.
  destruct sample_tag_orders as [Hperm1 Hperm2].
  split; [ exact Hperm1 | split; [ exact Hperm2 | ] ].
  exact (efs_mount_targets_order_independent "mt/" tags order1 order2 Hperm1 Hperm2).
Defined.

(** ** Listing file systems *)

Section Listing.
Context `{H : awsefs.Helpers} `{L : awsefs.ListHelpers}.
Import awsefs.

(** X21.  A successful [VolumesList] has fetched the pages of the listing
    one after the other: the first request has no marker, each further
    request carries the marker of the page before it, every page but the
    last gave a marker and the last gave none.  The volumes returned are
    those of the available file systems with the tags, page by page in the
    order fetched. *)
Theorem efs_VolumesList_pages (e : efs) (tags : gmap string string)
    (zone : string) (tr : list (call efsE)) (vols : list blockstorage.Volume.t) :
  Run (VolumesList e tags zone) tr (Some (Ok vols)) ->
  exists pages last,
    tr = pageCalls None (pages ++ [last])%list /\
    Forall (fun page => efs.DescribeFileSystemsOutput.NextMarker page <> None) pages /\
    efs.DescribeFileSystemsOutput.NextMarker last = None /\
    vols =
    List.concat ((fun page =>
               volumesFromEFSDescriptions
                 (filterAvailable
                    (filterWithTags (efs.DescribeFileSystemsOutput.FileSystems page)
                       tags)) zone) <$> (pages ++ [last])%list).
Proof.
  unfold VolumesList. intros Hrun. apply Run_iter_inv in Hrun.
  enough (forall st tr o,
            IterRun
              (fun st : option string * list blockstorage.Volume.t =>
                 let* (resp, err) :=
                   ITree.trigger
                     (DescribeFileSystemsWithContext
                        {| efs.DescribeFileSystemsInput.FileSystemId := None;
                           efs.DescribeFileSystemsInput.Marker := st.1 |}) in
                 match err with
                 | Some err => Ret (inr (Err err))
                 | None =>
                     match efs.DescribeFileSystemsOutput.NextMarker resp with
                     | Some _ =>
                         Ret (inl (efs.DescribeFileSystemsOutput.NextMarker resp,
                                   (st.2 ++
                                    volumesFromEFSDescriptions
                                      (filterAvailable
                                         (filterWithTags
                                            (efs.DescribeFileSystemsOutput.FileSystems
                                               resp) tags)) zone)%list))
                     | None =>
                         Ret (inr (Ok (st.2 ++
                                       volumesFromEFSDescriptions
                                         (filterAvailable
                                            (filterWithTags
                                               (efs.DescribeFileSystemsOutput.FileSystems
                                                  resp) tags)) zone)%list))
                     end
                 end) st tr o ->
            o = Some (Ok vols) ->
            exists pages last,
              tr = pageCalls st.1 (pages ++ [last])%list /\
              Forall (fun page =>
                        efs.DescribeFileSystemsOutput.NextMarker page <> None) pages /\
              efs.DescribeFileSystemsOutput.NextMarker last = None /\
              vols =
              (st.2 ++
               List.concat ((fun page =>
                          volumesFromEFSDescriptions
                            (filterAvailable
                               (filterWithTags
                                  (efs.DescribeFileSystemsOutput.FileSystems page)
                                  tags)) zone) <$> (pages ++ [last])%list))%list)
    as Hgen by exact (Hgen (None, []) _ _ Hrun eq_refl).
  clear Hrun tr. intros st tr o Hiter Ho.
  induction Hiter as [st tr H0 | st tr r H0 | st st' tr1 tr2 o H1 H2 IH].
  - discriminate.
  - injection Ho as ->. run_step H0. destruct x as [resp err].
    destruct err as [err|]; [ run_step H0; simplify_eq | ].
    destruct (efs.DescribeFileSystemsOutput.NextMarker resp) as [next|] eqn:Hnext;
      run_step H0; simplify_eq.
    exists [], resp. cbn. by rewrite app_nil_r.
  - specialize (IH Ho). run_step H1. destruct x as [resp err].
    destruct err as [err|]; [ run_step H1; simplify_eq | ].
    destruct (efs.DescribeFileSystemsOutput.NextMarker resp) as [next|] eqn:Hnext;
      run_step H1; simplify_eq.
    destruct IH as (pages & last & -> & Hpages & Hlast & ->).
    exists (resp :: pages), last. cbn. rewrite Hnext. split_and!; try done.
    + constructor; [ congruence | done ].
    + by rewrite <- app_assoc.
Qed.
End Listing.

Lemma efs_VolumesList_pages_witness :
  let e := {| awsefs.accountID := "123456789012"; awsefs.region := "us-west-2" |} in
  let page1 :=
    {| efs.DescribeFileSystemsOutput.FileSystems := [sampleFileSystem "fs-1"];
       efs.DescribeFileSystemsOutput.NextMarker := Some "m1" |} in
  let page2 :=
    {| efs.DescribeFileSystemsOutput.FileSystems := [sampleFileSystem "fs-2"];
       efs.DescribeFileSystemsOutput.NextMarker := None |} in
  let request marker :=
    awsefs.DescribeFileSystemsWithContext
      {| efs.DescribeFileSystemsInput.FileSystemId := None;
         efs.DescribeFileSystemsInput.Marker := marker |} in
  let tr := [Call (request None) (page1, @None error);
             Call (request (Some "m1")) (page2, @None error)] in
  let volume id :=
    awsefs.volumeFromEFSDescription (Helpers := sampleHelpers) (sampleFileSystem id) "" in
  Run (awsefs.VolumesList (H := sampleHelpers) (L := sampleListHelpers) e ∅ "") tr
      (Some (Ok [volume "fs-1"; volume "fs-2"])) /\
  exists pages last,
    tr = pageCalls None (pages ++ [last])%list /\
    efs.DescribeFileSystemsOutput.NextMarker last = None.
Proof.
  intros e page1 page2 request tr volume.
  assert (Run (awsefs.VolumesList (H := sampleHelpers) (L := sampleListHelpers)
                 e ∅ "") tr (Some (Ok [volume "fs-1"; volume "fs-2"]))) as Hrun.
  { unfold awsefs.VolumesList.
    eapply (Run_iter_again _ _ _ [_] [_]); [ reflexivity | | ].
    - apply Run_trigger_bind. cbn. apply Run_Ret.
    - apply Run_iter_done. apply Run_trigger_bind. cbn. apply Run_Ret. }
  split; [ exact Hrun | ].
  destruct (efs_VolumesList_pages (H := sampleHelpers) (L := sampleListHelpers)
              _ _ _ _ _ Hrun) as (pages & last & Htr & _ & Hlast & _).
  by exists pages, last.
Defined.

(** ** Waiting for a snapshot *)



(** ** Mount targets of a restored file system *)

Section Mounts.
Context `{M : awsefs.MountHelpers}.
Import awsefs.

Lemma createAll_run fsID mts created (tr : list (call mountE)) o :
  Run (createAll fsID mts created) tr o ->
  (exists descs,
     List.length descs = List.length mts /\
     tr = createCalls fsID mts descs /\
     o = Some (Ok (created ++ descs)%list)) \/
  (Forall isCreateMountTarget tr /\ forall c, o <> Some (Ok c)).
Proof.
  revert created tr. induction mts as [|v mts IH]; intros created tr H.
  - cbn in H. apply Run_Ret_inv in H as [-> [->| ->]].
    + right. by split.
    + left. exists []. by rewrite app_nil_r.
  - cbn [createAll] in H.
    apply Run_bind_trigger_inv in H as [[-> ->]|([mtd err] & tr' & -> & H)].
    + right. by split.
    + destruct err as [err|].
      * apply Run_Ret_inv in H as [-> [->| ->]]; right; split;
          by repeat constructor.
      * apply IH in H as [(descs & Hlen & -> & ->)|[Hall Hno]].
        -- left. exists (mtd :: descs). cbn. rewrite Hlen.
           by rewrite <- app_assoc.
        -- right. split; [ by constructor | done ].
Qed.

Lemma waitAll_run descs (tr : list (call mountE)) :
  Run (waitAll descs) tr (Some (Ok tt)) ->
  Forall (fun desc => efs.MountTargetDescription.MountTargetId desc <> None) descs /\
  tr = waitCalls descs.
Proof.
  revert tr. induction descs as [|desc descs IH]; intros tr H.
  - cbn in H. by apply Run_Ret_inv in H as [-> _].
  - cbn [waitAll] in H.
    destruct (efs.MountTargetDescription.MountTargetId desc) as [id|] eqn:Hid;
      [ | run_step H; simplify_eq ].
    run_step H. destruct x as [err|]; [ run_step H; simplify_eq | ].
    apply IH in H as [Hall ->]. split.
    + constructor; [ congruence | done ].
    + unfold waitCalls. cbn. by rewrite Hid.
Qed.

End Mounts.

